(** * Clickstream control plane: record store and pipeline service

    A shallow embedding of
      - [api/store/dynamodb/dynamodb-store.ts] (class [DynamoDbStore]) and
      - [api/service/pipeline.ts] (class [PipelineServ]),
    over a small executable model of the remote document table the store
    talks to.  JavaScript objects and table items are finite maps from
    attribute names to values; every store method is a computation in a
    state-and-error monad over the remote state. *)

From stdpp Require Import base option list strings gmap sorting pretty.
From Stdlib Require Import ZArith Lia.

Set Warnings "-register-all".
Open Scope Z_scope.

(** ** Values

    One type serves for JavaScript values and for the attribute values of
    the table: the document client converts between the two without loss
    for the kinds of value used here.  Numbers are integers (timestamps,
    counters, page numbers); [VNaN] is JavaScript's not-a-number, which only
    arises from the unary [+] applied to a non-numeric field.  [undefined]
    is the absence of a value: a field access is a map lookup returning an
    [option]. *)
Inductive Value : Type :=
  | VNull
  | VBool (b : bool)
  | VNum (n : Z)
  | VNaN
  | VStr (s : string)
  | VList (l : list Value)
  | VMap (m : gmap string Value).

Abbreviation Item := (gmap string Value).
Abbreviation Key := (string * string)%type.
Abbreviation Table := (gmap (string * string) (gmap string Value)).

Module Js.

(** [if (x)], [!x], [x ? a : b]. *)
Definition truthy (v : option Value) : bool :=
  match v with
  | None | Some VNull | Some VNaN => false
  | Some (VBool b) => b
  | Some (VNum n) => negb (n =? 0)
  | Some (VStr s) => negb (String.eqb s "")
  | Some (VList _) | Some (VMap _) => true
  end.

(** [x ?? d]. *)
Definition nullish (v : option Value) (d : Value) : Value :=
  match v with
  | None | Some VNull => d
  | Some x => x
  end.

(** [x !== s] for a string [s]. *)
Definition strict_neq_str (v : option Value) (s : string) : bool :=
  match v with
  | Some (VStr t) => negb (String.eqb t s)
  | _ => true
  end.

(** [x === s] for a string [s]. *)
Definition strict_eq_str (v : option Value) (s : string) : bool :=
  negb (strict_neq_str v s).

Definition digit_of (a : Ascii.ascii) : option Z :=
  let n := Z.of_N (Ascii.N_of_ascii a) in
  if (48 <=? n) && (n <=? 57) then Some (n - 48) else None.

Fixpoint parse_digits (acc : Z) (s : string) : option Z :=
  match s with
  | EmptyString => Some acc
  | String a r =>
      match digit_of a with
      | Some d => parse_digits (10 * acc + d) r
      | None => None
      end
  end.

(** Unary [+x], on the values the numeric fields of the catalog take:
    a string of decimal digits is read as the integer it spells (the
    empty string as 0); a document and [undefined] give [NaN].  The other
    spellings JavaScript reads as numbers (a sign, blanks around the
    digits, a fraction, an exponent, hexadecimal) are outside the integers
    of [Value] and are not modelled: such a string gives [NaN] here. *)
Definition to_number (v : option Value) : Value :=
  match v with
  | None => VNaN
  | Some VNull => VNum 0
  | Some (VBool b) => VNum (if b then 1 else 0)
  | Some (VNum n) => VNum n
  | Some VNaN => VNaN
  | Some (VStr s) =>
      match parse_digits 0 s with Some n => VNum n | None => VNaN end
  | Some (VList _) | Some (VMap _) => VNaN
  end.

(** [Array.prototype.slice(start, end)] on integer arguments. *)
Definition slice_index (len i : Z) : Z :=
  if i <? 0 then Z.max (len + i) 0 else Z.min i len.

Definition slice {A} (l : list A) (startIndex endIndex : Z) : list A :=
  let len := Z.of_nat (length l) in
  let k := slice_index len startIndex in
  let final := slice_index len endIndex in
  take (Z.to_nat (final - k)) (drop (Z.to_nat k) l).

(** [Math.ceil(a / b)].  [None] stands for an infinite or undefined
    quotient (division by zero). *)
Definition ceil_div (a b : Z) : option Z :=
  if b =? 0 then None else Some (- ((- a) / b)).

(** [Math.min(q, n)] where [q] may be infinite. *)
Definition min_inf (q : option Z) (n : Z) : Z :=
  match q with
  | Some c => Z.min c n
  | None => n
  end.

(** [Date.now().toString()]. *)
Definition toString (n : Z) : string := pretty n.

(** Interpolation [`${x}`] in a template literal. *)
Fixpoint toStr (v : Value) : string :=
  match v with
  | VNull => "null"
  | VBool b => if b then "true" else "false"
  | VNum n => pretty n
  | VNaN => "NaN"
  | VStr s => s
  | VList l =>
      String.concat ","
        ((λ x, match x with VNull => "" | _ => toStr x end) <$> l)
  | VMap _ => "[object Object]"
  end.

Definition template (v : option Value) : string :=
  match v with
  | None => "undefined"
  | Some x => toStr x
  end.

End Js.

(** [marshall(obj, { convertEmptyValues: true, removeUndefinedValues: true,
    convertClassInstanceToMap: true })], field by field: empty strings
    become the null attribute, at every depth; an [undefined] field has no
    image. *)
Fixpoint convertToAttr (v : Value) : Value :=
  match v with
  | VStr s => if String.eqb s "" then VNull else VStr s
  | VList l => VList (convertToAttr <$> l)
  | VMap m => VMap (convertToAttr <$> m)
  | _ => v
  end.

Definition marshall (o : Item) : Item := convertToAttr <$> o.

(** ** The remote table *)

Inductive Error : Type :=
  | ConditionalCheckFailedException
  | TransactionCanceledException
  | ValidationException
  | TypeError.

Module DynamoDb.

(** Comparison of an attribute with an expression value.  The values the
    store compares with are scalars; a document never equals one. *)
Definition attr_eqb (x y : Value) : bool :=
  match x, y with
  | VNull, VNull => true
  | VBool a, VBool b => Bool.eqb a b
  | VNum a, VNum b => a =? b
  | VStr a, VStr b => String.eqb a b
  | _, _ => false
  end.

(** Filter and condition expressions, with the expression attribute
    names and values substituted. *)
Inductive Cond : Type :=
  | CEq (attr : string) (v : Value)
  | CBeginsWith (attr : string) (p : string)
  | CAttrNotExists (attr : string)
  | CAnd (c1 c2 : Cond).

Fixpoint eval (c : Cond) (it : Item) : bool :=
  match c with
  | CEq a v =>
      match it !! a with Some x => attr_eqb x v | None => false end
  | CBeginsWith a p =>
      match it !! a with Some (VStr s) => String.prefix p s | _ => false end
  | CAttrNotExists a =>
      match it !! a with Some _ => false | None => true end
  | CAnd c1 c2 => eval c1 it && eval c2 it
  end.

(** [SET a1 = v1, a2 = v2, ...]. *)
Definition apply_sets (sets : list (string * Value)) (it : Item) : Item :=
  foldl (λ acc av, <[av.1 := av.2]> acc) it sets.

(** An item as the table returns it: the stored attributes together with
    the two key attributes [id] (partition key) and [type] (sort key). *)
Definition with_key (k : Key) (it : Item) : Item :=
  <["id" := VStr k.1]> (<["type" := VStr k.2]> it).

Definition key_of (it : Item) : option Key :=
  match it !! "id", it !! "type" with
  | Some (VStr i), Some (VStr t) => Some (i, t)
  | _, _ => None
  end.

Definition all_items (tbl : Table) : list Item :=
  (λ kv, with_key kv.1 kv.2) <$> map_to_list tbl.

(** [GetCommand]. *)
Definition GetItem (k : Key) (tbl : Table) : option Item :=
  with_key k <$> tbl !! k.

(** [PutCommand]: replaces the whole item. *)
Definition PutItem (it : Item) (tbl : Table) : Error + Table :=
  match key_of it with
  | Some k => inr (<[k := it]> tbl)
  | None => inl ValidationException
  end.

(** The item a condition is evaluated on: the stored one, or the item
    without any attribute when the key is free. *)
Definition current (k : Key) (tbl : Table) : Item :=
  default ∅ (GetItem k tbl).

(** [UpdateCommand] with an optional [ConditionExpression]: creates the
    item when the key is free.  The store never sets a key attribute. *)
Definition UpdateItem (k : Key) (c : option Cond)
    (sets : list (string * Value)) (tbl : Table) : Error + Table :=
  let cur := current k tbl in
  if from_option (λ c, eval c cur) true c
  then inr (<[k := apply_sets sets cur]> tbl)
  else inl ConditionalCheckFailedException.

(** [paginateScan] with a filter expression, all pages accumulated. *)
Definition Scan (flt : Cond) (tbl : Table) : list Item :=
  filter (λ it, Is_true (eval flt it)) (all_items tbl).

(** Modelled from the spec: the constant [prefixTimeGSIName] of
    [common/constants] names a secondary index whose partition key is
    [prefix] and whose sort key is an insertion-time attribute, taken to
    be [createAt].  An item is in the index when it carries both. *)
Definition gsi_sort (it : Item) : option Z :=
  match it !! "createAt" with Some (VNum n) => Some n | _ => None end.

Definition in_gsi (prefix : string) (it : Item) : bool :=
  match it !! "prefix", gsi_sort it with
  | Some (VStr p), Some _ => String.eqb p prefix
  | _, _ => false
  end.

Definition gsi_le (a b : Item) : Prop :=
  default 0 (gsi_sort a) ≤ default 0 (gsi_sort b).

#[global] Instance gsi_le_dec a b : Decision (gsi_le a b) :=
  decide (default 0 (gsi_sort a) ≤ default 0 (gsi_sort b)).

(** [paginateQuery] on the index: the items under [prefix] in index
    order ([ScanIndexForward]), then the filter expression. *)
Definition Query (prefix : string) (flt : Cond) (forward : bool)
    (tbl : Table) : list Item :=
  let indexed := filter (λ it, Is_true (in_gsi prefix it)) (all_items tbl) in
  let ordered := merge_sort gsi_le indexed in
  filter (λ it, Is_true (eval flt it))
         (if forward then ordered else reverse ordered).

(** [TransactWriteItemsCommand]. *)
Inductive TransactItem : Type :=
  | TPut (it : Item) (c : Cond)
  | TUpdate (k : Key) (c : Cond) (sets : list (string * Value)).

Definition target (t : TransactItem) : option Key :=
  match t with
  | TPut it _ => key_of it
  | TUpdate k _ _ => Some k
  end.

Definition check (tbl : Table) (t : TransactItem) : bool :=
  match t with
  | TPut it c =>
      match key_of it with
      | Some k => eval c (current k tbl)
      | None => false
      end
  | TUpdate k c _ => eval c (current k tbl)
  end.

Definition apply (tbl : Table) (t : TransactItem) : Table :=
  match t with
  | TPut it _ =>
      match key_of it with Some k => <[k := it]> tbl | None => tbl end
  | TUpdate k _ sets => <[k := apply_sets sets (current k tbl)]> tbl
  end.

(** All conditions are checked against the state before the
    transaction; the writes happen only when every one holds.  A
    transaction naming one item twice is refused. *)
Definition TransactWriteItems (ts : list TransactItem) (tbl : Table)
    : Error + Table :=
  match mapM target ts with
  | None => inl ValidationException
  | Some ks =>
      if bool_decide (NoDup ks) then
        if forallb (check tbl) ts
        then inr (foldl apply tbl ts)
        else inl TransactionCanceledException
      else inl ValidationException
  end.

End DynamoDb.

(** ** The remote state and the monad of store calls *)

(** Calls of the pipeline service that the properties below speak about:
    the status query sent to the workflow engine, and the write-back of a
    status to the table. *)
Inductive Call : Type :=
  | GetExecutionStatus (executionArn : Value)
  | UpdatePipelineStatus (k : Key) (status : Value).

Record World : Type := mkWorld {
  table : Table;                      (* [clickStreamTableName] *)
  dictionary : gmap string Item;      (* [dictionaryTableName], keyed by [name] *)
  engine : gmap string string;        (* executions of the workflow engine *)
  calls : list Call;                  (* most recent call last *)
}.

Definition set_table (t : Table) (w : World) : World :=
  mkWorld t (dictionary w) (engine w) (calls w).

Definition log (c : Call) (w : World) : World :=
  mkWorld (table w) (dictionary w) (engine w) (calls w ++ [c]).

(** A call either returns or throws, and leaves a state behind. *)
Definition M (A : Type) : Type := World → (Error + A) * World.

#[global] Instance M_ret : MRet M := λ A x w, (inr x, w).
#[global] Instance M_bind : MBind M := λ A B f m w,
  match m w with
  | (inr x, w') => f x w'
  | (inl e, w') => (inl e, w')
  end.

Definition throw {A} (e : Error) : M A := λ w, (inl e, w).
Definition gets {A} (f : World → A) : M A := λ w, (inr (f w), w).
Definition send (f : Table → Error + Table) : M unit := λ w,
  match f (table w) with
  | inr t => (inr (), set_table t w)
  | inl e => (inl e, w)
  end.
Definition tell (c : Call) : M unit := λ w, (inr (), log c w).

(** [for (x of xs) { body }]. *)
Fixpoint forEach {A} (body : A → M unit) (xs : list A) : M unit :=
  match xs with
  | [] => mret ()
  | x :: rest => body x ≫= λ _, forEach body rest
  end.

(** [for (x of xs) { ... }] where the body may assign to [x]. *)
Fixpoint forEachMut {A} (body : A → M A) (xs : list A) : M (list A) :=
  match xs with
  | [] => mret []
  | x :: rest =>
      x' ← body x; rest' ← forEachMut body rest; mret (x' :: rest')
  end.

(** ** Constants and helpers that the store imports *)

(** Modelled from the spec: [isEmpty] of [common/utils] is not among the
    sources.  It guards the optional scoping arguments of the listings
    (project id, version tag, plugin type) and tests an array of plugins:
    a value is empty when it is absent, null, the empty string, an array
    without elements or an object without fields. *)
Definition isEmpty (v : option Value) : bool :=
  match v with
  | None | Some VNull => true
  | Some (VStr s) => String.eqb s ""
  | Some (VList l) => match l with [] => true | _ => false end
  | Some (VMap m) => bool_decide (m = ∅)
  | Some _ => false
  end.

(** Modelled from the spec: [PipelineStatusType.DELETING] of
    [common/types], the DELETING marker of a pipeline status. *)
Definition DELETING : Value := VStr "DELETING".

(** [ExecutionStatus.FAILED] of the workflow engine's client. *)
Definition FAILED : string := "FAILED".

(** Attribute values written with an explicit type tag, [{ S: x }],
    [{ N: x.toString() }] and [{ BOOL: x }]: a value of another kind, or a
    missing one, cannot be sent.  For [N] the value is a number, as
    [createAt] is in every record read from the table; a string of digits,
    which [toString] would hand on unchanged, is not modelled, and the
    error for a missing value is not told apart from a refused request. *)
Definition attrS (v : option Value) : option Value :=
  match v with Some (VStr s) => Some (VStr s) | _ => None end.
Definition attrN (v : option Value) : option Value :=
  match v with Some (VNum n) => Some (VNum n) | _ => None end.
Definition attrBOOL (v : option Value) : option Value :=
  match v with Some (VBool b) => Some (VBool b) | _ => None end.

(** An object literal of attribute values; it cannot be sent when one of
    them is missing. *)
Definition fields (fs : list (string * option Value))
    : option (list (string * Value)) :=
  mapM (λ f, pair f.1 <$> f.2) fs.

(** The result of a listing. *)
Record Listing : Type := mkListing {
  totalCount : Z;
  items : list Item;
}.

(** The page selection shared, line for line, by [listProjects],
    [listApplication], [listPipeline] and [listPlugin]: [items0] is the
    value of [items] before the selection, [all] the list that is sliced. *)
Definition page (pagination : bool) (pageSize pageNumber totalCount : Z)
    (items0 all : list Item) : list Item :=
  if pagination then
    if negb (totalCount =? 0) then
      let pageNumber :=
        Js.min_inf (Js.ceil_div totalCount pageSize) pageNumber in
      let startIndex := pageSize * (pageNumber - 1) in
      let endIndex := Z.min (pageSize * pageNumber) totalCount in
      Js.slice all startIndex endIndex
    else items0
  else all.

(** ** [DynamoDbStore] *)

Module Store.
Import DynamoDb.

Definition live : Cond := CEq "deleted" (VBool false).

(** The shared tail of every point lookup:
    [if (!result.Item) return undefined;
     return !x.deleted ? x : undefined]. *)
Definition liveItem (result : option Item) : option Item :=
  match result with
  | None => None
  | Some x => if negb (Js.truthy (x !! "deleted")) then Some x else None
  end.

Definition getProject (id : string) : M (option Item) :=
  result ← gets (λ w, GetItem (id, "METADATA#" +:+ id) (table w));
  mret (liveItem result).

Definition deleteProject (id : string) : M unit :=
  records ← gets (λ w,
    Scan (CAnd (CEq "id" (VStr id)) live) (table w));
  forEach (λ project,
    match project !! "type" with
    | Some (VStr type) =>
        send (UpdateItem (id, type) None [("deleted", VBool true)])
    | _ => throw ValidationException
    end) records.

Definition listProjects (order : option string) (pagination : bool)
    (pageSize pageNumber : Z) : M Listing :=
  records ← gets (λ w,
    Query "METADATA" live (bool_decide (order = Some "asc")) (table w));
  let totalCount := Z.of_nat (length records) in
  mret (mkListing totalCount
          (page pagination pageSize pageNumber totalCount [] records)).

Definition getApplication (projectId appId : string) : M (option Item) :=
  result ← gets (λ w, GetItem (projectId, "APP#" +:+ appId) (table w));
  mret (liveItem result).

Definition listApplication (projectId : string) (order : option string)
    (pagination : bool) (pageSize pageNumber : Z) : M Listing :=
  records ← gets (λ w,
    Query "APP" (CAnd (CEq "projectId" (VStr projectId)) live)
          (bool_decide (order = Some "asc")) (table w));
  let totalCount := Z.of_nat (length records) in
  mret (mkListing totalCount
          (page pagination pageSize pageNumber totalCount [] records)).

Definition getPipeline (projectId pipelineId : string)
    (version : option string) : M (option Item) :=
  let skVersion := default "latest" version in
  result ← gets (λ w,
    GetItem (projectId, "PIPELINE#" +:+ pipelineId +:+ "#" +:+ skVersion)
            (table w));
  mret (liveItem result).

(** The snapshot of [curPipeline] that [updatePipeline] inserts. *)
Definition snapshotItem (now : Z) (pipeline curPipeline : Item)
    : option (list (string * Value)) :=
  let marshallCurPipeline := marshall curPipeline in
  fields [
    ("id", attrS (curPipeline !! "id"));
    ("type", attrS (Some (VStr ("PIPELINE#"
               +:+ Js.template (curPipeline !! "pipelineId") +:+ "#"
               +:+ Js.template (curPipeline !! "version")))));
    ("prefix", attrS (curPipeline !! "prefix"));
    ("pipelineId", attrS (curPipeline !! "pipelineId"));
    ("projectId", attrS (curPipeline !! "projectId"));
    ("name", attrS (curPipeline !! "name"));
    ("description", attrS (curPipeline !! "description"));
    ("region", attrS (curPipeline !! "region"));
    ("dataCollectionSDK", attrS (curPipeline !! "dataCollectionSDK"));
    ("status", marshallCurPipeline !! "status");
    ("tags", marshallCurPipeline !! "tags");
    ("network", marshallCurPipeline !! "network");
    ("bucket", marshallCurPipeline !! "bucket");
    ("ingestionServer", marshallCurPipeline !! "ingestionServer");
    ("etl", marshallCurPipeline !! "etl");
    ("dataAnalytics", marshallCurPipeline !! "dataAnalytics");
    ("report", marshallCurPipeline !! "report");
    ("workflow",
       Some (default (VMap ∅) (marshallCurPipeline !! "workflow")));
    ("executionName",
       attrS (Some (Js.nullish (curPipeline !! "executionName") (VStr ""))));
    ("executionArn",
       attrS (Some (Js.nullish (curPipeline !! "executionArn") (VStr ""))));
    ("version", attrS (curPipeline !! "version"));
    ("versionTag", attrS (curPipeline !! "version"));
    ("createAt", attrN (curPipeline !! "createAt"));
    ("updateAt", Some (VNum now));
    ("operator", attrS (pipeline !! "operator"));
    ("deleted", attrBOOL (pipeline !! "deleted"))
  ].

(** The [SET] clause of the update of the [latest] record, in the order
    of the update expression. *)
Definition latestSets (now : Z) (pipeline curPipeline : Item)
    : option (list (string * Value)) :=
  let marshallPipeline := marshall pipeline in
  fields [
    ("prefix", attrS (pipeline !! "prefix"));
    ("name", attrS (pipeline !! "name"));
    ("description", attrS (pipeline !! "description"));
    ("region", attrS (pipeline !! "region"));
    ("dataCollectionSDK", attrS (pipeline !! "dataCollectionSDK"));
    ("status", marshallPipeline !! "status");
    ("tags", marshallPipeline !! "tags");
    ("network", marshallPipeline !! "network");
    ("bucket", marshallPipeline !! "bucket");
    ("ingestionServer", marshallPipeline !! "ingestionServer");
    ("etl", marshallPipeline !! "etl");
    ("dataAnalytics", marshallPipeline !! "dataAnalytics");
    ("report", marshallPipeline !! "report");
    ("workflow", Some (default (VMap ∅) (marshallPipeline !! "workflow")));
    ("executionName",
       attrS (Some (Js.nullish (curPipeline !! "executionName") (VStr ""))));
    ("executionArn",
       attrS (Some (Js.nullish (curPipeline !! "executionArn") (VStr ""))));
    ("version", attrS (Some (VStr (Js.toString now))));
    ("versionTag", attrS (Some (VStr "latest")));
    ("updateAt", Some (VNum now));
    ("operator", attrS (Some (VStr "")))
  ].

Definition latestKey (pipeline : Item) : option Key :=
  match attrS (pipeline !! "id") with
  | Some (VStr id) =>
      Some (id, "PIPELINE#" +:+ Js.template (pipeline !! "pipelineId")
                  +:+ "#latest")
  | _ => None
  end.

(** The two parts of the transaction: the insertion of the snapshot,
    guarded by [attribute_not_exists(type)], and the update of the
    [latest] record, guarded by [version = pipeline.version]. *)
Definition transactItems (now : Z) (pipeline curPipeline : Item)
    : option (list TransactItem) :=
  match snapshotItem now pipeline curPipeline,
        latestKey pipeline,
        attrS (pipeline !! "version"),
        latestSets now pipeline curPipeline with
  | Some snapshot, Some key, Some conditionVersionValue, Some sets =>
      Some [ TPut (list_to_map snapshot) (CAttrNotExists "type");
             TUpdate key (CEq "version" conditionVersionValue) sets ]
  | _, _, _, _ => None
  end.

(** [now] is the value of [Date.now()] during the call. *)
Definition updatePipeline (now : Z) (pipeline curPipeline : Item)
    : M unit :=
  match transactItems now pipeline curPipeline with
  | Some params => send (TransactWriteItems params)
  | None => throw ValidationException
  end.

(** [const status = pipelines[index].status;
     if (status) { status.status = PipelineStatusType.DELETING; }]
    followed by the use of [status] as the expression value [:status].
    The assignment creates or replaces the field of an object, throws on
    a primitive (the module is strict code) and sets a property that is
    not an element on an array; an [undefined] value cannot be sent. *)
Definition deletingStatus (status : option Value) : Error + Value :=
  match status with
  | None => inl ValidationException
  | Some v =>
      if Js.truthy (Some v) then
        match v with
        | VMap m => inr (VMap (<["status" := DELETING]> m))
        | VList l => inr (VList l)
        | _ => inl TypeError
        end
      else inr v
  end.

Definition deletePipeline (projectId pipelineId : string) : M unit :=
  records ← gets (λ w,
    Scan (CAnd (CAnd (CEq "id" (VStr projectId))
                     (CBeginsWith "type" ("PIPELINE#" +:+ pipelineId)))
               live) (table w));
  forEach (λ pipeline,
    match deletingStatus (pipeline !! "status"), pipeline !! "type" with
    | inl e, _ => throw e
    | inr status, Some (VStr type) =>
        send (UpdateItem (projectId, type) None
                [("deleted", VBool true); ("status", status)])
    | inr _, _ => throw ValidationException
    end) records.

(** The filter expression of [listPipeline], built up from
    ['deleted = :d'] by the two optional clauses. *)
Definition pipelineFilter (projectId version : option string) : Cond :=
  let filterExpression := live in
  let filterExpression :=
    if negb (isEmpty (VStr <$> version))
    then CAnd filterExpression
              (CEq "versionTag" (VStr (default "" version)))
    else filterExpression in
  if negb (isEmpty (VStr <$> projectId))
  then CAnd filterExpression (CEq "id" (VStr (default "" projectId)))
  else filterExpression.

Definition listPipeline (projectId version order : option string)
    (pagination : bool) (pageSize pageNumber : Z) : M Listing :=
  records ← gets (λ w,
    Query "PIPELINE" (pipelineFilter projectId version)
          (bool_decide (order = Some "asc")) (table w));
  let totalCount := Z.of_nat (length records) in
  mret (mkListing totalCount
          (page pagination pageSize pageNumber totalCount [] records)).

Definition getDictionary (name : string) : M (option Item) :=
  gets (λ w, dictionary w !! name).

(** The body of the loop over [dic.data], which rewrites five fields of
    an entry of the catalog in place.  A primitive entry has no fields to
    assign to.  An entry that is itself an array, on which JavaScript
    would set the five fields as properties, is outside [Value] (arrays
    carry elements only) and is refused like a primitive. *)
Definition buildInPlugin (p : Value) : option Item :=
  match p with
  | VMap p =>
      let p := <["createAt" := Js.to_number (p !! "createAt")]> p in
      let p := <["updateAt" := Js.to_number (p !! "updateAt")]> p in
      let p := <["bindCount" := Js.to_number (p !! "bindCount")]> p in
      let p :=
        <["builtIn" := VBool (Js.strict_eq_str (p !! "builtIn") "true")]> p in
      let p :=
        <["deleted" := VBool (Js.strict_eq_str (p !! "deleted") "true")]> p in
      Some p
  | _ => None
  end.

(** [for (let p of dic.data) { ...; buildInPlugins.push(p) }]: the
    catalog is an array of objects (the empty string iterates as the
    empty array); anything else throws. *)
Definition buildInPlugins (dic : Item) : Error + list Item :=
  match dic !! "data" with
  | Some (VList data) =>
      match mapM buildInPlugin data with
      | Some ps => inr ps
      | None => inl TypeError
      end
  | Some (VStr "") => inr []
  | _ => inl TypeError
  end.

Definition raise {A} (r : Error + A) : M A :=
  match r with
  | inl e => throw e
  | inr x => mret x
  end.

Definition getPluginItem (pluginId : string) : M (option Item) :=
  result ← gets (λ w, GetItem (pluginId, "PLUGIN#" +:+ pluginId) (table w));
  mret (liveItem result).

Definition getPlugin (pluginId : string) : M (option Item) :=
  if String.prefix "BUILDIN" pluginId then
    dic ← getDictionary "BuildInPlugins";
    match dic with
    | Some dic =>
        buildInPlugins ← raise (buildInPlugins dic);
        let buildInPlugins :=
          filter (λ p, Is_true (Js.strict_eq_str (p !! "id") pluginId))
                 buildInPlugins in
        mret (if negb (isEmpty (Some (VList (VMap <$> buildInPlugins))))
              then head buildInPlugins else None)
    | None => getPluginItem pluginId
    end
  else getPluginItem pluginId.

(** [if (plugin.f) { updateExpression += ', f= :f'; ... }]. *)
Definition setIfPresent (plugin : Item) (f : string)
    : list (string * Value) :=
  match plugin !! f with
  | Some v => if Js.truthy (Some v) then [(f, v)] else []
  | None => []
  end.

Definition unbound : Cond := CEq "bindCount" (VNum 0).

Definition pluginSets (now : Z) (plugin : Item) : list (string * Value) :=
  [("updateAt", VNum now)]
    ++ setIfPresent plugin "description"
    ++ setIfPresent plugin "jarFile"
    ++ setIfPresent plugin "dependencyFiles"
    ++ setIfPresent plugin "mainFunction".

Definition updatePlugin (now : Z) (plugin : Item) : M unit :=
  match plugin !! "id" with
  | Some (VStr id) =>
      send (UpdateItem (id, "PLUGIN#" +:+ id) (Some unbound)
              (pluginSets now plugin))
  | _ => throw ValidationException
  end.

Definition pluginFilter (pluginType : option string) : Cond :=
  if negb (isEmpty (VStr <$> pluginType))
  then CAnd live (CEq "pluginType" (VStr (default "" pluginType)))
  else live.

(** The first half of [listPlugin]: the entries of the catalog, of the
    requested type when one is given; none without a catalog. *)
Definition listBuildIn (pluginType : option string) : M (list Item) :=
  dic ← getDictionary "BuildInPlugins";
  match dic with
  | Some dic =>
      buildInPlugins ← raise (buildInPlugins dic);
      mret (if negb (isEmpty (VStr <$> pluginType))
            then filter (λ p, Is_true (Js.strict_eq_str (p !! "pluginType")
                                         (default "" pluginType)))
                        buildInPlugins
            else buildInPlugins)
  | None => mret []
  end.

Definition listPlugin (pluginType order : option string)
    (pagination : bool) (pageSize pageNumber : Z) : M Listing :=
  buildIn ← listBuildIn pluginType;
  let plugins := mkListing (Z.of_nat (length buildIn)) buildIn in
  records ← gets (λ w,
    Query "PLUGIN" (pluginFilter pluginType)
          (bool_decide (order = Some "asc")) (table w));
  let totalCount := totalCount plugins + Z.of_nat (length records) in
  mret (mkListing totalCount
          (page pagination pageSize pageNumber totalCount
                (items plugins) (items plugins ++ records))).

Definition deletePlugin (pluginId : string) : M unit :=
  send (UpdateItem (pluginId, "PLUGIN#" +:+ pluginId) (Some unbound)
          [("deleted", VBool true)]).

(** Modelled from the spec: [updatePipelineStatus] is declared by the
    store interface the service uses, but the class under
    [store/dynamodb] has no such method.  "Write the corrected status
    back": the [status] attribute of the record the pipeline was read
    from is set to the given status. *)
Definition updatePipelineStatus (pipeline : Item) (status : Value)
    : M unit :=
  match key_of pipeline with
  | Some k =>
      tell (UpdatePipelineStatus k status) ≫= λ _,
      send (UpdateItem k None [("status", status)])
  | None => throw ValidationException
  end.

End Store.

(** ** [StackManager] *)

(** Modelled from the spec: the workflow manager of [service/stack] is not
    among the sources; its interface is
    [getExecutionStatus(executionHandle) -> status | undefined].  The
    query is answered from the engine's executions and an unknown handle
    gives [undefined]. *)
Definition getExecutionStatus (executionArn : Value) : M (option string) :=
  tell (GetExecutionStatus executionArn) ≫= λ _,
  gets (λ w,
    match executionArn with
    | VStr arn => engine w !! arn
    | _ => None
    end).

(** ** [PipelineServ] *)

Inductive Payload : Type :=
  | PNull
  | PItem (it : Item)
  | PListing (l : Listing).

(** What a handler does with its [res] and [next]: a success envelope or a
    failure envelope under an HTTP status, or the error handed to the
    error-handling middleware. *)
Inductive Response : Type :=
  | ApiSuccess (status : Z) (data : Payload) (message : option string)
  | ApiFail (status : Z) (message : string)
  | Next (error : Error).

(** [try { ... } catch (error) { next(error); }]. *)
Definition handler (body : M Response) (w : World) : Response * World :=
  match body w with
  | (inr r, w') => (r, w')
  | (inl e, w') => (Next e, w')
  end.

Module PipelineServ.

(** The reconciliation of one pipeline with the engine, the same
    statements in [list] (on each item) and in [details]. *)
Definition reconcile (pipeline : Item) : M Item :=
  match pipeline !! "executionArn" with
  | Some executionArn =>
      if Js.truthy (Some executionArn) then
        live ← getExecutionStatus executionArn;
        let curStatus := default FAILED live in
        if Js.strict_neq_str (pipeline !! "status") curStatus then
          let pipeline := <["status" := VStr curStatus]> pipeline in
          Store.updatePipelineStatus pipeline (VStr curStatus) ≫= λ _,
          mret pipeline
        else mret pipeline
      else mret pipeline
  | None => mret pipeline
  end.

(** The query string of [list]; the two numbers are taken as integers. *)
Record ListQuery : Type := mkListQuery {
  pid : option string;
  version : option string;
  order : option string;
  pageNumber : Z;
  pageSize : Z;
}.

Definition list (query : ListQuery) : World → Response * World :=
  handler (
    result ← Store.listPipeline (pid query) (version query) (order query)
               true (pageSize query) (pageNumber query);
    items ← forEachMut reconcile (items result);
    mret (ApiSuccess 200 (PListing (mkListing (totalCount result) items))
            None)).

Definition details (id pid : string) : World → Response * World :=
  handler (
    result ← Store.getPipeline pid id None;
    match result with
    | None => mret (ApiFail 404 "Pipeline not found")
    | Some result =>
        result ← reconcile result;
        mret (ApiSuccess 200 (PItem result) None)
    end).

(** [req.body.id = projectId]. *)
Definition withProjectId (body : Item) : Item :=
  match body !! "projectId" with
  | Some projectId => <["id" := projectId]> body
  | None => delete "id" body
  end.

(** The project id is sent as the partition key of the lookup and has to
    be a string; the pipeline id is interpolated into the sort key. *)
Definition update (now : Z) (body : Item) : World → Response * World :=
  handler (
    let pipeline := withProjectId body in
    match pipeline !! "id" with
    | Some (VStr id) =>
        curPipeline ← Store.getPipeline id
                        (Js.template (pipeline !! "pipelineId")) None;
        match curPipeline with
        | None => mret (ApiFail 404 "Pipeline resource does not exist.")
        | Some curPipeline =>
            Store.updatePipeline now pipeline curPipeline ≫= λ _,
            mret (ApiSuccess 201 PNull (Some "Pipeline updated."))
        end
    | _ => throw ValidationException
    end).

Definition delete (id pid : string) : World → Response * World :=
  handler (
    Store.deletePipeline pid id ≫= λ _,
    mret (ApiSuccess 200 PNull (Some "Pipeline deleted."))).

End PipelineServ.

(** ** The rest of [DynamoDbStore] *)

(** The methods of the store that create, update and check records.  As
    in [Store.updatePipeline], [now] is the value of [Date.now()] during
    the call. *)
Module Records.
Import DynamoDb.

(** [SET a = a + :b, ...]: the attribute has to be there, as a number. *)
Definition UpdateItemPlus (k : Key) (a : string) (b : Z)
    (sets : list (string * Value)) (tbl : Table) : Error + Table :=
  let cur := current k tbl in
  match cur !! a with
  | Some (VNum n) => inr (<[k := apply_sets sets (<[a := VNum (n + b)]> cur)]> tbl)
  | _ => inl ValidationException
  end.

Section docClient.

(** The translate configuration of the document client
    ([common/dynamodb-client]) is not among the sources.  Its option
    [removeUndefinedValues] decides what becomes of an [undefined] field of
    an item that is put: the field is left out, or the item is refused. *)
Context (removeUndefinedValues : bool).

Definition itemOf (fs : list (string * option Value))
    : option (list (string * Value)) :=
  if removeUndefinedValues
  then Some (omap (λ f, pair f.1 <$> f.2) fs)
  else fields fs.

(** [docClient.send(new PutCommand({ Item: { ... } }))]. *)
Definition put (fs : list (string * option Value)) : M unit :=
  match itemOf fs with
  | Some item => send (PutItem (list_to_map item))
  | None => throw ValidationException
  end.

Definition createProject (now : Z) (project : Item) : M (option Value) :=
  put [
    ("id", project !! "id");
    ("type", Some (VStr ("METADATA#" +:+ Js.template (project !! "id"))));
    ("prefix", Some (VStr "METADATA"));
    ("name", project !! "name");
    ("description", project !! "description");
    ("emails", project !! "emails");
    ("platform", project !! "platform");
    ("region", project !! "region");
    ("environment", project !! "environment");
    ("status", Some (VStr "ACTIVED"));
    ("createAt", Some (VNum now));
    ("updateAt", Some (VNum now));
    ("operator", Some (VStr ""));
    ("deleted", Some (VBool false)) ] ≫= λ _,
  mret (project !! "id").

Definition addApplication (now : Z) (app : Item) : M (option Value) :=
  put [
    ("id", app !! "id");
    ("type", Some (VStr ("APP#" +:+ Js.template (app !! "appId"))));
    ("prefix", Some (VStr "APP"));
    ("projectId", app !! "projectId");
    ("appId", app !! "appId");
    ("name", app !! "name");
    ("description", app !! "description");
    ("androidPackage", Some (Js.nullish (app !! "androidPackage") (VStr "")));
    ("iosBundleId", Some (Js.nullish (app !! "iosBundleId") (VStr "")));
    ("iosAppStoreId", Some (Js.nullish (app !! "iosAppStoreId") (VStr "")));
    ("createAt", Some (VNum now));
    ("updateAt", Some (VNum now));
    ("operator", Some (VStr ""));
    ("deleted", Some (VBool false)) ] ≫= λ _,
  mret (app !! "appId").

Definition addPipeline (now : Z) (pipeline : Item) : M (option Value) :=
  put [
    ("id", pipeline !! "id");
    ("type", Some (VStr ("PIPELINE#" +:+ Js.template (pipeline !! "pipelineId")
                           +:+ "#latest")));
    ("prefix", Some (VStr "PIPELINE"));
    ("pipelineId", pipeline !! "pipelineId");
    ("projectId", pipeline !! "projectId");
    ("name", pipeline !! "name");
    ("description", pipeline !! "description");
    ("region", pipeline !! "region");
    ("dataCollectionSDK", pipeline !! "dataCollectionSDK");
    ("status", pipeline !! "status");
    ("tags", Some (Js.nullish (pipeline !! "tags") (VList [])));
    ("network", pipeline !! "network");
    ("bucket", pipeline !! "bucket");
    ("ingestionServer", pipeline !! "ingestionServer");
    ("etl", Some (Js.nullish (pipeline !! "etl") (VMap ∅)));
    ("dataAnalytics", Some (Js.nullish (pipeline !! "dataAnalytics") (VMap ∅)));
    ("report", Some (Js.nullish (pipeline !! "report") (VMap ∅)));
    ("workflow", Some (Js.nullish (pipeline !! "workflow") (VMap ∅)));
    ("executionName", Some (Js.nullish (pipeline !! "executionName") (VStr "")));
    ("executionArn", Some (Js.nullish (pipeline !! "executionArn") (VStr "")));
    ("version",
       Some (Js.nullish (pipeline !! "version") (VStr (Js.toString now))));
    ("versionTag", Some (VStr "latest"));
    ("createAt", Some (Js.nullish (pipeline !! "createAt") (VNum now)));
    ("updateAt", Some (VNum now));
    ("operator", Some (Js.nullish (pipeline !! "operator") (VStr "")));
    ("deleted", Some (Js.nullish (pipeline !! "deleted") (VBool false))) ]
    ≫= λ _,
  mret (pipeline !! "pipelineId").

Definition addPlugin (now : Z) (plugin : Item) : M (option Value) :=
  put [
    ("id", plugin !! "id");
    ("type", Some (VStr ("PLUGIN#" +:+ Js.template (plugin !! "id"))));
    ("prefix", Some (VStr "PLUGIN"));
    ("name", plugin !! "name");
    ("description", plugin !! "description");
    ("status", Some (VStr "Disabled"));
    ("jarFile", plugin !! "jarFile");
    ("dependencyFiles", plugin !! "dependencyFiles");
    ("mainFunction", plugin !! "mainFunction");
    ("pluginType", plugin !! "pluginType");
    ("builtIn", Some (VBool false));
    ("bindCount", Some (VNum 0));
    ("createAt", Some (VNum now));
    ("updateAt", Some (VNum now));
    ("operator", Some (VStr ""));
    ("deleted", Some (VBool false)) ] ≫= λ _,
  mret (plugin !! "id").

End docClient.

(** The shared tail of the existence checks:
    [if (!result.Item) return false; return x && !x.deleted]. *)
Definition existed (result : option Item) : bool :=
  match result with
  | None => false
  | Some x => negb (Js.truthy (x !! "deleted"))
  end.

Definition isProjectExisted (projectId : string) : M bool :=
  result ← gets (λ w,
    GetItem (projectId, "METADATA#" +:+ projectId) (table w));
  mret (existed result).

Definition isApplicationExisted (projectId appId : string) : M bool :=
  result ← gets (λ w, GetItem (projectId, "APP#" +:+ appId) (table w));
  mret (existed result).

Definition isPipelineExisted (projectId pipelineId : string) : M bool :=
  result ← gets (λ w,
    GetItem (projectId, "PIPELINE#" +:+ pipelineId +:+ "#latest") (table w));
  mret (existed result).

Definition isPluginExisted (pluginId : string) : M bool :=
  result ← gets (λ w, GetItem (pluginId, "PLUGIN#" +:+ pluginId) (table w));
  mret (existed result).

Definition projectSets (now : Z) (project : Item) : list (string * Value) :=
  [("updateAt", VNum now)]
    ++ Store.setIfPresent project "name"
    ++ Store.setIfPresent project "description"
    ++ Store.setIfPresent project "emails"
    ++ Store.setIfPresent project "platform"
    ++ Store.setIfPresent project "environment"
    ++ Store.setIfPresent project "region"
    ++ Store.setIfPresent project "status".

Definition updateProject (now : Z) (project : Item) : M unit :=
  match project !! "id" with
  | Some (VStr id) =>
      send (UpdateItem (id, "METADATA#" +:+ id) None (projectSets now project))
  | _ => throw ValidationException
  end.

Definition applicationSets (now : Z) (app : Item) : list (string * Value) :=
  [("updateAt", VNum now)]
    ++ Store.setIfPresent app "description"
    ++ Store.setIfPresent app "androidPackage"
    ++ Store.setIfPresent app "iosBundleId"
    ++ Store.setIfPresent app "iosAppStoreId".

(** The partition key is the application's [projectId]; its [appId] is
    interpolated into the sort key. *)
Definition updateApplication (now : Z) (app : Item) : M unit :=
  match app !! "projectId" with
  | Some (VStr projectId) =>
      send (UpdateItem (projectId, "APP#" +:+ Js.template (app !! "appId"))
              None (applicationSets now app))
  | _ => throw ValidationException
  end.

Definition deleteApplication (projectId appId : string) : M unit :=
  send (UpdateItem (projectId, "APP#" +:+ appId) None
          [("deleted", VBool true)]).

(** The expression values of [updatePipelineAtCurrentVersion]; one that
    is [undefined] cannot be sent.  [updateAt] is written as a string. *)
Definition currentVersionSets (now : Z) (pipeline : Item)
    : option (list (string * Value)) :=
  fields [
    ("name", pipeline !! "name");
    ("description", pipeline !! "description");
    ("dataCollectionSDK", pipeline !! "dataCollectionSDK");
    ("status", pipeline !! "status");
    ("tags", pipeline !! "tags");
    ("network", pipeline !! "network");
    ("bucket", pipeline !! "bucket");
    ("ingestionServer", pipeline !! "ingestionServer");
    ("etl", Some (Js.nullish (pipeline !! "etl") (VMap ∅)));
    ("dataAnalytics", Some (Js.nullish (pipeline !! "dataAnalytics") (VMap ∅)));
    ("report", Some (Js.nullish (pipeline !! "report") (VMap ∅)));
    ("workflow", Some (Js.nullish (pipeline !! "workflow") (VMap ∅)));
    ("executionName", Some (Js.nullish (pipeline !! "executionName") (VStr "")));
    ("executionArn", Some (Js.nullish (pipeline !! "executionArn") (VStr "")));
    ("updateAt", Some (VStr (Js.toString now)));
    ("operator", pipeline !! "operator") ].

(** The key is the pipeline's [projectId] and [type]; the guard compares
    the stored [version] with the pipeline's, a string by its type. *)
Definition updatePipelineAtCurrentVersion (now : Z) (pipeline : Item)
    : M unit :=
  match pipeline !! "projectId", pipeline !! "type",
        pipeline !! "version", currentVersionSets now pipeline with
  | Some (VStr projectId), Some (VStr type), Some version, Some sets =>
      send (UpdateItem (projectId, type) (Some (CEq "version" version)) sets)
  | _, _, _, _ => throw ValidationException
  end.

Definition bindPlugins (now : Z) (pluginIds : list string) (count : Z)
    : M unit :=
  forEach (λ pluginId,
    send (UpdateItemPlus (pluginId, "PLUGIN#" +:+ pluginId) "bindCount" count
            [("updateAt", VNum now)])) pluginIds.

End Records.

(** * Vocabulary of the properties *)

(** Page [pageNumber] of [all], clamped to the last page: what a listing
    with pagination returns over a non-empty result set. *)
Definition clampedPage (all : list Item) (pageSize pageNumber : Z)
    (l : Listing) : Prop :=
  let total := Z.of_nat (length all) in
  let lastPage := - ((- total) / pageSize) in
  let p := Z.min lastPage pageNumber in
  pageSize * (lastPage - 1) < total ≤ pageSize * lastPage
  ∧ totalCount l = total
  ∧ items l = take (Z.to_nat pageSize)
                   (drop (Z.to_nat (pageSize * (p - 1))) all)
  ∧ items l ≠ []
  ∧ (lastPage ≤ pageNumber →
     items l = drop (Z.to_nat (pageSize * (lastPage - 1))) all).

(** What [updatePlugin]'s [SET] clause leaves in an item. *)
Definition pluginUpdated (now : Z) (plugin stored p : Item) : Prop :=
  p !! "updateAt" = Some (VNum now)
  ∧ Forall (λ f, p !! f = if Js.truthy (plugin !! f) then plugin !! f
                          else stored !! f)
           ["description"; "jarFile"; "dependencyFiles"; "mainFunction"]
  ∧ ∀ a, a ∉ ["updateAt"; "description"; "jarFile"; "dependencyFiles";
              "mainFunction"] → p !! a = stored !! a.

(** The record under [k] carries [deleted = true]. *)
Definition deletedAt (k : Key) (tbl : Table) : Prop :=
  ∃ p, DynamoDb.GetItem k tbl = Some p ∧ p !! "deleted" = Some (VBool true).

(** Every live record matching [flt] is one of [rest]. *)
Definition remaining (flt : DynamoDb.Cond) (rest : list Item) (tbl : Table)
    : Prop :=
  ∀ k p, DynamoDb.GetItem k tbl = Some p → DynamoDb.eval flt p = true →
         p ∈ rest.

(** One unconditional update that sets [deleted = true], and possibly
    other attributes that are not key attributes, on the record under
    [k]. *)
Definition flips (k : Key) (w w' : World) : Prop :=
  ∃ sets,
    w' = set_table
           (<[k := DynamoDb.apply_sets (("deleted", VBool true) :: sets)
                     (DynamoDb.current k (table w))]> (table w)) w
    ∧ ∀ a v, (a, v) ∈ sets → a ≠ "deleted".

(** The first and the last binding of a name in a list of bindings. *)
Fixpoint assoc_first {V} (a : string) (l : list (string * V)) : option V :=
  match l with
  | [] => None
  | (b, v) :: r => if String.eqb b a then Some v else assoc_first a r
  end.

Fixpoint assoc_last {V} (a : string) (l : list (string * V)) : option V :=
  match l with
  | [] => None
  | (b, v) :: r =>
      match assoc_last a r with
      | Some x => Some x
      | None => if String.eqb b a then Some v else None
      end
  end.

(** The [version] of the record that [updatePipeline] updates, as stored. *)
Definition storedLatestVersion (pipeline : Item) (w : World) : option Value :=
  key ← Store.latestKey pipeline;
  p ← DynamoDb.GetItem key (table w);
  p !! "version".

(** The two arguments of [updatePipeline] make a transaction that can be
    sent: every attribute value is there, of the kind its type tag says,
    and the two parts name different items. *)
Definition sendable (now : Z) (pipeline curPipeline : Item) : Prop :=
  ∃ ts ks, Store.transactItems now pipeline curPipeline = Some ts
           ∧ mapM DynamoDb.target ts = Some ks ∧ NoDup ks.

(** The key of the snapshot of [curPipeline]. *)
Definition snapshotKey (curPipeline : Item) : option Key :=
  match attrS (curPipeline !! "id") with
  | Some (VStr id) =>
      Some (id, "PIPELINE#" +:+ Js.template (curPipeline !! "pipelineId")
                  +:+ "#" +:+ Js.template (curPipeline !! "version"))
  | _ => None
  end.

(** The attributes of a pipeline record that [updatePipeline] writes with
    the type tag [S], and the configuration documents it writes as
    marshalled. *)
Definition stringFields : list string :=
  ["prefix"; "name"; "description"; "region"; "dataCollectionSDK"].

Definition documentFields : list string :=
  ["status"; "tags"; "network"; "bucket"; "ingestionServer"; "etl";
   "dataAnalytics"; "report"].

(** The status the engine reports for an execution handle, [FAILED]
    standing in for [undefined]. *)
Definition engineStatus (e : gmap string string) (executionArn : Value)
    : option string :=
  match executionArn with
  | VStr arn => e !! arn
  | _ => None
  end.

Definition liveStatus (e : gmap string string) (executionArn : Value)
    : string :=
  default FAILED (engineStatus e executionArn).

(** A pipeline record carries an execution handle. *)
Definition handleOf (p : Item) : option Value :=
  match p !! "executionArn" with
  | Some executionArn =>
      if Js.truthy (Some executionArn) then Some executionArn else None
  | None => None
  end.

(** The stored status of [p] is not the live one. *)
Definition stale (e : gmap string string) (p : Item) (executionArn : Value)
    : bool :=
  Js.strict_neq_str (p !! "status") (liveStatus e executionArn).

(** What a read returns for the record [p], the calls it makes for it and
    what it writes to the table. *)
Definition reconciled (e : gmap string string) (p : Item) : Item :=
  match handleOf p with
  | Some executionArn => <["status" := VStr (liveStatus e executionArn)]> p
  | None => p
  end.

Definition statusWrite (e : gmap string string) (p : Item)
    : option (Key * Value) :=
  match handleOf p, DynamoDb.key_of p with
  | Some executionArn, Some k =>
      if stale e p executionArn
      then Some (k, VStr (liveStatus e executionArn))
      else None
  | _, _ => None
  end.

Definition reconcileCalls (e : gmap string string) (p : Item) : list Call :=
  match handleOf p with
  | Some executionArn =>
      GetExecutionStatus executionArn
        :: match statusWrite e p with
           | Some (k, status) => [UpdatePipelineStatus k status]
           | None => []
           end
  | None => []
  end.

Definition writeBack (e : gmap string string) (tbl : Table) (p : Item)
    : Table :=
  match statusWrite e p with
  | Some (k, status) =>
      <[k := <["status" := status]> (DynamoDb.current k tbl)]> tbl
  | None => tbl
  end.

(** The value a call returned, if it returned. *)
Definition result {A} (r : (Error + A) * World) : option A :=
  match r.1 with
  | inr x => Some x
  | inl _ => None
  end.

(** The field [f] of a document. *)
Definition fieldOf (f : string) (v : Value) : option Value :=
  match v with
  | VMap m => m !! f
  | _ => None
  end.

(** The fields of a project, an application, a pipeline and a plugin that
    are stored as the caller gives them. *)
Definition projectFields : list string :=
  ["name"; "description"; "emails"; "platform"; "region"; "environment"].

Definition applicationFields : list string :=
  ["projectId"; "appId"; "name"; "description"].

Definition pipelineFields : list string :=
  ["pipelineId"; "projectId"; "name"; "description"; "region";
   "dataCollectionSDK"; "status"; "network"; "bucket"; "ingestionServer"].

Definition pluginFields : list string :=
  ["name"; "description"; "jarFile"; "dependencyFiles"; "mainFunction";
   "pluginType"].

(** The fields of [names] are there, or the document client leaves out
    the ones that are not. *)
Definition putAccepts (removeUndefinedValues : bool) (o : Item)
    (names : list string) : Prop :=
  removeUndefinedValues = true ∨ Forall (λ f, is_Some (o !! f)) names.

(** What an update that sets [updateAt] and each truthy field of [arg]
    among [names] leaves in an item: [stored] is the item before. *)
Definition fieldsUpdated (names : list string) (now : Z)
    (arg stored p : Item) : Prop :=
  p !! "updateAt" = Some (VNum now)
  ∧ Forall (λ f, p !! f = if Js.truthy (arg !! f) then arg !! f
                          else stored !! f) names
  ∧ ∀ a, a ∉ "id" :: "type" :: "updateAt" :: names → p !! a = stored !! a.

(** The number of times [x] occurs in [l]. *)
Definition occurrences (x : string) (l : list string) : Z :=
  Z.of_nat (length (filter (λ y, y = x) l)).

(** The record, if there is one, carries a boolean [deleted] flag. *)
Definition flagged (o : option Item) : Prop :=
  ∀ p, o = Some p → ∃ b, p !! "deleted" = Some (VBool b).

(** The fields [updateProject] and [updateApplication] can set. *)
Definition projectUpdatable : list string :=
  ["name"; "description"; "emails"; "platform"; "environment"; "region";
   "status"].

Definition applicationUpdatable : list string :=
  ["description"; "androidPackage"; "iosBundleId"; "iosAppStoreId"].

(** The fields [addPipeline] fills in when the pipeline has none (or
    null), with what it fills in. *)
Definition pipelineDefaults (now : Z) : list (string * Value) :=
  [("tags", VList []); ("etl", VMap ∅); ("dataAnalytics", VMap ∅);
   ("report", VMap ∅); ("workflow", VMap ∅); ("executionName", VStr "");
   ("executionArn", VStr ""); ("version", VStr (Js.toString now));
   ("createAt", VNum now); ("operator", VStr ""); ("deleted", VBool false)].

(** The fields [updatePipelineAtCurrentVersion] writes as the pipeline
    has them, and the ones it writes with a default. *)
Definition currentVersionFields : list string :=
  ["name"; "description"; "dataCollectionSDK"; "status"; "tags"; "network";
   "bucket"; "ingestionServer"; "operator"].

Definition currentVersionDefaults : list (string * Value) :=
  [("etl", VMap ∅); ("dataAnalytics", VMap ∅); ("report", VMap ∅);
   ("workflow", VMap ∅); ("executionName", VStr "");
   ("executionArn", VStr "")].

(** The [version] stored under a key. *)
Definition storedVersion (k : Key) (w : World) : option Value :=
  DynamoDb.GetItem k (table w) ≫= (.!! "version").

(** The key of a stored plugin and the number of pipelines bound to it,
    when the record carries one. *)
Definition pluginKey (pluginId : string) : Key :=
  (pluginId, "PLUGIN#" +:+ pluginId).

Definition bindCountOf (pluginId : string) (tbl : Table) : option Z :=
  match DynamoDb.current (pluginKey pluginId) tbl !! "bindCount" with
  | Some (VNum n) => Some n
  | _ => None
  end.

(** The attribute [a] of the record under [k], if there is one. *)
Definition attribute (k : Key) (a : string) (tbl : Table) : option Value :=
  DynamoDb.GetItem k tbl ≫= (.!! a).

(** The scan filter of [deletePipeline]. *)
Definition pipelineRecords (projectId pipelineId : string) : DynamoDb.Cond :=
  DynamoDb.CAnd
    (DynamoDb.CAnd (DynamoDb.CEq "id" (VStr projectId))
       (DynamoDb.CBeginsWith "type" ("PIPELINE#" +:+ pipelineId)))
    Store.live.

(** The items a listing returned; none when it failed. *)
Definition itemsOf (r : (Error + Listing) * World) : list Item :=
  match r.1 with
  | inr l => items l
  | inl _ => []
  end.

(** The number of the last page of [total] items. *)
Definition lastPage (total pageSize : Z) : Z := - ((- total) / pageSize).

(** The pages 1, ..., [n] of a listing, one after the other. *)
Definition pages (listing : Z → M Listing) (n : nat) (w : World)
    : list Item :=
  flat_map (λ i, itemsOf (listing (Z.of_nat (S i)) w)) (seq 0 n).

(** What a listing with pagination returns outside the pages 1, 2, ...:
    nothing for a page size or a page number of 0, and for a negative
    page number the records between two positions counted back from the
    end of [all]. *)
Definition outOfRange (all : list Item) (pageSize pageNumber : Z)
    (l : Listing) : Prop :=
  let total := Z.of_nat (length all) in
  let lo := Z.max 0 (total + pageSize * (pageNumber - 1)) in
  let hi := Z.max 0 (total + pageSize * pageNumber) in
  totalCount l = total
  ∧ (pageSize = 0 ∨ pageNumber = 0 → items l = [])
  ∧ (pageNumber < 0 →
     items l = take (Z.to_nat (hi - lo)) (drop (Z.to_nat lo) all)).

(** * Example states *)

(** A pipeline record of project [p1], pipeline [a]. *)
Definition examplePipeline (type version versionTag operator executionArn : string)
    (status : Value) (deleted : bool) : Item :=
  list_to_map [
    ("id", VStr "p1"); ("type", VStr type); ("prefix", VStr "PIPELINE");
    ("pipelineId", VStr "a"); ("projectId", VStr "p1");
    ("name", VStr "clickstream"); ("description", VStr "");
    ("region", VStr "us-east-1"); ("dataCollectionSDK", VStr "clickstream");
    ("status", status); ("tags", VList []);
    ("network", VMap {[ "vpcId" := VStr "vpc-1" ]});
    ("bucket", VMap {[ "name" := VStr "b"; "prefix" := VStr "" ]});
    ("ingestionServer", VMap ∅); ("etl", VMap ∅);
    ("dataAnalytics", VMap ∅); ("report", VMap ∅);
    ("executionName", VStr "main-1"); ("executionArn", VStr executionArn);
    ("version", VStr version); ("versionTag", VStr versionTag);
    ("createAt", VNum 100); ("updateAt", VNum 100);
    ("operator", VStr operator); ("deleted", VBool deleted) ].

Definition exampleLatest : Item :=
  examplePipeline "PIPELINE#a#latest" "100" "latest" "alice" "arn:1"
    (VStr "RUNNING") false.

Definition exampleTable : Table :=
  list_to_map [
    (("p1", "METADATA#p1"),
     list_to_map [("prefix", VStr "METADATA"); ("name", VStr "shop");
                  ("createAt", VNum 10); ("deleted", VBool false)]);
    (("p1", "APP#app1"),
     list_to_map [("prefix", VStr "APP"); ("projectId", VStr "p1");
                  ("appId", VStr "app1"); ("createAt", VNum 20);
                  ("deleted", VBool false)]);
    (("p1", "PIPELINE#a#latest"), exampleLatest);
    (("plug1", "PLUGIN#plug1"),
     list_to_map [("prefix", VStr "PLUGIN"); ("name", VStr "enrich");
                  ("pluginType", VStr "Enrich"); ("bindCount", VNum 0);
                  ("createAt", VNum 30); ("deleted", VBool false)]) ].

(** The catalog holds one built-in plugin, marked as deleted. *)
Definition exampleDictionary : gmap string Item :=
  {[ "BuildInPlugins" :=
       list_to_map [
         ("name", VStr "BuildInPlugins");
         ("data", VList [
            VMap (list_to_map [
              ("id", VStr "BUILDIN-1"); ("name", VStr "Transformer");
              ("pluginType", VStr "Transform"); ("builtIn", VStr "true");
              ("bindCount", VStr "0"); ("createAt", VStr "1");
              ("updateAt", VStr "1"); ("deleted", VStr "true") ]) ]) ] ]}.

Definition exampleWorld : World :=
  mkWorld exampleTable exampleDictionary {[ "arn:1" := "SUCCEEDED" ]} [].

(** Two records of one pipeline: a snapshot with a status, and a latest
    record that has none. *)
Definition exampleVersions : World :=
  mkWorld
    (list_to_map [
       (("p1", "PIPELINE#a#100"),
        examplePipeline "PIPELINE#a#100" "100" "100" "" "arn:1"
          (VMap {[ "status" := VStr "ACTIVE" ]}) false);
       (("p1", "PIPELINE#a#latest"),
        delete "status"
          (examplePipeline "PIPELINE#a#latest" "200" "latest" "" "arn:1"
             VNull false)) ])
    ∅ ∅ [].

(** An update request for the example pipeline, by another operator and
    carrying another execution handle. *)
Definition exampleUpdate : Item :=
  <["operator" := VStr "bob"]>
    (<["executionArn" := VStr "arn:2"]>
       (<["name" := VStr "renamed"]> exampleLatest)).

(** The same request, carrying a version that is no longer the stored
    one. *)
Definition exampleStale : Item := <["version" := VStr "99"]> exampleUpdate.

(** A request for a pipeline that is not stored. *)
Definition exampleMissing : Item :=
  <["pipelineId" := VStr "zz"]> exampleUpdate.

(** The example state with an engine that knows no execution. *)
Definition exampleOffline : World :=
  mkWorld exampleTable exampleDictionary ∅ [].

(** An update of the description of the stored plugin. *)
Definition examplePluginUpdate : Item :=
  {[ "id" := VStr "plug1"; "description" := VStr "new" ]}.

(** A project, an application and a plugin as a caller hands them in. *)
Definition exampleProject : Item :=
  list_to_map [
    ("id", VStr "p2"); ("name", VStr "blog"); ("description", VStr "");
    ("emails", VStr "ops@example.com"); ("platform", VStr "Web");
    ("region", VStr "us-east-1"); ("environment", VStr "Dev") ].

Definition exampleApp : Item :=
  list_to_map [
    ("id", VStr "p1"); ("appId", VStr "app2"); ("projectId", VStr "p1");
    ("name", VStr "shop-ios"); ("description", VStr "");
    ("iosBundleId", VStr "com.example.shop") ].

Definition examplePlugin : Item :=
  list_to_map [
    ("id", VStr "plug2"); ("name", VStr "geo"); ("description", VStr "");
    ("jarFile", VStr "s3://b/geo.jar"); ("dependencyFiles", VList []);
    ("mainFunction", VStr "com.example.Geo"); ("pluginType", VStr "Enrich") ].

(** A status document. *)
Definition exampleActive : gmap string Value :=
  {[ "status" := VStr "ACTIVE" ]}.

(** Two pipelines of project [p1] whose ids are [a] and [ab], each with a
    status document. *)
Definition examplePrefixed : World :=
  mkWorld
    (list_to_map [
       (("p1", "PIPELINE#a#latest"),
        examplePipeline "PIPELINE#a#latest" "100" "latest" "" "arn:1"
          (VMap exampleActive) false);
       (("p1", "PIPELINE#ab#latest"),
        <["pipelineId" := VStr "ab"]>
          (examplePipeline "PIPELINE#ab#latest" "100" "latest" "" "arn:3"
             (VMap exampleActive) false)) ])
    ∅ ∅ [].

(** The example state with one more plugin, stored under an id that
    starts with BUILDIN. *)
Definition exampleShadowed : World :=
  mkWorld
    (<[("BUILDIN-9", "PLUGIN#BUILDIN-9") :=
         list_to_map [("prefix", VStr "PLUGIN"); ("name", VStr "custom");
                      ("pluginType", VStr "Enrich"); ("bindCount", VNum 0);
                      ("createAt", VNum 40); ("deleted", VBool false)]]>
       exampleTable)
    exampleDictionary ∅ [].

(** Two updates of a project: one of the stored project, and one of a
    project that is not stored. *)
Definition exampleRename : Item :=
  {[ "id" := VStr "p1"; "name" := VStr "store" ]}.

Definition exampleGhost : Item :=
  {[ "id" := VStr "p9"; "name" := VStr "ghost" ]}.

(** The latest record of the example pipeline under another pipeline
    id. *)
Definition exampleSecond : Item := <["pipelineId" := VStr "b"]> exampleLatest.

(** * Properties *)

(** ** Basic facts about the model *)

Lemma attr_eqb_str x s : DynamoDb.attr_eqb x (VStr s) = true ↔ x = VStr s.
Proof.
  destruct x; simpl; try (split; [discriminate | congruence]).
  rewrite String.eqb_eq. split; congruence.
Qed.

Lemma attr_eqb_bool x b : DynamoDb.attr_eqb x (VBool b) = true ↔ x = VBool b.
Proof.
  destruct x; simpl; try (split; [discriminate | congruence]).
  rewrite Bool.eqb_true_iff. split; congruence.
Qed.

Lemma attr_eqb_num x n : DynamoDb.attr_eqb x (VNum n) = true ↔ x = VNum n.
Proof.
  destruct x; simpl; try (split; [discriminate | congruence]).
  rewrite Z.eqb_eq. split; congruence.
Qed.

Lemma eval_CEq_str a s it :
  DynamoDb.eval (DynamoDb.CEq a (VStr s)) it = true ↔ it !! a = Some (VStr s).
Proof.
  simpl. destruct (it !! a) as [x|]; [|split; discriminate].
  rewrite attr_eqb_str. split; congruence.
Qed.

Lemma eval_CEq_bool a b it :
  DynamoDb.eval (DynamoDb.CEq a (VBool b)) it = true ↔ it !! a = Some (VBool b).
Proof.
  simpl. destruct (it !! a) as [x|]; [|split; discriminate].
  rewrite attr_eqb_bool. split; congruence.
Qed.

Lemma eval_CEq_num a n it :
  DynamoDb.eval (DynamoDb.CEq a (VNum n)) it = true ↔ it !! a = Some (VNum n).
Proof.
  simpl. destruct (it !! a) as [x|]; [|split; discriminate].
  rewrite attr_eqb_num. split; congruence.
Qed.

Lemma key_of_with_key k it : DynamoDb.key_of (DynamoDb.with_key k it) = Some k.
Proof.
  unfold DynamoDb.key_of, DynamoDb.with_key.
  rewrite lookup_insert_eq, lookup_insert_ne by done.
  rewrite lookup_insert_eq. by destruct k.
Qed.

Lemma with_key_lookup k it a :
  a ≠ "id" → a ≠ "type" → DynamoDb.with_key k it !! a = it !! a.
Proof.
  intros. unfold DynamoDb.with_key. by rewrite !lookup_insert_ne.
Qed.

(** Every item the table hands out is of the form [with_key k it] for the
    key [k] it is stored under. *)
Lemma elem_of_all_items p tbl :
  p ∈ DynamoDb.all_items tbl ↔
  ∃ k, DynamoDb.GetItem k tbl = Some p.
Proof.
  unfold DynamoDb.all_items, DynamoDb.GetItem. rewrite list_elem_of_fmap. split.
  - intros [[k it] [-> Hin]]. exists k.
    apply elem_of_map_to_list in Hin. by rewrite Hin.
  - intros [k Hk]. destruct (tbl !! k) as [it|] eqn:E; [|done].
    exists (k, it). split; [by inversion Hk|]. by apply elem_of_map_to_list.
Qed.

Lemma elem_of_Scan p flt tbl :
  p ∈ DynamoDb.Scan flt tbl ↔
  (∃ k, DynamoDb.GetItem k tbl = Some p) ∧ DynamoDb.eval flt p = true.
Proof.
  unfold DynamoDb.Scan. rewrite list_elem_of_filter, elem_of_all_items.
  rewrite Is_true_true. tauto.
Qed.

Lemma elem_of_Query p prefix flt fwd tbl :
  p ∈ DynamoDb.Query prefix flt fwd tbl ↔
  (∃ k, DynamoDb.GetItem k tbl = Some p)
  ∧ DynamoDb.in_gsi prefix p = true ∧ DynamoDb.eval flt p = true.
Proof.
  unfold DynamoDb.Query. rewrite list_elem_of_filter, Is_true_true.
  assert (∀ l : list Item,
    p ∈ (if fwd then merge_sort DynamoDb.gsi_le l
         else reverse (merge_sort DynamoDb.gsi_le l)) ↔ p ∈ l) as ->.
  { intros l. destruct fwd; [|rewrite elem_of_reverse];
      by rewrite merge_sort_Permutation. }
  rewrite list_elem_of_filter, Is_true_true, elem_of_all_items. tauto.
Qed.

(** ** Page selection *)

Lemma ceil_bounds total pageSize :
  1 ≤ pageSize →
  pageSize * (- ((- total) / pageSize) - 1) < total
    ≤ pageSize * - ((- total) / pageSize).
Proof.
  intros Hs.
  pose proof (Z.div_mod (- total) pageSize ltac:(lia)) as Hdm.
  pose proof (Z.mod_pos_bound (- total) pageSize ltac:(lia)) as Hb.
  nia.
Qed.

Lemma page_clamped (all items0 : list Item) (pageSize pageNumber : Z) :
  1 ≤ pageSize → 1 ≤ pageNumber → all ≠ [] →
  clampedPage all pageSize pageNumber
    (mkListing (Z.of_nat (length all))
       (page true pageSize pageNumber (Z.of_nat (length all)) items0 all)).
Proof.
  intros Hs Hn Hne. unfold clampedPage. cbn [totalCount items].
  set (total := Z.of_nat (length all)).
  assert (1 ≤ total) as Ht.
  { subst total. destruct all; [done|]. rewrite length_cons. lia. }
  pose proof (ceil_bounds total pageSize Hs) as Hc.
  set (lastPage := - ((- total) / pageSize)) in *.
  set (p := Z.min lastPage pageNumber).
  assert (1 ≤ lastPage) by nia.
  assert (1 ≤ p ≤ lastPage) as Hp by (subst p; lia).
  assert (pageSize * (p - 1) < total) as Hstart by nia.
  assert (page true pageSize pageNumber total items0 all
          = take (Z.to_nat pageSize)
                 (drop (Z.to_nat (pageSize * (p - 1))) all)) as Hpage.
  { unfold page, Js.ceil_div, Js.min_inf.
    replace (total =? 0) with false by (symmetry; apply Z.eqb_neq; lia).
    replace (pageSize =? 0) with false by (symmetry; apply Z.eqb_neq; lia).
    simpl. fold lastPage. fold p.
    unfold Js.slice, Js.slice_index. fold total.
    replace (pageSize * (p - 1) <? 0) with false
      by (symmetry; apply Z.ltb_ge; nia).
    replace (Z.min (pageSize * p) total <? 0) with false
      by (symmetry; apply Z.ltb_ge; nia).
    rewrite (Z.min_l (pageSize * (p - 1)) total) by lia.
    rewrite (Z.min_l (Z.min _ _) total) by lia.
    destruct (Z.le_gt_cases (pageSize * p) total) as [Hle|Hgt].
    - rewrite Z.min_l by lia. f_equal. lia.
    - rewrite Z.min_r by lia.
      rewrite !take_ge; [done| |]; rewrite length_drop; subst total; lia. }
  split; [done|]. split; [done|]. split; [done|]. split.
  - rewrite Hpage. intros Hnil. apply (f_equal length) in Hnil.
    rewrite length_take, length_drop in Hnil. simpl in Hnil.
    subst total. lia.
  - intros Hbeyond. rewrite Hpage.
    replace p with lastPage by (subst p; lia).
    apply take_ge. rewrite length_drop. subst total. nia.
Qed.

(** C4. With pagination on, a page size and a page number of at least 1
    and a non-empty filtered result set, every listing returns the page
    whose number is clamped to ceil(total / pageSize): a request beyond
    the last page gets the items of the last page, the page is never
    empty, and [totalCount] is the size of the whole filtered result set
    (for plugins: the entries of the catalog followed by the stored
    plugins). *)
Theorem listing_page_clamped (w : World) (projectId version order : option string)
    (appProject : string) (pluginType : option string) (buildIn : list Item)
    (pageSize pageNumber : Z) :
  let asc := bool_decide (order = Some "asc") in
  let pipelines :=
    DynamoDb.Query "PIPELINE" (Store.pipelineFilter projectId version) asc
      (table w) in
  let projects := DynamoDb.Query "METADATA" Store.live asc (table w) in
  let apps :=
    DynamoDb.Query "APP"
      (DynamoDb.CAnd (DynamoDb.CEq "projectId" (VStr appProject)) Store.live)
      asc (table w) in
  let plugins :=
    buildIn ++ DynamoDb.Query "PLUGIN" (Store.pluginFilter pluginType) asc
                 (table w) in
  1 ≤ pageSize → 1 ≤ pageNumber →
  (pipelines ≠ [] →
   ∃ l, Store.listPipeline projectId version order true pageSize pageNumber w
        = (inr l, w) ∧ clampedPage pipelines pageSize pageNumber l)
  ∧ (projects ≠ [] →
     ∃ l, Store.listProjects order true pageSize pageNumber w = (inr l, w)
          ∧ clampedPage projects pageSize pageNumber l)
  ∧ (apps ≠ [] →
     ∃ l, Store.listApplication appProject order true pageSize pageNumber w
          = (inr l, w) ∧ clampedPage apps pageSize pageNumber l)
  ∧ (Store.listBuildIn pluginType w = (inr buildIn, w) → plugins ≠ [] →
     ∃ l, Store.listPlugin pluginType order true pageSize pageNumber w
          = (inr l, w) ∧ clampedPage plugins pageSize pageNumber l).
Proof.
  intros asc pipelines projects apps plugins Hs Hn.
  repeat split.
  - intros Hne. eexists. split; [reflexivity|]. by apply page_clamped.
  - intros Hne. eexists. split; [reflexivity|]. by apply page_clamped.
  - intros Hne. eexists. split; [reflexivity|]. by apply page_clamped.
  - intros Hb Hne. eexists. split.
    + unfold Store.listPlugin, mbind, M_bind. rewrite Hb. reflexivity.
    + simpl. rewrite <- Nat2Z.inj_add, <- length_app. by apply page_clamped.
Qed.

(** ** Single-item writes *)

Local Arguments String.append : simpl never.

Lemma current_stored k tbl stored :
  DynamoDb.GetItem k tbl = Some stored → DynamoDb.current k tbl = stored.
Proof. unfold DynamoDb.current. by intros ->. Qed.

Lemma GetItem_insert_eq k it tbl :
  DynamoDb.GetItem k (<[k := it]> tbl) = Some (DynamoDb.with_key k it).
Proof. unfold DynamoDb.GetItem. by rewrite lookup_insert_eq. Qed.

Lemma GetItem_insert_ne k k' it tbl :
  k ≠ k' → DynamoDb.GetItem k' (<[k := it]> tbl) = DynamoDb.GetItem k' tbl.
Proof. intros. unfold DynamoDb.GetItem. by rewrite lookup_insert_ne. Qed.

Lemma GetItem_key k tbl p :
  DynamoDb.GetItem k tbl = Some p → DynamoDb.key_of p = Some k.
Proof.
  unfold DynamoDb.GetItem. destruct (tbl !! k); [|done].
  intros [= <-]. apply key_of_with_key.
Qed.

Lemma GetItem_id_type k tbl p :
  DynamoDb.GetItem k tbl = Some p →
  p !! "id" = Some (VStr k.1) ∧ p !! "type" = Some (VStr k.2).
Proof.
  unfold DynamoDb.GetItem. destruct (tbl !! k); [|done].
  intros [= <-]. unfold DynamoDb.with_key.
  by rewrite lookup_insert_eq, lookup_insert_ne, lookup_insert_eq.
Qed.

(** Setting attributes other than the key on a stored item and reading it
    back gives the item with these attributes set. *)
Lemma with_key_lookup_stored k tbl stored it a :
  DynamoDb.GetItem k tbl = Some stored →
  (a = "id" ∨ a = "type" → it !! a = stored !! a) →
  DynamoDb.with_key k it !! a = it !! a.
Proof.
  intros Hget Hkeep. destruct (GetItem_id_type _ _ _ Hget) as [Hid Hty].
  unfold DynamoDb.with_key.
  destruct (decide (a = "id")) as [->|].
  { rewrite lookup_insert_eq, Hkeep by auto. done. }
  rewrite lookup_insert_ne by done.
  destruct (decide (a = "type")) as [->|].
  { rewrite lookup_insert_eq, Hkeep by auto. done. }
  by rewrite lookup_insert_ne.
Qed.

Lemma setIfPresent_cases plugin f :
  (Js.truthy (plugin !! f) = true ∧
   ∃ v, plugin !! f = Some v ∧ Store.setIfPresent plugin f = [(f, v)])
  ∨ (Js.truthy (plugin !! f) = false ∧ Store.setIfPresent plugin f = []).
Proof.
  unfold Store.setIfPresent. destruct (plugin !! f) as [v|]; [|by right].
  destruct (Js.truthy (Some v)); [left|right]; eauto.
Qed.

Lemma pluginSets_updated now plugin stored :
  pluginUpdated now plugin stored
    (DynamoDb.apply_sets (Store.pluginSets now plugin) stored).
Proof.
  unfold pluginUpdated, Store.pluginSets.
  destruct (setIfPresent_cases plugin "description") as [[T1 [v1 [E1 ->]]]|[T1 ->]];
  destruct (setIfPresent_cases plugin "jarFile") as [[T2 [v2 [E2 ->]]]|[T2 ->]];
  destruct (setIfPresent_cases plugin "dependencyFiles") as [[T3 [v3 [E3 ->]]]|[T3 ->]];
  destruct (setIfPresent_cases plugin "mainFunction") as [[T4 [v4 [E4 ->]]]|[T4 ->]];
  unfold DynamoDb.apply_sets; simpl;
  (split; [by simplify_map_eq|]);
  (split; [repeat constructor; rewrite ?T1, ?T2, ?T3, ?T4;
           by simplify_map_eq|]);
  intros a Ha; rewrite !not_elem_of_cons in Ha;
  destruct Ha as (? & ? & ? & ? & ? & _);
  by rewrite ?lookup_insert_ne by done.
Qed.

Lemma pluginUpdated_with_key now plugin stored k tbl it :
  DynamoDb.GetItem k tbl = Some stored →
  pluginUpdated now plugin stored it →
  pluginUpdated now plugin stored (DynamoDb.with_key k it).
Proof.
  intros Hget (Hu & Hf & Hrest).
  assert (∀ a, DynamoDb.with_key k it !! a = it !! a) as Hwk.
  { intros a. eapply with_key_lookup_stored; [done|].
    intros [-> | ->]; apply Hrest; rewrite !not_elem_of_cons;
      repeat split; try done; apply not_elem_of_nil. }
  unfold pluginUpdated. rewrite Hwk. split; [done|]. split.
  - eapply Forall_impl; [exact Hf|]. intros f. simpl. by rewrite Hwk.
  - intros a Ha. rewrite Hwk. by apply Hrest.
Qed.

(** C5. A plugin whose stored [bindCount] is a number other than 0 can be
    neither updated nor deleted: both calls fail on the condition and the
    state stays as it was.  With [bindCount] 0 both succeed: the update
    stores [updateAt] and each of description, jarFile, dependencyFiles
    and mainFunction that the argument carries, and the deletion stores
    [deleted = true]; every other attribute is kept. *)
Theorem plugin_bindCount_gate (now : Z) (plugin : Item) (id : string)
    (w : World) (stored : Item) (n : Z) :
  let key := (id, "PLUGIN#" +:+ id) in
  plugin !! "id" = Some (VStr id) →
  DynamoDb.GetItem key (table w) = Some stored →
  stored !! "bindCount" = Some (VNum n) →
  (n ≠ 0 →
     Store.updatePlugin now plugin w = (inl ConditionalCheckFailedException, w)
     ∧ Store.deletePlugin id w = (inl ConditionalCheckFailedException, w))
  ∧ (n = 0 →
     (∃ w' p, Store.updatePlugin now plugin w = (inr (), w')
              ∧ DynamoDb.GetItem key (table w') = Some p
              ∧ pluginUpdated now plugin stored p)
     ∧ (∃ w' p, Store.deletePlugin id w = (inr (), w')
                ∧ DynamoDb.GetItem key (table w') = Some p
                ∧ p !! "deleted" = Some (VBool true)
                ∧ ∀ a, a ≠ "deleted" → p !! a = stored !! a)).
Proof.
  intros key Hid Hget Hbind.
  pose proof (current_stored _ _ _ Hget) as Hcur.
  assert (DynamoDb.eval Store.unbound stored = bool_decide (n = 0)) as Hev.
  { unfold Store.unbound. simpl. rewrite Hbind. simpl.
    case_bool_decide; [by apply Z.eqb_eq | by apply Z.eqb_neq]. }
  unfold Store.updatePlugin, Store.deletePlugin, send, DynamoDb.UpdateItem.
  rewrite Hid. fold key. rewrite Hcur. cbn [from_option]. rewrite Hev.
  split; intros Hn.
  - by rewrite bool_decide_eq_false_2.
  - rewrite bool_decide_eq_true_2 by done. split.
    + eexists _, _. split; [reflexivity|]. cbn [table set_table].
      split; [apply GetItem_insert_eq|].
      eapply pluginUpdated_with_key; [done|]. apply pluginSets_updated.
    + eexists _, _. split; [reflexivity|]. cbn [table set_table].
      split; [apply GetItem_insert_eq|].
      assert (∀ a, DynamoDb.with_key key (<["deleted" := VBool true]> stored) !! a
                   = <["deleted" := VBool true]> stored !! a) as Hwk.
      { intros a. eapply with_key_lookup_stored; [done|].
        intros [-> | ->]; by rewrite lookup_insert_ne. }
      unfold DynamoDb.apply_sets. simpl. rewrite !Hwk.
      split; [by rewrite lookup_insert_eq|].
      intros a Ha. by rewrite Hwk, lookup_insert_ne.
Qed.

(** ** Soft deletion and reads *)

Lemma liveItem_deleted result :
  (∀ p, result = Some p → Js.truthy (p !! "deleted") = true) →
  Store.liveItem result = None.
Proof.
  intros H. unfold Store.liveItem. destruct result as [p|]; [|done].
  by rewrite (H p eq_refl).
Qed.

Lemma elem_of_slice (l : list Item) i j x : x ∈ Js.slice l i j → x ∈ l.
Proof.
  unfold Js.slice. intros H.
  by apply subseteq_take, subseteq_drop in H.
Qed.

Lemma elem_of_page pagination pageSize pageNumber total items0 all x :
  x ∈ page pagination pageSize pageNumber total items0 all →
  x ∈ items0 ∨ x ∈ all.
Proof.
  unfold page. destruct pagination; [|by right].
  destruct (negb (total =? 0)); [|by left].
  right. by eapply elem_of_slice.
Qed.

Lemma eval_live p :
  DynamoDb.eval Store.live p = true ↔ p !! "deleted" = Some (VBool false).
Proof. apply eval_CEq_bool. Qed.

Lemma pipelineFilter_live projectId version p :
  DynamoDb.eval (Store.pipelineFilter projectId version) p = true →
  p !! "deleted" = Some (VBool false).
Proof.
  unfold Store.pipelineFilter.
  repeat case_match; simpl; rewrite ?andb_true_iff;
    intros Hev; apply eval_live; tauto.
Qed.

Lemma pluginFilter_live pluginType p :
  DynamoDb.eval (Store.pluginFilter pluginType) p = true →
  p !! "deleted" = Some (VBool false).
Proof.
  unfold Store.pluginFilter.
  case_match; simpl; rewrite ?andb_true_iff;
    intros Hev; apply eval_live; tauto.
Qed.

(** The part of the soft-deletion invariant that holds: a stored project,
    application, pipeline record or plugin with [deleted = true] is not
    found by the point lookups on the table, and no listing returns a
    record of the table unless its [deleted] is [false]. *)
Lemma soft_deleted_hidden (w : World) :
  (∀ id p,
     DynamoDb.GetItem (id, "METADATA#" +:+ id) (table w) = Some p →
     p !! "deleted" = Some (VBool true) →
     Store.getProject id w = (inr None, w))
  ∧ (∀ projectId appId p,
       DynamoDb.GetItem (projectId, "APP#" +:+ appId) (table w) = Some p →
       p !! "deleted" = Some (VBool true) →
       Store.getApplication projectId appId w = (inr None, w))
  ∧ (∀ projectId pipelineId version p,
       DynamoDb.GetItem
         (projectId, "PIPELINE#" +:+ pipelineId +:+ "#"
                       +:+ default "latest" version) (table w) = Some p →
       p !! "deleted" = Some (VBool true) →
       Store.getPipeline projectId pipelineId version w = (inr None, w))
  ∧ (∀ pluginId p,
       DynamoDb.GetItem (pluginId, "PLUGIN#" +:+ pluginId) (table w) = Some p →
       p !! "deleted" = Some (VBool true) →
       Store.getPluginItem pluginId w = (inr None, w))
  ∧ (∀ order pagination pageSize pageNumber l w' p,
       Store.listProjects order pagination pageSize pageNumber w = (inr l, w') →
       p ∈ items l → p !! "deleted" = Some (VBool false))
  ∧ (∀ projectId order pagination pageSize pageNumber l w' p,
       Store.listApplication projectId order pagination pageSize pageNumber w
         = (inr l, w') →
       p ∈ items l → p !! "deleted" = Some (VBool false))
  ∧ (∀ projectId version order pagination pageSize pageNumber l w' p,
       Store.listPipeline projectId version order pagination pageSize
         pageNumber w = (inr l, w') →
       p ∈ items l → p !! "deleted" = Some (VBool false))
  ∧ (∀ pluginType order pagination pageSize pageNumber buildIn l w' p,
       Store.listBuildIn pluginType w = (inr buildIn, w) →
       Store.listPlugin pluginType order pagination pageSize pageNumber w
         = (inr l, w') →
       p ∈ items l → p ∈ buildIn ∨ p !! "deleted" = Some (VBool false)).
Proof.
  repeat split.
  - intros id p Hget Hdel. unfold Store.getProject, mbind, M_bind, gets, mret, M_ret.
    rewrite Hget. unfold Store.liveItem. by rewrite Hdel.
  - intros projectId appId p Hget Hdel.
    unfold Store.getApplication, mbind, M_bind, gets, mret, M_ret.
    rewrite Hget. unfold Store.liveItem. by rewrite Hdel.
  - intros projectId pipelineId version p Hget Hdel.
    unfold Store.getPipeline, mbind, M_bind, gets, mret, M_ret.
    rewrite Hget. unfold Store.liveItem. by rewrite Hdel.
  - intros pluginId p Hget Hdel.
    unfold Store.getPluginItem, mbind, M_bind, gets, mret, M_ret.
    rewrite Hget. unfold Store.liveItem. by rewrite Hdel.
  - intros order pagination pageSize pageNumber l w' p [= <- _] Hin.
    apply elem_of_page in Hin as [Hin|Hin]; [by apply elem_of_nil in Hin|].
    apply elem_of_Query in Hin as (_ & _ & Hf). by apply eval_live.
  - intros projectId order pagination pageSize pageNumber l w' p [= <- _] Hin.
    apply elem_of_page in Hin as [Hin|Hin]; [by apply elem_of_nil in Hin|].
    apply elem_of_Query in Hin as (_ & _ & Hf).
    simpl in Hf. apply andb_true_iff in Hf as [_ Hf]. by apply eval_live.
  - intros projectId version order pagination pageSize pageNumber l w' p
      [= <- _] Hin.
    apply elem_of_page in Hin as [Hin|Hin]; [by apply elem_of_nil in Hin|].
    apply elem_of_Query in Hin as (_ & _ & Hf).
    by eapply pipelineFilter_live.
  - intros pluginType order pagination pageSize pageNumber buildIn l w' p
      Hb Hl Hin.
    unfold Store.listPlugin, mbind, M_bind in Hl. rewrite Hb in Hl.
    injection Hl as <- _. simpl in Hin.
    apply elem_of_page in Hin as [Hin|Hin]; [by left|].
    apply elem_of_app in Hin as [Hin|Hin]; [by left|right].
    apply elem_of_Query in Hin as (_ & _ & Hf).
    by eapply pluginFilter_live.
Qed.

(** ** Soft deletion of a group of records *)

Lemma key_of_Some p k :
  DynamoDb.key_of p = Some k →
  p !! "id" = Some (VStr k.1) ∧ p !! "type" = Some (VStr k.2).
Proof.
  unfold DynamoDb.key_of. destruct (p !! "id") as [[]|]; try done.
  destruct (p !! "type") as [[]|]; try done. by intros [= <-].
Qed.

Lemma apply_sets_cons a v sets it :
  DynamoDb.apply_sets ((a, v) :: sets) it
  = DynamoDb.apply_sets sets (<[a := v]> it).
Proof. done. Qed.

Lemma apply_sets_lookup_ne sets it a :
  (∀ b v, (b, v) ∈ sets → b ≠ a) →
  DynamoDb.apply_sets sets it !! a = it !! a.
Proof.
  revert it. induction sets as [|[b v] sets IH]; intros it Hne; [done|].
  rewrite apply_sets_cons, IH.
  - apply lookup_insert_ne. eapply Hne. left.
  - intros b' v' Hin. eapply Hne. right. exact Hin.
Qed.

Lemma flips_deletedAt k w w' : flips k w w' → deletedAt k (table w').
Proof.
  intros (sets & -> & Hsets). eexists. split; [apply GetItem_insert_eq|].
  rewrite with_key_lookup by done.
  rewrite apply_sets_cons, apply_sets_lookup_ne; [apply lookup_insert_eq|].
  intros b v Hin. by eapply Hsets.
Qed.

Lemma deletedAt_lookup k tbl :
  deletedAt k tbl
  ↔ DynamoDb.GetItem k tbl ≫= (.!! "deleted") = Some (VBool true).
Proof.
  unfold deletedAt. split.
  - by intros (p & -> & Hdel).
  - destruct (DynamoDb.GetItem k tbl) as [p|]; [|done]. eauto.
Qed.

Lemma flips_other k k' w w' :
  flips k w w' → k ≠ k' →
  DynamoDb.GetItem k' (table w') = DynamoDb.GetItem k' (table w).
Proof. intros (sets & -> & _) Hne. by apply GetItem_insert_ne. Qed.

Lemma flips_frame k w w' :
  flips k w w' → w' = set_table (table w') w.
Proof. by intros (sets & -> & _). Qed.

(** A completed loop of such updates, one for each of the scanned
    records, leaves every one of them deleted and no live record matching
    the filter. *)
Section soft_delete_loop.
Context (flt : DynamoDb.Cond) (body : Item → M unit).

Hypothesis flt_live : ∀ p,
  DynamoDb.eval flt p = true → p !! "deleted" = Some (VBool false).
Hypothesis body_flips : ∀ p k w w',
  DynamoDb.key_of p = Some k → DynamoDb.eval flt p = true →
  body p w = (inr (), w') → flips k w w'.

Lemma soft_delete_loop (records : list Item) :
  ∀ w w',
    Forall (λ p, is_Some (DynamoDb.key_of p) ∧ DynamoDb.eval flt p = true)
           records →
    forEach body records w = (inr (), w') →
    w' = set_table (table w') w
    ∧ (remaining flt records (table w) → remaining flt [] (table w'))
    ∧ (∀ k, deletedAt k (table w) → deletedAt k (table w'))
    ∧ (∀ p k, p ∈ records → DynamoDb.key_of p = Some k →
              deletedAt k (table w')).
Proof.
  induction records as [|p rest IH]; intros w w' Hall Hrun.
  - injection Hrun as <-. split; [by destruct w|].
    split; [done|]. split; [done|].
    intros p k Hin. by apply elem_of_nil in Hin.
  - apply Forall_cons in Hall as [[[k Hk] Hflt] Hall].
    cbn [forEach] in Hrun. unfold mbind, M_bind in Hrun.
    destruct (body p w) as [[e|[]] w1] eqn:Hbody; [done|].
    pose proof (body_flips _ _ _ _ Hk Hflt Hbody) as Hflip.
    destruct (IH w1 w' Hall Hrun) as (Hframe & Hrem & Hkeep & Hdone).
    assert (∀ k', deletedAt k' (table w) → deletedAt k' (table w1)) as Hstep.
    { intros k' Hd. destruct (decide (k = k')) as [<-|Hne].
      - by eapply flips_deletedAt.
      - destruct Hd as (q & Hq & Hdel). exists q.
        by rewrite (flips_other _ _ _ _ Hflip Hne). }
    split; [|split; [|split]].
    + rewrite Hframe, (flips_frame _ _ _ Hflip). by destruct w.
    + intros Hremaining. apply Hrem. intros k' q Hget Hq.
      destruct (decide (k = k')) as [<-|Hne].
      * destruct (flips_deletedAt _ _ _ Hflip) as (q' & Hget' & Hdel).
        rewrite Hget in Hget'. injection Hget' as <-.
        apply flt_live in Hq. congruence.
      * rewrite (flips_other _ _ _ _ Hflip Hne) in Hget.
        pose proof (Hremaining _ _ Hget Hq) as Hin.
        apply elem_of_cons in Hin as [->|Hin]; [|done].
        apply GetItem_key in Hget. congruence.
    + intros k' Hd. by apply Hkeep, Hstep.
    + intros q k' Hin Hq. apply elem_of_cons in Hin as [->|Hin].
      * apply Hkeep. assert (k' = k) as -> by congruence.
        by eapply flips_deletedAt.
      * by eapply Hdone.
Qed.

(** After a completed run over the scanned records, a second scan finds
    nothing. *)
Lemma soft_delete_rescan w w' :
  forEach body (DynamoDb.Scan flt (table w)) w = (inr (), w') →
  DynamoDb.Scan flt (table w') = []
  ∧ w' = set_table (table w') w
  ∧ ∀ p, p ∈ DynamoDb.Scan flt (table w) →
         ∃ k, DynamoDb.key_of p = Some k ∧ deletedAt k (table w').
Proof.
  intros Hrun.
  assert (Forall (λ p, is_Some (DynamoDb.key_of p)
                       ∧ DynamoDb.eval flt p = true)
                 (DynamoDb.Scan flt (table w))) as Hall.
  { apply Forall_forall. intros p Hin.
    apply elem_of_Scan in Hin as [[k Hk] Hf].
    split; [|done]. exists k. by eapply GetItem_key. }
  destruct (soft_delete_loop _ _ _ Hall Hrun) as (Hframe & Hrem & _ & Hdone).
  split; [|split; [done|]].
  - destruct (DynamoDb.Scan flt (table w')) as [|q l] eqn:Hscan; [done|].
    assert (q ∈ DynamoDb.Scan flt (table w')) as Hq by (rewrite Hscan; left).
    apply elem_of_Scan in Hq as [[k Hk] Hf].
    assert (remaining flt (DynamoDb.Scan flt (table w)) (table w)) as Hr.
    { intros k' p Hget Hp. apply elem_of_Scan. eauto. }
    specialize (Hrem Hr k q Hk Hf). by apply elem_of_nil in Hrem.
  - intros p Hin. destruct (proj1 (Forall_forall _ _) Hall p Hin) as [[k Hk] _].
    exists k. split; [done|]. by eapply Hdone.
Qed.
End soft_delete_loop.

Lemma deleteProject_body_flips id p k w w' :
  DynamoDb.key_of p = Some k →
  DynamoDb.eval (DynamoDb.CAnd (DynamoDb.CEq "id" (VStr id)) Store.live) p = true →
  match p !! "type" with
  | Some (VStr type) =>
      send (DynamoDb.UpdateItem (id, type) None [("deleted", VBool true)])
  | _ => throw ValidationException
  end w = (inr (), w') →
  flips k w w'.
Proof.
  intros Hk Hflt. destruct (key_of_Some _ _ Hk) as [Hid Hty].
  cbn [DynamoDb.eval] in Hflt. apply andb_true_iff in Hflt as [Hf _].
  apply eval_CEq_str in Hf. rewrite Hid in Hf. injection Hf as Hf.
  destruct k as [k1 k2]. simpl in *. subst k1. rewrite Hty.
  unfold send, DynamoDb.UpdateItem. simpl. intros [= <-].
  exists []. split; [done|]. intros a v Hin. by apply elem_of_nil in Hin.
Qed.

Lemma deletePipeline_body_flips projectId pipelineId p k w w' :
  DynamoDb.key_of p = Some k →
  DynamoDb.eval
    (DynamoDb.CAnd
       (DynamoDb.CAnd (DynamoDb.CEq "id" (VStr projectId))
          (DynamoDb.CBeginsWith "type" ("PIPELINE#" +:+ pipelineId)))
       Store.live) p = true →
  match Store.deletingStatus (p !! "status"), p !! "type" with
  | inl e, _ => throw e
  | inr status, Some (VStr type) =>
      send (DynamoDb.UpdateItem (projectId, type) None
              [("deleted", VBool true); ("status", status)])
  | inr _, _ => throw ValidationException
  end w = (inr (), w') →
  flips k w w'.
Proof.
  intros Hk Hflt. destruct (key_of_Some _ _ Hk) as [Hid Hty].
  cbn [DynamoDb.eval] in Hflt. rewrite !andb_true_iff in Hflt.
  destruct Hflt as [[Hf _] _].
  apply eval_CEq_str in Hf. rewrite Hid in Hf. injection Hf as Hf.
  destruct k as [k1 k2]. simpl in *. subst k1. rewrite Hty.
  destruct (Store.deletingStatus (p !! "status")) as [e|status]; [done|].
  unfold send, DynamoDb.UpdateItem. simpl. intros [= <-].
  exists [("status", status)]. split; [done|].
  intros a v Hin. apply list_elem_of_singleton in Hin. by injection Hin as -> _.
Qed.

(** C8. Soft deletion of a project or of a pipeline is idempotent: after a
    completed run every record the scan matched carries [deleted = true],
    so a second run with the same arguments scans nothing, succeeds and
    leaves the state as the first run left it.  The records are updated
    one at a time: a run that fails on one record keeps the deletions made
    before it. *)
Theorem soft_delete_idempotent :
  (∀ id w w1,
     Store.deleteProject id w = (inr (), w1) →
     (∀ p, p ∈ DynamoDb.Scan
                 (DynamoDb.CAnd (DynamoDb.CEq "id" (VStr id)) Store.live)
                 (table w) →
           ∃ k, DynamoDb.key_of p = Some k ∧ deletedAt k (table w1))
     ∧ Store.deleteProject id w1 = (inr (), w1))
  ∧ (∀ projectId pipelineId w w1,
       Store.deletePipeline projectId pipelineId w = (inr (), w1) →
       (∀ p, p ∈ DynamoDb.Scan
                   (DynamoDb.CAnd
                      (DynamoDb.CAnd (DynamoDb.CEq "id" (VStr projectId))
                         (DynamoDb.CBeginsWith "type"
                            ("PIPELINE#" +:+ pipelineId)))
                      Store.live)
                   (table w) →
             ∃ k, DynamoDb.key_of p = Some k ∧ deletedAt k (table w1))
       ∧ Store.deletePipeline projectId pipelineId w1 = (inr (), w1))
  ∧ (let r := Store.deletePipeline "p1" "a" exampleVersions in
     r.1 = inl ValidationException
     ∧ deletedAt ("p1", "PIPELINE#a#100") (table r.2)
     ∧ ¬ deletedAt ("p1", "PIPELINE#a#latest") (table r.2)).
Proof.
  split; [|split].
  - intros id w w1 Hrun.
    change (Store.deleteProject id w) with
      (forEach (λ project,
         match project !! "type" with
         | Some (VStr type) =>
             send (DynamoDb.UpdateItem (id, type) None [("deleted", VBool true)])
         | _ => throw ValidationException
         end)
         (DynamoDb.Scan (DynamoDb.CAnd (DynamoDb.CEq "id" (VStr id)) Store.live)
            (table w)) w) in Hrun.
    apply soft_delete_rescan in Hrun as (Hscan & _ & Hdone).
    + split; [done|].
      unfold Store.deleteProject, mbind, M_bind, gets. by rewrite Hscan.
    + intros p Hp. cbn [DynamoDb.eval] in Hp.
      apply andb_true_iff in Hp as [_ Hp]. by apply eval_live.
    + intros p k w0 w0'. apply deleteProject_body_flips.
  - intros projectId pipelineId w w1 Hrun.
    change (Store.deletePipeline projectId pipelineId w) with
      (forEach (λ pipeline,
         match Store.deletingStatus (pipeline !! "status"), pipeline !! "type" with
         | inl e, _ => throw e
         | inr status, Some (VStr type) =>
             send (DynamoDb.UpdateItem (projectId, type) None
                     [("deleted", VBool true); ("status", status)])
         | inr _, _ => throw ValidationException
         end)
         (DynamoDb.Scan
            (DynamoDb.CAnd
               (DynamoDb.CAnd (DynamoDb.CEq "id" (VStr projectId))
                  (DynamoDb.CBeginsWith "type" ("PIPELINE#" +:+ pipelineId)))
               Store.live)
            (table w)) w) in Hrun.
    apply soft_delete_rescan in Hrun as (Hscan & _ & Hdone).
    + split; [done|].
      unfold Store.deletePipeline, mbind, M_bind, gets. by rewrite Hscan.
    + intros p Hp. cbn [DynamoDb.eval] in Hp.
      apply andb_true_iff in Hp as [_ Hp]. by apply eval_live.
    + intros p k w0 w0'. apply deletePipeline_body_flips.
  - cbv zeta. rewrite !deletedAt_lookup.
    split; [by vm_compute|]. split; [by vm_compute|].
    vm_compute. discriminate.
Qed.

(** ** The versioned update of a pipeline *)

Lemma attrS_Some v x : attrS v = Some x → v = Some x ∧ ∃ s, x = VStr s.
Proof. destruct v as [[]|]; try done. intros [= <-]. eauto. Qed.

Lemma attrN_Some v x : attrN v = Some x → v = Some x.
Proof. destruct v as [[]|]; simpl; congruence. Qed.

Lemma attrBOOL_Some v x : attrBOOL v = Some x → v = Some x.
Proof. destruct v as [[]|]; simpl; congruence. Qed.

Lemma list_to_map_assoc_first (l : list (string * Value)) a :
  (list_to_map l : Item) !! a = assoc_first a l.
Proof.
  induction l as [|[b v] l IH]; [done|]. cbn [list_to_map foldr assoc_first].
  fold (list_to_map (M := Item) l). simpl.
  destruct (String.eqb_spec b a) as [->|Hne].
  - apply lookup_insert_eq.
  - by rewrite lookup_insert_ne.
Qed.

Lemma apply_sets_assoc_last sets it a :
  DynamoDb.apply_sets sets it !! a
  = match assoc_last a sets with Some v => Some v | None => it !! a end.
Proof.
  revert it. induction sets as [|[b v] sets IH]; intros it; [done|].
  rewrite apply_sets_cons, IH. cbn [assoc_last].
  destruct (assoc_last a sets); [done|].
  destruct (String.eqb_spec b a) as [->|Hne].
  - apply lookup_insert_eq.
  - by rewrite lookup_insert_ne.
Qed.

(** The bindings of a literal that could be sent are the bindings of its
    fields. *)
Lemma fields_assoc_first fs l a :
  fields fs = Some l → assoc_first a l = mjoin (assoc_first a fs).
Proof.
  unfold fields. revert l.
  induction fs as [|[b o] fs IH]; intros l; [by intros [= <-]|].
  rewrite mapM_Some. intros Hall.
  apply Forall2_cons_inv_l in Hall as ([b' v] & l' & Hhd & Htl & ->).
  simpl in Hhd. destruct o as [x|]; [|done]. injection Hhd as <- <-.
  apply mapM_Some in Htl. cbn [assoc_first].
  destruct (String.eqb b a); [done|]. by apply IH.
Qed.

Lemma fields_assoc_last fs l a :
  fields fs = Some l → assoc_last a l = mjoin (assoc_last a fs).
Proof.
  unfold fields. revert l.
  induction fs as [|[b o] fs IH]; intros l; [by intros [= <-]|].
  rewrite mapM_Some. intros Hall.
  apply Forall2_cons_inv_l in Hall as ([b' v] & l' & Hhd & Htl & ->).
  simpl in Hhd. destruct o as [x|]; [|done]. injection Hhd as <- <-.
  apply mapM_Some in Htl. cbn [assoc_last]. rewrite (IH _ Htl).
  assert (Forall (λ f : string * option Value, is_Some f.2) fs) as Hsome.
  { apply mapM_Some in Htl. clear -Htl.
    induction Htl as [|[c o] y fs' l'' Hxy _ IH']; constructor; [|done].
    simpl in *. destruct o; [eauto|done]. }
  assert (∀ fs' : list (string * option Value),
            Forall (λ f, is_Some f.2) fs' →
            assoc_last a fs' = None ∨ ∃ v, assoc_last a fs' = Some (Some v))
    as Hshape.
  { clear. induction fs' as [|[c o] fs' IH']; intros Hall; [by left|].
    apply Forall_cons in Hall as [[v Hv] Hall]. simpl in Hv. subst o.
    cbn [assoc_last]. destruct (IH' Hall) as [->|[v' ->]]; [|eauto].
    destruct (String.eqb c a); eauto. }
  destruct (Hshape fs Hsome) as [->|[v' ->]]; [|done].
  by destruct (String.eqb b a).
Qed.

Lemma TransactWriteItems_two snap c1 key c2 sets tbl skey :
  DynamoDb.key_of snap = Some skey →
  DynamoDb.TransactWriteItems
    [DynamoDb.TPut snap c1; DynamoDb.TUpdate key c2 sets] tbl
  = if bool_decide (skey = key) then inl ValidationException
    else if DynamoDb.eval c1 (DynamoDb.current skey tbl)
            && DynamoDb.eval c2 (DynamoDb.current key tbl)
    then inr (<[key := DynamoDb.apply_sets sets (DynamoDb.current key tbl)]>
                (<[skey := snap]> tbl))
    else inl TransactionCanceledException.
Proof.
  intros Hk. unfold DynamoDb.TransactWriteItems.
  cbn [mapM DynamoDb.target]. rewrite Hk. cbn.
  destruct (decide (skey = key)) as [Heq|Hne].
  - rewrite (bool_decide_eq_true_2 (skey = key)) by done.
    rewrite bool_decide_eq_false_2; [done|].
    rewrite NoDup_cons. intros [Hnin _]. apply Hnin. subst. left.
  - rewrite (bool_decide_eq_false_2 (skey = key)) by done.
    rewrite bool_decide_eq_true_2.
    2:{ apply NoDup_cons. split; [|apply NoDup_singleton].
        by rewrite list_elem_of_singleton. }
    rewrite Hk, andb_true_r.
    destruct (DynamoDb.eval c1 _ && DynamoDb.eval c2 _); [|done].
    do 2 f_equal. unfold DynamoDb.current.
    by rewrite GetItem_insert_ne.
Qed.

Lemma snapshotItem_key now pipeline curPipeline l :
  Store.snapshotItem now pipeline curPipeline = Some l →
  ∃ skey, snapshotKey curPipeline = Some skey
          ∧ DynamoDb.key_of (list_to_map l) = Some skey.
Proof.
  intros Hl. unfold DynamoDb.key_of, snapshotKey.
  rewrite !list_to_map_assoc_first.
  rewrite !(fields_assoc_first _ _ _ Hl). cbn.
  unfold Store.snapshotItem, fields in Hl. cbn [mapM] in Hl.
  destruct (attrS (curPipeline !! "id")) as [x|] eqn:Hid; [|done].
  destruct (attrS_Some _ _ Hid) as [_ [s ->]]. eauto.
Qed.

(** The outcomes of [updatePipeline]: a request that cannot be sent is
    refused; one that can be sent is carried out as a whole when both
    conditions hold and cancelled otherwise. *)
Lemma updatePipeline_cases now pipeline curPipeline w :
  (¬ sendable now pipeline curPipeline
   ∧ Store.updatePipeline now pipeline curPipeline w
     = (inl ValidationException, w))
  ∨ (∃ snap skey key v sets,
       Store.snapshotItem now pipeline curPipeline = Some snap
       ∧ snapshotKey curPipeline = Some skey
       ∧ Store.latestKey pipeline = Some key
       ∧ pipeline !! "version" = Some (VStr v)
       ∧ Store.latestSets now pipeline curPipeline = Some sets
       ∧ skey ≠ key
       ∧ sendable now pipeline curPipeline
       ∧ Store.updatePipeline now pipeline curPipeline w
         = if DynamoDb.eval (DynamoDb.CAttrNotExists "type")
                (DynamoDb.current skey (table w))
              && DynamoDb.eval (DynamoDb.CEq "version" (VStr v))
                   (DynamoDb.current key (table w))
           then (inr (),
                 set_table
                   (<[key := DynamoDb.apply_sets sets
                               (DynamoDb.current key (table w))]>
                      (<[skey := list_to_map snap]> (table w))) w)
           else (inl TransactionCanceledException, w)).
Proof.
  unfold Store.updatePipeline, sendable, Store.transactItems.
  destruct (Store.snapshotItem now pipeline curPipeline) as [snap|] eqn:Hsnap;
    [|left; split; [by intros (? & ? & ? & _)|done]].
  destruct (Store.latestKey pipeline) as [key|] eqn:Hkey;
    [|left; split; [by intros (? & ? & ? & _)|done]].
  destruct (attrS (pipeline !! "version")) as [cv|] eqn:Hcv;
    [|left; split; [by intros (? & ? & ? & _)|done]].
  destruct (Store.latestSets now pipeline curPipeline) as [sets|] eqn:Hsets;
    [|left; split; [by intros (? & ? & ? & _)|done]].
  destruct (snapshotItem_key _ _ _ _ Hsnap) as (skey & Hskey & Hk).
  destruct (attrS_Some _ _ Hcv) as [Hv [v ->]].
  unfold send. rewrite (TransactWriteItems_two _ _ _ _ _ _ _ Hk).
  assert (mapM DynamoDb.target
            [DynamoDb.TPut (list_to_map snap) (DynamoDb.CAttrNotExists "type");
             DynamoDb.TUpdate key (DynamoDb.CEq "version" (VStr v)) sets]
          = Some [skey; key]) as Htargets.
  { cbn [mapM DynamoDb.target]. by rewrite Hk. }
  case_bool_decide as Heq.
  - left. split; [|done]. intros (ts & ks & [= <-] & Hks & Hnd).
    rewrite Htargets in Hks. injection Hks as <-.
    apply NoDup_cons in Hnd as [Hnin _]. apply Hnin. subst. left.
  - right. exists snap, skey, key, v, sets.
    repeat (split; [done|]). split.
    + eexists _, _. split; [done|]. split; [done|].
      apply NoDup_cons. split; [|apply NoDup_singleton].
      by rewrite list_elem_of_singleton.
    + by destruct (_ && _).
Qed.

Lemma current_version key w :
  DynamoDb.current key (table w) !! "version"
  = DynamoDb.GetItem key (table w) ≫= (.!! "version").
Proof. unfold DynamoDb.current. by destruct (DynamoDb.GetItem key (table w)). Qed.

(** C2. [updatePipeline] fails whenever the [version] stored in the latest
    record is not the version carried by the [pipeline] argument: the
    transaction is cancelled (or, when the arguments cannot be sent at
    all, refused).  Whatever makes the call fail, neither the snapshot nor
    the update of the latest record is written: the state is as before. *)
Theorem updatePipeline_conflict (now : Z) (pipeline curPipeline : Item)
    (w : World) :
  (storedLatestVersion pipeline w ≠ pipeline !! "version" →
     (sendable now pipeline curPipeline →
        Store.updatePipeline now pipeline curPipeline w
        = (inl TransactionCanceledException, w))
     ∧ (¬ sendable now pipeline curPipeline →
        Store.updatePipeline now pipeline curPipeline w
        = (inl ValidationException, w)))
  ∧ (∀ e w', Store.updatePipeline now pipeline curPipeline w = (inl e, w') →
             w' = w).
Proof.
  destruct (updatePipeline_cases now pipeline curPipeline w)
    as [[Hns Hrun]|(snap & skey & key & v & sets & Hsnap & Hskey & Hkey
                     & Hv & Hsets & Hne & Hs & Hrun)].
  - split.
    + intros _. split; [by intros ?|done].
    + intros e w'. rewrite Hrun. by intros [= _ <-].
  - split.
    + intros Hdiff. split; [|by intros ?]. intros _. rewrite Hrun.
      assert (DynamoDb.eval (DynamoDb.CEq "version" (VStr v))
                (DynamoDb.current key (table w)) = false) as ->.
      { apply not_true_is_false. rewrite eval_CEq_str, current_version.
        intros Hstored. apply Hdiff.
        unfold storedLatestVersion. rewrite Hkey, Hv. exact Hstored. }
      by rewrite andb_false_r.
    + intros e w'. rewrite Hrun. destruct (_ && _); [done|].
      by intros [= _ <-].
Qed.

Lemma fields_is_Some fs l :
  fields fs = Some l → Forall (λ f : string * option Value, is_Some f.2) fs.
Proof.
  unfold fields. rewrite mapM_Some. intros Hall.
  induction Hall as [|[c o] y fs' l' Hxy _ IH]; constructor; [|done].
  simpl in *. destruct o; [eauto|done].
Qed.

Lemma assoc_first_elem {V} a (l : list (string * V)) v :
  assoc_first a l = Some v → (a, v) ∈ l.
Proof.
  induction l as [|[b x] l IH]; [done|]. cbn [assoc_first].
  destruct (String.eqb_spec b a) as [->|_].
  - intros [= ->]. left.
  - intros H. right. by apply IH.
Qed.

Lemma assoc_last_elem {V} a (l : list (string * V)) v :
  assoc_last a l = Some v → (a, v) ∈ l.
Proof.
  induction l as [|[b x] l IH]; [done|]. cbn [assoc_last].
  destruct (assoc_last a l) as [y|].
  - intros [= ->]. right. by apply IH.
  - destruct (String.eqb_spec b a) as [->|_]; [|done].
    intros [= ->]. left.
Qed.

(** Reading a field of a literal that could be sent. *)
Lemma fields_lookup_first fs l a o :
  fields fs = Some l → assoc_first a fs = Some o →
  ∃ v, o = Some v ∧ (list_to_map l : Item) !! a = Some v.
Proof.
  intros Hl Ha. pose proof (fields_is_Some _ _ Hl) as Hall.
  apply assoc_first_elem in Ha as Hin.
  destruct (proj1 (Forall_forall _ _) Hall _ Hin) as [v Hv]. simpl in Hv.
  exists v. split; [done|].
  by rewrite list_to_map_assoc_first, (fields_assoc_first _ _ _ Hl), Ha, Hv.
Qed.

Lemma fields_lookup_last fs l a o it :
  fields fs = Some l → assoc_last a fs = Some o →
  ∃ v, o = Some v ∧ DynamoDb.apply_sets l it !! a = Some v.
Proof.
  intros Hl Ha. pose proof (fields_is_Some _ _ Hl) as Hall.
  apply assoc_last_elem in Ha as Hin.
  destruct (proj1 (Forall_forall _ _) Hall _ Hin) as [v Hv]. simpl in Hv.
  exists v. split; [done|].
  by rewrite apply_sets_assoc_last, (fields_assoc_last _ _ _ Hl), Ha, Hv.
Qed.

(** The state a successful [updatePipeline] leaves. *)
Lemma updatePipeline_success now pipeline curPipeline w w' :
  Store.updatePipeline now pipeline curPipeline w = (inr (), w') →
  ∃ snap skey key sets,
    Store.snapshotItem now pipeline curPipeline = Some snap
    ∧ snapshotKey curPipeline = Some skey
    ∧ Store.latestKey pipeline = Some key
    ∧ Store.latestSets now pipeline curPipeline = Some sets
    ∧ skey ≠ key
    ∧ w' = set_table
             (<[key := DynamoDb.apply_sets sets
                         (DynamoDb.current key (table w))]>
                (<[skey := list_to_map snap]> (table w))) w.
Proof.
  destruct (updatePipeline_cases now pipeline curPipeline w)
    as [[_ ->]|(snap & skey & key & v & sets & Hsnap & Hskey & Hkey
                     & Hv & Hsets & Hne & Hs & ->)]; [done|].
  destruct (_ && _); [|done]. intros [= <-].
  by exists snap, skey, key, sets.
Qed.

Lemma snapshotKey_Some curPipeline skey :
  snapshotKey curPipeline = Some skey →
  ∃ id, curPipeline !! "id" = Some (VStr id)
        ∧ skey = (id, "PIPELINE#" +:+ Js.template (curPipeline !! "pipelineId")
                        +:+ "#" +:+ Js.template (curPipeline !! "version")).
Proof.
  unfold snapshotKey.
  destruct (attrS (curPipeline !! "id")) as [x|] eqn:Hid; [|done].
  destruct (attrS_Some _ _ Hid) as [Hx [s ->]]. intros [= <-]. eauto.
Qed.

(** Reading a field of the snapshot and of the updated latest record. *)
Ltac snapshot_field Hsnap :=
  match goal with
  | |- DynamoDb.with_key _ _ !! ?a = _ =>
      rewrite with_key_lookup by done;
      let v := fresh "v" in let Ho := fresh "Ho" in let Hv := fresh "Hv" in
      destruct (fields_lookup_first _ _ a _ Hsnap eq_refl) as (v & Ho & Hv);
      rewrite Hv
  end.

Ltac latest_field Hsets :=
  match goal with
  | |- DynamoDb.with_key _ (DynamoDb.apply_sets _ ?it) !! ?a = _ =>
      rewrite with_key_lookup by done;
      let v := fresh "v" in let Ho := fresh "Ho" in let Hv := fresh "Hv" in
      destruct (fields_lookup_last _ _ a _ it Hsets eq_refl) as (v & Ho & Hv);
      rewrite Hv
  end.

(** C1 (amended). After a successful [updatePipeline(new, current)] the
    record whose sort key ends in [current.version] exists and carries
    [current]'s id, pipeline id, project id, version, creation time,
    prefix, name, description, region and SDK, [current]'s configuration
    documents and workflow as marshalled (empty strings as null, the
    empty document for a workflow that is missing), [current]'s execution
    name and handle (the empty string for one that is missing or null),
    its version as version tag and the time of the update as [updateAt];
    the latest record carries [new]'s prefix, name, description, region,
    SDK, marshalled configuration documents and workflow, [current]'s
    execution name and handle, the timestamp of the update as version and
    as [updateAt], ['latest'] as version tag and the empty operator.
    Nothing but these two records is written. *)
Theorem updatePipeline_snapshot_and_latest (now : Z)
    (pipeline curPipeline : Item) (w w' : World) :
  Store.updatePipeline now pipeline curPipeline w = (inr (), w') →
  ∃ id pipelineId version key snapshot latest,
    curPipeline !! "id" = Some (VStr id)
    ∧ curPipeline !! "pipelineId" = Some (VStr pipelineId)
    ∧ curPipeline !! "version" = Some (VStr version)
    ∧ Store.latestKey pipeline = Some key
    ∧ DynamoDb.GetItem
        (id, "PIPELINE#" +:+ pipelineId +:+ "#" +:+ version) (table w')
      = Some snapshot
    ∧ DynamoDb.GetItem key (table w') = Some latest
    ∧ Forall (λ f, snapshot !! f = curPipeline !! f)
        ("id" :: "pipelineId" :: "projectId" :: "version" :: "createAt"
           :: stringFields)
    ∧ Forall (λ f, snapshot !! f = marshall curPipeline !! f) documentFields
    ∧ snapshot !! "versionTag" = curPipeline !! "version"
    ∧ Forall (λ f, latest !! f = pipeline !! f) stringFields
    ∧ Forall (λ f, latest !! f = marshall pipeline !! f) documentFields
    ∧ latest !! "version" = Some (VStr (Js.toString now))
    ∧ latest !! "versionTag" = Some (VStr "latest")
    ∧ snapshot !! "workflow"
      = Some (default (VMap ∅) (marshall curPipeline !! "workflow"))
    ∧ Forall (λ f, snapshot !! f
                   = Some (Js.nullish (curPipeline !! f) (VStr "")))
        ["executionName"; "executionArn"]
    ∧ snapshot !! "updateAt" = Some (VNum now)
    ∧ latest !! "workflow"
      = Some (default (VMap ∅) (marshall pipeline !! "workflow"))
    ∧ Forall (λ f, latest !! f
                   = Some (Js.nullish (curPipeline !! f) (VStr "")))
        ["executionName"; "executionArn"]
    ∧ latest !! "updateAt" = Some (VNum now)
    ∧ latest !! "operator" = Some (VStr "")
    ∧ (∀ k, k ≠ (id, "PIPELINE#" +:+ pipelineId +:+ "#" +:+ version) →
            k ≠ key →
            DynamoDb.GetItem k (table w') = DynamoDb.GetItem k (table w))
    ∧ w' = set_table (table w') w.
Proof.
  intros Hrun.
  destruct (updatePipeline_success _ _ _ _ _ Hrun)
    as (snap & skey & key & sets & Hsnap & Hskey & Hkey & Hsets & Hne & Hw).
  clear Hrun. destruct (snapshotKey_Some _ _ Hskey) as (id & Hid & ->).
  clear Hskey.
  destruct (fields_lookup_first _ _ "pipelineId" _ Hsnap eq_refl)
    as (vp & Hp & _). apply attrS_Some in Hp as [Hp [pipelineId ->]].
  destruct (fields_lookup_first _ _ "version" _ Hsnap eq_refl)
    as (vv & Hv & _). apply attrS_Some in Hv as [Hv [version ->]].
  rewrite Hp, Hv in Hne, Hw. cbn [Js.template Js.toStr] in Hne, Hw.
  set (skey := (id, "PIPELINE#" +:+ pipelineId +:+ "#" +:+ version)) in *.
  subst w'.
  exists id, pipelineId, version, key, (DynamoDb.with_key skey (list_to_map snap)),
    (DynamoDb.with_key key
       (DynamoDb.apply_sets sets (DynamoDb.current key (table w)))).
  cbn [table set_table].
  split; [done|]. split; [done|]. split; [done|]. split; [done|].
  split; [by rewrite GetItem_insert_ne, GetItem_insert_eq|].
  split; [by rewrite GetItem_insert_eq|].
  split.
  { unfold stringFields. repeat apply Forall_cons_2; try apply Forall_nil_2.
    - unfold DynamoDb.with_key. by rewrite lookup_insert_eq, Hid.
    - snapshot_field Hsnap. by apply attrS_Some in Ho as [-> _].
    - snapshot_field Hsnap. by apply attrS_Some in Ho as [-> _].
    - snapshot_field Hsnap. by apply attrS_Some in Ho as [-> _].
    - snapshot_field Hsnap. by apply attrN_Some in Ho as ->.
    - snapshot_field Hsnap. by apply attrS_Some in Ho as [-> _].
    - snapshot_field Hsnap. by apply attrS_Some in Ho as [-> _].
    - snapshot_field Hsnap. by apply attrS_Some in Ho as [-> _].
    - snapshot_field Hsnap. by apply attrS_Some in Ho as [-> _].
    - snapshot_field Hsnap. by apply attrS_Some in Ho as [-> _]. }
  split.
  { unfold documentFields. repeat apply Forall_cons_2; try apply Forall_nil_2;
      snapshot_field Hsnap; by rewrite Ho. }
  split.
  { snapshot_field Hsnap. by apply attrS_Some in Ho as [-> _]. }
  split.
  { unfold stringFields. repeat apply Forall_cons_2; try apply Forall_nil_2;
      latest_field Hsets; by apply attrS_Some in Ho as [-> _]. }
  split.
  { unfold documentFields. repeat apply Forall_cons_2; try apply Forall_nil_2;
      latest_field Hsets; by rewrite Ho. }
  split.
  { latest_field Hsets. by injection Ho as <-. }
  split.
  { latest_field Hsets. by injection Ho as <-. }
  split.
  { snapshot_field Hsnap. by injection Ho as <-. }
  split.
  { repeat apply Forall_cons_2; try apply Forall_nil_2;
      snapshot_field Hsnap; by apply attrS_Some in Ho as [[= <-] _]. }
  split.
  { snapshot_field Hsnap. by injection Ho as <-. }
  split.
  { latest_field Hsets. by injection Ho as <-. }
  split.
  { repeat apply Forall_cons_2; try apply Forall_nil_2;
      latest_field Hsets; by apply attrS_Some in Ho as [[= <-] _]. }
  split.
  { latest_field Hsets. by injection Ho as <-. }
  split.
  { latest_field Hsets. by injection Ho as <-. }
  split; [|by destruct w].
  intros k Hk1 Hk2. by rewrite !GetItem_insert_ne.
Qed.

(** C10. After a successful [updatePipeline(new, current)] the latest
    record's [executionName] and [executionArn] are the ones of the
    [current] argument (the empty string when it has none), whatever
    [new] carries for them: a string identifier of [current] is stored
    unchanged.  The latest record's [operator] is the empty string. *)
Theorem updatePipeline_keeps_execution (now : Z)
    (pipeline curPipeline : Item) (w w' : World) :
  Store.updatePipeline now pipeline curPipeline w = (inr (), w') →
  ∃ key latest,
    Store.latestKey pipeline = Some key
    ∧ DynamoDb.GetItem key (table w') = Some latest
    ∧ latest !! "executionName"
      = Some (Js.nullish (curPipeline !! "executionName") (VStr ""))
    ∧ latest !! "executionArn"
      = Some (Js.nullish (curPipeline !! "executionArn") (VStr ""))
    ∧ (∀ f s, f ∈ ["executionName"; "executionArn"] →
              curPipeline !! f = Some (VStr s) →
              latest !! f = curPipeline !! f)
    ∧ latest !! "operator" = Some (VStr "").
Proof.
  intros Hrun.
  destruct (updatePipeline_success _ _ _ _ _ Hrun)
    as (snap & skey & key & sets & Hsnap & Hskey & Hkey & Hsets & Hne & ->).
  clear Hrun.
  exists key, (DynamoDb.with_key key
       (DynamoDb.apply_sets sets (DynamoDb.current key (table w)))).
  cbn [table set_table].
  split; [done|]. split; [by rewrite GetItem_insert_eq|].
  assert (DynamoDb.with_key key
            (DynamoDb.apply_sets sets (DynamoDb.current key (table w)))
            !! "executionName"
          = Some (Js.nullish (curPipeline !! "executionName") (VStr "")))
    as Hname.
  { latest_field Hsets. by apply attrS_Some in Ho as [[= <-] _]. }
  assert (DynamoDb.with_key key
            (DynamoDb.apply_sets sets (DynamoDb.current key (table w)))
            !! "executionArn"
          = Some (Js.nullish (curPipeline !! "executionArn") (VStr "")))
    as Harn.
  { latest_field Hsets. by apply attrS_Some in Ho as [[= <-] _]. }
  split; [done|]. split; [done|]. split.
  - intros f s Hf Hcur. rewrite !elem_of_cons in Hf.
    destruct Hf as [->|[->|Hf]]; [| |by apply elem_of_nil in Hf].
    + by rewrite Hname, Hcur.
    + by rewrite Harn, Hcur.
  - latest_field Hsets. by injection Ho as <-.
Qed.

(** ** Reconciliation of the status on reads *)

Lemma strict_neq_str_false v s :
  Js.strict_neq_str v s = false → v = Some (VStr s).
Proof.
  destruct v as [[]|]; try done. simpl. rewrite negb_false_iff, String.eqb_eq.
  by intros ->.
Qed.

Lemma key_of_insert_status p v :
  DynamoDb.key_of (<["status" := v]> p) = DynamoDb.key_of p.
Proof. unfold DynamoDb.key_of. by rewrite !lookup_insert_ne. Qed.

Lemma handleOf_Some p executionArn :
  handleOf p = Some executionArn →
  p !! "executionArn" = Some executionArn
  ∧ Js.truthy (Some executionArn) = true.
Proof.
  unfold handleOf. destruct (p !! "executionArn") as [x|]; [|done].
  destruct (Js.truthy (Some x)) eqn:Ht; [|done]. by intros [= <-].
Qed.

(** One reconciliation, on a record that was read from the table. *)
Lemma reconcile_run p w :
  is_Some (DynamoDb.key_of p) →
  PipelineServ.reconcile p w
  = (inr (reconciled (engine w) p),
     mkWorld (writeBack (engine w) (table w) p) (dictionary w) (engine w)
             (calls w ++ reconcileCalls (engine w) p)).
Proof.
  intros [k Hk].
  unfold PipelineServ.reconcile, reconciled, reconcileCalls, writeBack,
    statusWrite, handleOf.
  destruct (p !! "executionArn") as [executionArn|];
    [|rewrite app_nil_r; by destruct w].
  destruct (Js.truthy (Some executionArn));
    [|rewrite app_nil_r; by destruct w].
  rewrite Hk. unfold stale, liveStatus, engineStatus.
  unfold getExecutionStatus, mbind, M_bind, tell, gets. cbn [log engine].
  set (live := default FAILED _).
  destruct (Js.strict_neq_str (p !! "status") live) eqn:Hneq.
  - unfold Store.updatePipelineStatus. rewrite key_of_insert_status, Hk.
    unfold mbind, M_bind, tell, send, mret, M_ret, DynamoDb.UpdateItem.
    cbn. unfold set_table, log. cbn. by rewrite <- app_assoc.
  - apply strict_neq_str_false in Hneq. unfold mret, M_ret.
    by rewrite (insert_id _ _ _ Hneq).
Qed.

Lemma reconcile_all (l : list Item) :
  ∀ w, Forall (λ p, is_Some (DynamoDb.key_of p)) l →
  forEachMut PipelineServ.reconcile l w
  = (inr (reconciled (engine w) <$> l),
     mkWorld (foldl (writeBack (engine w)) (table w) l) (dictionary w)
             (engine w) (calls w ++ flat_map (reconcileCalls (engine w)) l)).
Proof.
  induction l as [|p l IH]; intros w Hall.
  - cbn. rewrite app_nil_r. by destruct w.
  - apply Forall_cons in Hall as [Hp Hall].
    cbn [forEachMut]. unfold mbind at 1, M_bind at 1.
    rewrite (reconcile_run _ _ Hp).
    unfold mbind at 1, M_bind at 1. rewrite (IH _ Hall).
    cbn. by rewrite <- app_assoc.
Qed.

Lemma listed_have_keys pagination pageSize pageNumber total prefix flt fwd tbl :
  Forall (λ p, is_Some (DynamoDb.key_of p))
    (page pagination pageSize pageNumber total []
       (DynamoDb.Query prefix flt fwd tbl)).
Proof.
  apply Forall_forall. intros p Hin.
  apply elem_of_page in Hin as [Hin|Hin]; [by apply elem_of_nil in Hin|].
  apply elem_of_Query in Hin as [[k Hk] _]. exists k. by eapply GetItem_key.
Qed.

Lemma handleOf_intro p executionArn :
  p !! "executionArn" = Some executionArn →
  Js.truthy (Some executionArn) = true →
  handleOf p = Some executionArn.
Proof. intros Harn Ht. unfold handleOf. by rewrite Harn, Ht. Qed.

Lemma getPipeline_latest projectId pipelineId w :
  Store.getPipeline projectId pipelineId None w
  = (inr (Store.liveItem
            (DynamoDb.GetItem
               (projectId, "PIPELINE#" +:+ pipelineId +:+ "#latest")
               (table w))), w).
Proof. reflexivity. Qed.

Lemma getPipeline_live projectId pipelineId w p :
  DynamoDb.GetItem (projectId, "PIPELINE#" +:+ pipelineId +:+ "#latest")
    (table w) = Some p →
  Js.truthy (p !! "deleted") = false →
  Store.getPipeline projectId pipelineId None w = (inr (Some p), w).
Proof.
  intros Hget Hlive. rewrite getPipeline_latest, Hget.
  unfold Store.liveItem. by rewrite Hlive.
Qed.

Lemma getPipeline_missing projectId pipelineId w :
  (∀ p, DynamoDb.GetItem (projectId, "PIPELINE#" +:+ pipelineId +:+ "#latest")
          (table w) = Some p →
        Js.truthy (p !! "deleted") = true) →
  Store.getPipeline projectId pipelineId None w = (inr None, w).
Proof.
  intros Hdel. by rewrite getPipeline_latest, liveItem_deleted.
Qed.

Lemma listPipeline_keys projectId version order pagination pageSize pageNumber
    w l w' :
  Store.listPipeline projectId version order pagination pageSize pageNumber w
    = (inr l, w') →
  Forall (λ p, is_Some (DynamoDb.key_of p)) (items l).
Proof.
  intros Hl.
  set (records := DynamoDb.Query "PIPELINE"
                    (Store.pipelineFilter projectId version)
                    (bool_decide (order = Some "asc")) (table w)).
  assert (items l = page pagination pageSize pageNumber
                      (Z.of_nat (length records)) [] records) as ->.
  { by injection Hl as <-. }
  apply listed_have_keys.
Qed.

(** [details] on a live record. *)
Lemma details_run id pid w p :
  DynamoDb.GetItem (pid, "PIPELINE#" +:+ id +:+ "#latest") (table w) = Some p →
  Js.truthy (p !! "deleted") = false →
  PipelineServ.details id pid w
  = (ApiSuccess 200 (PItem (reconciled (engine w) p)) None,
     mkWorld (writeBack (engine w) (table w) p) (dictionary w) (engine w)
             (calls w ++ reconcileCalls (engine w) p)).
Proof.
  intros Hget Hlive. unfold PipelineServ.details, handler.
  unfold mbind at 1, M_bind at 1. rewrite (getPipeline_live _ _ _ _ Hget Hlive).
  unfold mbind, M_bind. rewrite reconcile_run; [done|].
  exists (pid, "PIPELINE#" +:+ id +:+ "#latest"). by eapply GetItem_key.
Qed.

(** [list]: every listed record is reconciled in turn. *)
Lemma list_run query w l :
  Store.listPipeline (PipelineServ.pid query) (PipelineServ.version query)
    (PipelineServ.order query) true (PipelineServ.pageSize query)
    (PipelineServ.pageNumber query) w = (inr l, w) →
  PipelineServ.list query w
  = (ApiSuccess 200
       (PListing (mkListing (totalCount l) (reconciled (engine w) <$> items l)))
       None,
     mkWorld (foldl (writeBack (engine w)) (table w) (items l)) (dictionary w)
             (engine w)
             (calls w ++ flat_map (reconcileCalls (engine w)) (items l))).
Proof.
  intros Hl. unfold PipelineServ.list, handler.
  unfold mbind at 1, M_bind at 1. rewrite Hl.
  unfold mbind, M_bind. rewrite reconcile_all; [done|].
  by eapply listPipeline_keys.
Qed.

Lemma reconciled_handle e p executionArn :
  handleOf p = Some executionArn →
  reconciled e p = <["status" := VStr (liveStatus e executionArn)]> p.
Proof. intros H. unfold reconciled. by rewrite H. Qed.

Lemma reconcileCalls_handle e p k executionArn :
  handleOf p = Some executionArn → DynamoDb.key_of p = Some k →
  reconcileCalls e p
  = GetExecutionStatus executionArn
      :: (if stale e p executionArn
          then [UpdatePipelineStatus k (VStr (liveStatus e executionArn))]
          else []).
Proof.
  intros Hh Hk. unfold reconcileCalls, statusWrite. rewrite Hh, Hk.
  by destruct (stale e p executionArn).
Qed.

Lemma writeBack_handle e tbl p k executionArn :
  handleOf p = Some executionArn → DynamoDb.key_of p = Some k →
  writeBack e tbl p
  = if stale e p executionArn
    then <[k := <["status" := VStr (liveStatus e executionArn)]>
                  (DynamoDb.current k tbl)]> tbl
    else tbl.
Proof.
  intros Hh Hk. unfold writeBack, statusWrite. rewrite Hh, Hk.
  by destruct (stale e p executionArn).
Qed.

(** C6. A read of a pipeline record that carries an execution handle
    queries the engine for the status of that handle, returns the record
    with the live status, and writes the live status to the record exactly
    when the stored status is not the live one.  This holds for [details]
    and for every record [list] returns, in turn.  The engine is only
    queried: its state after the read is its state before. *)
Theorem reads_reconcile_status (w : World) :
  (∀ id pid p executionArn,
     let key := (pid, "PIPELINE#" +:+ id +:+ "#latest") in
     let live := liveStatus (engine w) executionArn in
     let r := PipelineServ.details id pid w in
     DynamoDb.GetItem key (table w) = Some p →
     Js.truthy (p !! "deleted") = false →
     p !! "executionArn" = Some executionArn →
     Js.truthy (Some executionArn) = true →
     r.1 = ApiSuccess 200 (PItem (<["status" := VStr live]> p)) None
     ∧ engine r.2 = engine w
     ∧ calls r.2
       = calls w ++ GetExecutionStatus executionArn
           :: (if Js.strict_neq_str (p !! "status") live
               then [UpdatePipelineStatus key (VStr live)] else [])
     ∧ table r.2
       = if Js.strict_neq_str (p !! "status") live
         then <[key := <["status" := VStr live]> p]> (table w)
         else table w)
  ∧ (∀ query l,
       let r := PipelineServ.list query w in
       Store.listPipeline (PipelineServ.pid query) (PipelineServ.version query)
         (PipelineServ.order query) true (PipelineServ.pageSize query)
         (PipelineServ.pageNumber query) w = (inr l, w) →
       r.1 = ApiSuccess 200
               (PListing (mkListing (totalCount l)
                            (reconciled (engine w) <$> items l))) None
       ∧ engine r.2 = engine w
       ∧ calls r.2 = calls w ++ flat_map (reconcileCalls (engine w)) (items l)
       ∧ table r.2 = foldl (writeBack (engine w)) (table w) (items l)
       ∧ ∀ p, p ∈ items l →
           ∃ k, DynamoDb.key_of p = Some k ∧
             ∀ executionArn,
               p !! "executionArn" = Some executionArn →
               Js.truthy (Some executionArn) = true →
               let live := liveStatus (engine w) executionArn in
               reconciled (engine w) p = <["status" := VStr live]> p
               ∧ reconcileCalls (engine w) p
                 = GetExecutionStatus executionArn
                     :: (if Js.strict_neq_str (p !! "status") live
                         then [UpdatePipelineStatus k (VStr live)] else [])
               ∧ ∀ tbl, writeBack (engine w) tbl p
                   = if Js.strict_neq_str (p !! "status") live
                     then <[k := <["status" := VStr live]>
                                   (DynamoDb.current k tbl)]> tbl
                     else tbl).
Proof.
  split.
  - intros id pid p executionArn key live r Hget Hlive Harn Ht.
    pose proof (handleOf_intro _ _ Harn Ht) as Hh.
    pose proof (GetItem_key _ _ _ Hget) as Hk.
    subst r. rewrite (details_run _ _ _ _ Hget Hlive). cbn [fst snd table engine calls].
    rewrite (reconciled_handle _ _ _ Hh), (reconcileCalls_handle _ _ _ _ Hh Hk),
      (writeBack_handle _ _ _ _ _ Hh Hk), (current_stored _ _ _ Hget).
    done.
  - intros query l r Hl. subst r. rewrite (list_run _ _ _ Hl).
    cbn [fst snd table engine calls].
    split; [done|]. split; [done|]. split; [done|]. split; [done|].
    intros p Hin.
    assert (is_Some (DynamoDb.key_of p)) as [k Hk].
    { by apply (proj1 (Forall_forall _ _) (listPipeline_keys _ _ _ _ _ _ _ _ _ Hl)). }
    exists k. split; [done|]. intros executionArn Harn Ht. cbv zeta.
    pose proof (handleOf_intro _ _ Harn Ht) as Hh.
    split; [by apply reconciled_handle|].
    split; [by apply reconcileCalls_handle|].
    intros tbl. by apply writeBack_handle.
Qed.

Lemma liveStatus_undefined e executionArn :
  engineStatus e executionArn = None → liveStatus e executionArn = FAILED.
Proof. unfold liveStatus. by intros ->. Qed.

(** C9. When the engine has no status for the execution handle of a
    record ([getExecutionStatus] returns [undefined]), the read takes the
    live status to be FAILED: [details], and [list] for each record it
    returns, give the record back with status FAILED, and write FAILED to
    the stored record exactly when its status was not FAILED already. *)
Theorem undefined_status_is_failed (w : World) :
  (∀ id pid p executionArn,
     let key := (pid, "PIPELINE#" +:+ id +:+ "#latest") in
     let r := PipelineServ.details id pid w in
     DynamoDb.GetItem key (table w) = Some p →
     Js.truthy (p !! "deleted") = false →
     p !! "executionArn" = Some executionArn →
     Js.truthy (Some executionArn) = true →
     engineStatus (engine w) executionArn = None →
     r.1 = ApiSuccess 200 (PItem (<["status" := VStr FAILED]> p)) None
     ∧ calls r.2
       = calls w ++ GetExecutionStatus executionArn
           :: (if Js.strict_neq_str (p !! "status") FAILED
               then [UpdatePipelineStatus key (VStr FAILED)] else [])
     ∧ table r.2
       = if Js.strict_neq_str (p !! "status") FAILED
         then <[key := <["status" := VStr FAILED]> p]> (table w)
         else table w)
  ∧ (∀ query l i p executionArn,
       let r := PipelineServ.list query w in
       Store.listPipeline (PipelineServ.pid query) (PipelineServ.version query)
         (PipelineServ.order query) true (PipelineServ.pageSize query)
         (PipelineServ.pageNumber query) w = (inr l, w) →
       items l !! i = Some p →
       p !! "executionArn" = Some executionArn →
       Js.truthy (Some executionArn) = true →
       engineStatus (engine w) executionArn = None →
       ∃ l' k before after,
         r.1 = ApiSuccess 200 (PListing l') None
         ∧ items l' !! i = Some (<["status" := VStr FAILED]> p)
         ∧ DynamoDb.key_of p = Some k
         ∧ calls r.2
           = calls w ++ before
               ++ GetExecutionStatus executionArn
                    :: (if Js.strict_neq_str (p !! "status") FAILED
                        then [UpdatePipelineStatus k (VStr FAILED)] else [])
               ++ after
         ∧ table r.2 = foldl (writeBack (engine w)) (table w) (items l)
         ∧ ∀ tbl, writeBack (engine w) tbl p
             = if Js.strict_neq_str (p !! "status") FAILED
               then <[k := <["status" := VStr FAILED]>
                             (DynamoDb.current k tbl)]> tbl
               else tbl).
Proof.
  split.
  - intros id pid p executionArn key r Hget Hlive Harn Ht Hnone.
    pose proof (handleOf_intro _ _ Harn Ht) as Hh.
    pose proof (GetItem_key _ _ _ Hget) as Hk.
    subst r. rewrite (details_run _ _ _ _ Hget Hlive).
    cbn [fst snd table engine calls].
    rewrite (reconciled_handle _ _ _ Hh), (reconcileCalls_handle _ _ _ _ Hh Hk),
      (writeBack_handle _ _ _ _ _ Hh Hk), (current_stored _ _ _ Hget).
    unfold stale. by rewrite (liveStatus_undefined _ _ Hnone).
  - intros query l i p executionArn r Hl Hi Harn Ht Hnone.
    pose proof (handleOf_intro _ _ Harn Ht) as Hh.
    assert (is_Some (DynamoDb.key_of p)) as [k Hk].
    { apply (proj1 (Forall_forall _ _) (listPipeline_keys _ _ _ _ _ _ _ _ _ Hl)).
      by eapply list_elem_of_lookup_2. }
    subst r. rewrite (list_run _ _ _ Hl). cbn [fst snd table engine calls].
    eexists _, k, (flat_map (reconcileCalls (engine w)) (take i (items l))),
      (flat_map (reconcileCalls (engine w)) (drop (S i) (items l))).
    split; [reflexivity|]. cbn [items]. split; [|split; [done|split; [|split]]].
    + rewrite list_lookup_fmap, Hi. cbn.
      by rewrite (reconciled_handle _ _ _ Hh), (liveStatus_undefined _ _ Hnone).
    + rewrite <- (take_drop_middle _ _ _ Hi) at 1.
      rewrite flat_map_app. cbn [flat_map].
      rewrite (reconcileCalls_handle _ _ _ _ Hh Hk). unfold stale.
      by rewrite (liveStatus_undefined _ _ Hnone).
    + done.
    + intros tbl. rewrite (writeBack_handle _ _ _ _ _ Hh Hk). unfold stale.
      by rewrite (liveStatus_undefined _ _ Hnone).
Qed.

(** ** The update handler *)

Lemma withProjectId_id body projectId :
  body !! "projectId" = Some projectId →
  PipelineServ.withProjectId body !! "id" = Some projectId.
Proof.
  intros H. unfold PipelineServ.withProjectId. rewrite H.
  apply lookup_insert_eq.
Qed.

(** C7. An update request for a project id and a pipeline id under which
    no live latest record is stored -- none at all, or one that is
    soft-deleted -- is answered with the failure envelope under status
    404 and leaves the state as it is.  Otherwise the handler calls the
    store's [updatePipeline] with the request as the new pipeline and the
    record it has just read as the current one: the call's effect on the
    state is the handler's, and its error, if any, goes to the error
    middleware. *)
Theorem update_requires_current (now : Z) (body : Item) (id : string)
    (w : World) :
  let pipeline := PipelineServ.withProjectId body in
  let key := (id, "PIPELINE#" +:+ Js.template (pipeline !! "pipelineId")
                    +:+ "#latest") in
  body !! "projectId" = Some (VStr id) →
  ((∀ p, DynamoDb.GetItem key (table w) = Some p →
         Js.truthy (p !! "deleted") = true) →
   PipelineServ.update now body w
   = (ApiFail 404 "Pipeline resource does not exist.", w))
  ∧ (∀ curPipeline,
       DynamoDb.GetItem key (table w) = Some curPipeline →
       Js.truthy (curPipeline !! "deleted") = false →
       let r := Store.updatePipeline now pipeline curPipeline w in
       PipelineServ.update now body w
       = (match r.1 with
          | inr _ => ApiSuccess 201 PNull (Some "Pipeline updated.")
          | inl e => Next e
          end, r.2)).
Proof.
  intros pipeline key Hbody.
  pose proof (withProjectId_id _ _ Hbody) as Hid. fold pipeline in Hid.
  unfold PipelineServ.update, handler. fold pipeline. rewrite Hid.
  unfold mbind, M_bind. split.
  - intros Hnone. by rewrite (getPipeline_missing _ _ _ Hnone).
  - intros curPipeline Hget Hlive. cbv zeta.
    rewrite (getPipeline_live _ _ _ _ Hget Hlive).
    by destruct (Store.updatePipeline now pipeline curPipeline w) as [[e|[]] w'].
Qed.


(** ** The claims on the example states *)

Lemma run_ok {A} (r : (Error + A) * World) x : r.1 = inr x → r = (inr x, r.2).
Proof. destruct r as [[e|y] w]; simpl; congruence. Qed.

Lemma Some_default (o : option Item) : is_Some o → o = Some (default ∅ o).
Proof. by intros [x ->]. Qed.

Lemma length_nonempty {A} (l : list A) : length l ≠ 0%nat → l ≠ [].
Proof. by destruct l. Qed.

Lemma sendable_intro now pipeline curPipeline :
  is_Some (Store.transactItems now pipeline curPipeline) →
  snapshotKey curPipeline ≠ Store.latestKey pipeline →
  sendable now pipeline curPipeline.
Proof.
  intros [ts Hts] Hne. pose proof Hts as Hts'.
  unfold Store.transactItems in Hts'.
  destruct (Store.snapshotItem now pipeline curPipeline) as [snap|] eqn:Hsnap;
    [|done].
  destruct (Store.latestKey pipeline) as [key|] eqn:Hkey; [|done].
  destruct (attrS (pipeline !! "version")) as [cv|]; [|done].
  destruct (Store.latestSets now pipeline curPipeline) as [sets|]; [|done].
  destruct (snapshotItem_key _ _ _ _ Hsnap) as (skey & Hskey & Hk).
  injection Hts' as <-.
  eexists _, [skey; key]. split; [exact Hts|]. split.
  - cbn [mapM DynamoDb.target]. by rewrite Hk.
  - apply NoDup_cons. split; [|apply NoDup_singleton].
    rewrite list_elem_of_singleton. congruence.
Qed.

(** C1, as stated, fails: after a successful update of the example
    pipeline the snapshot differs from the current record in its version
    tag, in its operator and in an empty string of its bucket document,
    and the latest record differs from the new pipeline in its execution
    handle and in its operator. *)
Lemma updatePipeline_snapshot_counterexample :
  let r := Store.updatePipeline 200 exampleUpdate exampleLatest exampleWorld in
  let snapshot := DynamoDb.GetItem ("p1", "PIPELINE#a#100") (table r.2) in
  let latest := DynamoDb.GetItem ("p1", "PIPELINE#a#latest") (table r.2) in
  r.1 = inr ()
  ∧ (snapshot ≫= (.!! "versionTag") = Some (VStr "100")
     ∧ exampleLatest !! "versionTag" = Some (VStr "latest"))
  ∧ (snapshot ≫= (.!! "operator") = Some (VStr "bob")
     ∧ exampleLatest !! "operator" = Some (VStr "alice"))
  ∧ ((snapshot ≫= (.!! "bucket")) ≫= fieldOf "prefix" = Some VNull
     ∧ (exampleLatest !! "bucket") ≫= fieldOf "prefix" = Some (VStr ""))
  ∧ (latest ≫= (.!! "executionArn") = Some (VStr "arn:1")
     ∧ exampleUpdate !! "executionArn" = Some (VStr "arn:2"))
  ∧ (latest ≫= (.!! "operator") = Some (VStr "")
     ∧ exampleUpdate !! "operator" = Some (VStr "bob")).
Proof. cbv zeta. repeat split; by vm_compute. Qed.

(** C3, on the catalog of built-in plugins: the entry marked as deleted
    is what [getPlugin] returns for its id, and it is the first of the two
    items of [listPlugin]. *)
Theorem getPlugin_returns_deleted_buildIn :
  let got := mjoin (result (Store.getPlugin "BUILDIN-1" exampleWorld)) in
  let listed := result (Store.listPlugin None None false 10 1 exampleWorld) in
  got ≫= (.!! "id") = Some (VStr "BUILDIN-1")
  ∧ got ≫= (.!! "deleted") = Some (VBool true)
  ∧ totalCount <$> listed = Some 2
  ∧ (listed ≫= λ l, head (items l)) ≫= (.!! "id") = Some (VStr "BUILDIN-1")
  ∧ (listed ≫= λ l, head (items l)) ≫= (.!! "deleted") = Some (VBool true).
Proof. cbv zeta. repeat split; by vm_compute. Qed.

(** The update of the example pipeline succeeds and leaves the two
    records: the snapshot with the stored execution handle and an empty
    workflow, the latest record with the new version. *)
Lemma updatePipeline_snapshot_and_latest_witness :
  let r := Store.updatePipeline 200 exampleUpdate exampleLatest exampleWorld in
  r.1 = inr ()
  ∧ ∃ key snapshot latest,
      Store.latestKey exampleUpdate = Some key
      ∧ DynamoDb.GetItem ("p1", "PIPELINE#a#100") (table r.2) = Some snapshot
      ∧ DynamoDb.GetItem key (table r.2) = Some latest
      ∧ snapshot !! "versionTag" = exampleLatest !! "version"
      ∧ latest !! "version" = Some (VStr (Js.toString 200))
      ∧ latest !! "versionTag" = Some (VStr "latest")
      ∧ snapshot !! "workflow" = Some (VMap ∅)
      ∧ snapshot !! "executionArn" = Some (VStr "arn:1")
      ∧ latest !! "workflow" = Some (VMap ∅).
Proof.
  cbv zeta.
  assert (H1 : (Store.updatePipeline 200 exampleUpdate exampleLatest
                  exampleWorld).1 = inr ()) by (vm_compute; reflexivity).
  split; [exact H1|].
  destruct (updatePipeline_snapshot_and_latest 200 exampleUpdate exampleLatest
              exampleWorld _ (run_ok _ _ H1))
    as (id & pipelineId & version & key & snapshot & latest
        & Hid & Hpid & Hver & Hkey & Hsnap & Hlatest & _ & _ & Htag & _ & _
        & Hv & Ht & Hflow & Hexec & _ & Hflow' & _).
  vm_compute in Hid, Hpid, Hver.
  injection Hid as <-. injection Hpid as <-. injection Hver as <-.
  exists key, snapshot, latest.
  split; [exact Hkey|]. split; [exact Hsnap|]. split; [exact Hlatest|].
  split; [exact Htag|]. split; [exact Hv|]. split; [exact Ht|].
  split; [exact Hflow|]. split; [|exact Hflow'].
  apply Forall_cons in Hexec as [_ Hexec].
  apply Forall_cons in Hexec as [Harn _]. exact Harn.
Defined.

(** A request carrying version 99 against the stored version 100 is
    cancelled. *)
Lemma updatePipeline_conflict_witness :
  storedLatestVersion exampleStale exampleWorld ≠ exampleStale !! "version"
  ∧ Store.updatePipeline 200 exampleStale exampleLatest exampleWorld
    = (inl TransactionCanceledException, exampleWorld).
Proof.
  assert (H1 : storedLatestVersion exampleStale exampleWorld
               ≠ exampleStale !! "version") by (vm_compute; discriminate).
  split; [exact H1|].
  apply (proj1 (updatePipeline_conflict 200 exampleStale exampleLatest
                  exampleWorld)); [exact H1|].
  apply sendable_intro.
  - apply (bool_decide_unpack _). vm_compute. exact I.
  - vm_compute. discriminate.
Defined.

(** Page 5 of the pipelines of the example project, one per page. *)
Lemma listing_page_clamped_witness :
  ∃ l, Store.listPipeline (Some "p1") None None true 1 5 exampleWorld
       = (inr l, exampleWorld)
       ∧ clampedPage
           (DynamoDb.Query "PIPELINE" (Store.pipelineFilter (Some "p1") None)
              (bool_decide (None = Some "asc")) (table exampleWorld))
           1 5 l.
Proof.
  apply (proj1 (listing_page_clamped exampleWorld (Some "p1") None None "p1"
                  None [] 1 5 ltac:(lia) ltac:(lia))).
  apply length_nonempty. vm_compute. discriminate.
Defined.

(** The stored plugin is not bound: it can be updated and deleted. *)
Lemma plugin_bindCount_gate_witness :
  let key := ("plug1", "PLUGIN#plug1") in
  (∃ w' p, Store.updatePlugin 40 examplePluginUpdate exampleWorld = (inr (), w')
           ∧ DynamoDb.GetItem key (table w') = Some p
           ∧ p !! "updateAt" = Some (VNum 40))
  ∧ (∃ w' p, Store.deletePlugin "plug1" exampleWorld = (inr (), w')
             ∧ DynamoDb.GetItem key (table w') = Some p
             ∧ p !! "deleted" = Some (VBool true)).
Proof.
  cbv zeta.
  assert (Hget : is_Some (DynamoDb.GetItem ("plug1", "PLUGIN#plug1")
                            (table exampleWorld))).
  { apply (bool_decide_unpack _). vm_compute. exact I. }
  destruct (proj2 (plugin_bindCount_gate 40 examplePluginUpdate
              "plug1" exampleWorld _ 0
              ltac:(vm_compute; reflexivity) (Some_default _ Hget)
              ltac:(vm_compute; reflexivity)) eq_refl)
    as [(w1 & p1 & Hrun1 & Hget1 & Hupd) (w2 & p2 & Hrun2 & Hget2 & Hdel & _)].
  split.
  - exists w1, p1. split; [exact Hrun1|]. split; [exact Hget1|].
    destruct Hupd as [Hu _]. exact Hu.
  - exists w2, p2. split; [exact Hrun2|]. split; [exact Hget2|exact Hdel].
Defined.

(** Reading the example pipeline, stored as RUNNING while the engine
    reports SUCCEEDED. *)
Lemma reads_reconcile_status_witness :
  let r := PipelineServ.details "a" "p1" exampleWorld in
  engine r.2 = engine exampleWorld
  ∧ calls r.2
    = [GetExecutionStatus (VStr "arn:1");
       UpdatePipelineStatus ("p1", "PIPELINE#a#latest") (VStr "SUCCEEDED")].
Proof.
  cbv zeta.
  assert (Hget : is_Some (DynamoDb.GetItem ("p1", "PIPELINE#a#latest")
                            (table exampleWorld))).
  { apply (bool_decide_unpack _). vm_compute. exact I. }
  destruct (proj1 (reads_reconcile_status exampleWorld) "a" "p1" _
              (VStr "arn:1") (Some_default _ Hget)
              ltac:(vm_compute; reflexivity) ltac:(vm_compute; reflexivity)
              eq_refl)
    as (_ & Hengine & Hcalls & _).
  split; [exact Hengine|]. rewrite Hcalls. vm_compute. reflexivity.
Defined.

(** An update of a pipeline that is not stored. *)
Lemma update_requires_current_witness :
  exampleMissing !! "projectId" = Some (VStr "p1")
  ∧ PipelineServ.update 200 exampleMissing exampleWorld
    = (ApiFail 404 "Pipeline resource does not exist.", exampleWorld).
Proof.
  assert (H1 : exampleMissing !! "projectId" = Some (VStr "p1"))
    by (vm_compute; reflexivity).
  split; [exact H1|].
  apply (proj1 (update_requires_current 200 exampleMissing "p1" exampleWorld
                  H1)).
  intros p Hp. vm_compute in Hp. discriminate.
Defined.

(** Deleting the example project twice. *)
Lemma soft_delete_idempotent_witness :
  let w1 := (Store.deleteProject "p1" exampleWorld).2 in
  Store.deleteProject "p1" exampleWorld = (inr (), w1)
  ∧ deletedAt ("p1", "METADATA#p1") (table w1)
  ∧ Store.deleteProject "p1" w1 = (inr (), w1).
Proof.
  cbv zeta.
  assert (H1 : Store.deleteProject "p1" exampleWorld
               = (inr (), (Store.deleteProject "p1" exampleWorld).2)).
  { apply run_ok. vm_compute. reflexivity. }
  split; [exact H1|]. split.
  - apply deletedAt_lookup. vm_compute. reflexivity.
  - exact (proj2 (proj1 soft_delete_idempotent "p1" exampleWorld _ H1)).
Defined.

(** Reading the example pipeline while the engine knows no execution. *)
Lemma undefined_status_is_failed_witness :
  let r := PipelineServ.details "a" "p1" exampleOffline in
  engineStatus (engine exampleOffline) (VStr "arn:1") = None
  ∧ calls r.2
    = [GetExecutionStatus (VStr "arn:1");
       UpdatePipelineStatus ("p1", "PIPELINE#a#latest") (VStr FAILED)].
Proof.
  cbv zeta.
  assert (Hget : is_Some (DynamoDb.GetItem ("p1", "PIPELINE#a#latest")
                            (table exampleOffline))).
  { apply (bool_decide_unpack _). vm_compute. exact I. }
  assert (Hnone : engineStatus (engine exampleOffline) (VStr "arn:1") = None)
    by reflexivity.
  destruct (proj1 (undefined_status_is_failed exampleOffline) "a" "p1" _
              (VStr "arn:1") (Some_default _ Hget)
              ltac:(vm_compute; reflexivity) ltac:(vm_compute; reflexivity)
              eq_refl Hnone)
    as (_ & Hcalls & _).
  split; [exact Hnone|]. rewrite Hcalls. vm_compute. reflexivity.
Defined.

(** The update of the example pipeline keeps the stored execution
    handle. *)
Lemma updatePipeline_keeps_execution_witness :
  let r := Store.updatePipeline 200 exampleUpdate exampleLatest exampleWorld in
  r.1 = inr ()
  ∧ ∃ key latest,
      Store.latestKey exampleUpdate = Some key
      ∧ DynamoDb.GetItem key (table r.2) = Some latest
      ∧ latest !! "executionArn" = exampleLatest !! "executionArn"
      ∧ latest !! "operator" = Some (VStr "").
Proof.
  cbv zeta.
  assert (H1 : (Store.updatePipeline 200 exampleUpdate exampleLatest
                  exampleWorld).1 = inr ()) by (vm_compute; reflexivity).
  split; [exact H1|].
  destruct (updatePipeline_keeps_execution 200 exampleUpdate exampleLatest
              exampleWorld _ (run_ok _ _ H1))
    as (key & latest & Hkey & Hlatest & _ & _ & Hkeep & Hop).
  exists key, latest. split; [exact Hkey|]. split; [exact Hlatest|].
  split; [|exact Hop].
  apply (Hkeep "executionArn" "arn:1").
  - apply elem_of_cons. right. apply elem_of_cons. left. reflexivity.
  - vm_compute. reflexivity.
Defined.

(** * Further properties of the store *)

(** ** Items that are put *)

Lemma assoc_first_None {V} a (l : list (string * V)) :
  a ∉ l.*1 → assoc_first a l = None.
Proof.
  induction l as [|[b v] l IH]; [done|]. cbn [assoc_first fmap list_fmap].
  rewrite not_elem_of_cons. intros [Hne Hnin].
  destruct (String.eqb_spec b a) as [->|_]; [done|]. by apply IH.
Qed.

Lemma itemOf_lookup rUV fs l a :
  Records.itemOf rUV fs = Some l → NoDup fs.*1 →
  (list_to_map l : Item) !! a = mjoin (assoc_first a fs).
Proof.
  unfold Records.itemOf. destruct rUV.
  - intros [= <-]. rewrite list_to_map_assoc_first.
    induction fs as [|[b o] fs IH]; [done|].
    cbn [fmap list_fmap]. rewrite NoDup_cons. intros [Hnin Hnd].
    simpl in Hnin. specialize (IH Hnd). destruct o as [v|].
    + change (omap _ ((b, Some v) :: fs))
        with ((b, v) :: omap (λ f : string * option Value, pair f.1 <$> f.2) fs).
      cbn [assoc_first].
      destruct (String.eqb_spec b a) as [->|_]; [done|]. exact IH.
    + change (omap _ ((b, None) :: fs))
        with (omap (λ f : string * option Value, pair f.1 <$> f.2) fs).
      rewrite IH. cbn [assoc_first].
      destruct (String.eqb_spec b a) as [->|_]; [|done].
      by rewrite (assoc_first_None _ _ Hnin).
  - intros Hl _. by rewrite list_to_map_assoc_first, (fields_assoc_first _ _ _ Hl).
Qed.

Lemma itemOf_is_Some rUV fs :
  rUV = true ∨ Forall (λ f : string * option Value, is_Some f.2) fs →
  is_Some (Records.itemOf rUV fs).
Proof.
  unfold Records.itemOf, fields. intros [->|Hall]; [eauto|].
  destruct rUV; [eauto|]. apply mapM_is_Some.
  eapply Forall_impl; [exact Hall|]. intros [b o] [v Hv]. simpl in *.
  subst o. by eexists.
Qed.

Lemma with_key_id k (it : Item) :
  it !! "id" = Some (VStr k.1) → it !! "type" = Some (VStr k.2) →
  DynamoDb.with_key k it = it.
Proof.
  intros Hid Hty. unfold DynamoDb.with_key.
  rewrite (insert_id _ _ _ Hty). by apply insert_id.
Qed.

(** A put of a literal with a string [id] and [type]: the item read back
    under this key has the fields of the literal, and no other record
    changes. *)
Lemma put_spec rUV fs i t w :
  NoDup fs.*1 →
  rUV = true ∨ Forall (λ f : string * option Value, is_Some f.2) fs →
  assoc_first "id" fs = Some (Some (VStr i)) →
  assoc_first "type" fs = Some (Some (VStr t)) →
  ∃ it,
    Records.put rUV fs w = (inr (), set_table (<[(i, t) := it]> (table w)) w)
    ∧ DynamoDb.GetItem (i, t) (<[(i, t) := it]> (table w)) = Some it
    ∧ ∀ a, it !! a = mjoin (assoc_first a fs).
Proof.
  intros Hnd Hacc Hid Hty.
  destruct (itemOf_is_Some _ _ Hacc) as [l Hl].
  pose proof (λ a, itemOf_lookup _ _ _ a Hl Hnd) as Hlook.
  exists (list_to_map l).
  assert (DynamoDb.key_of (list_to_map l) = Some (i, t)) as Hk.
  { unfold DynamoDb.key_of. by rewrite !Hlook, Hid, Hty. }
  split; [|split; [|done]].
  - unfold Records.put. rewrite Hl. unfold send, DynamoDb.PutItem.
    by rewrite Hk.
  - rewrite GetItem_insert_eq. f_equal. apply with_key_id.
    + by rewrite Hlook, Hid.
    + by rewrite Hlook, Hty.
Qed.

Ltac nodup_names :=
  apply (bool_decide_unpack _); vm_compute; exact I.

Ltac all_fields H :=
  unfold putAccepts in H;
  destruct H as [H|H]; [by left|right];
  repeat (apply Forall_cons in H as [? H]);
  repeat (apply Forall_cons_2; [cbn; eauto|]); apply Forall_nil_2.

(** Runs the put in the goal, leaving its four side conditions first. *)
Ltac put_at i t w p Hput Hget Hp :=
  match goal with
  | |- context [Records.put ?rUV ?fs] =>
      destruct (put_spec rUV fs i t w) as (p & Hput & Hget & Hp);
      [ | | | | unfold mbind, M_bind; rewrite Hput ]
  end.

(** ** Projects *)

(** X1. A project that is created can be read back: [createProject]
    returns the id, [getProject] finds a live record with the fields that
    were given, status ACTIVED and the creation time, the listing of
    projects contains it, and no other record is touched.  Whatever was
    stored under the id before is replaced. *)
Theorem createProject_getProject (rUV : bool) (now : Z) (project : Item)
    (id : string) (w : World) :
  project !! "id" = Some (VStr id) →
  putAccepts rUV project projectFields →
  ∃ w' p,
    Records.createProject rUV now project w = (inr (Some (VStr id)), w')
    ∧ Store.getProject id w' = (inr (Some p), w')
    ∧ Forall (λ f, p !! f = project !! f) projectFields
    ∧ p !! "status" = Some (VStr "ACTIVED")
    ∧ p !! "createAt" = Some (VNum now)
    ∧ p !! "deleted" = Some (VBool false)
    ∧ (∀ order pageSize pageNumber,
         ∃ l, Store.listProjects order false pageSize pageNumber w'
              = (inr l, w') ∧ p ∈ items l)
    ∧ ∀ k, k ≠ (id, "METADATA#" +:+ id) →
           DynamoDb.GetItem k (table w') = DynamoDb.GetItem k (table w).
Proof.
  intros Hid Hacc. unfold Records.createProject.
  put_at id ("METADATA#" +:+ id) w p Hput Hget Hp.
  - nodup_names.
  - all_fields Hacc.
  - cbn. by rewrite Hid.
  - cbn. rewrite Hid. reflexivity.
  - eexists _, p. split; [by rewrite Hid|]. cbn [table set_table].
    split.
    { unfold Store.getProject, mbind, M_bind, gets, mret, M_ret.
      cbn [table set_table]. rewrite Hget. unfold Store.liveItem.
      by rewrite Hp. }
    split.
    { unfold projectFields. repeat apply Forall_cons_2; try apply Forall_nil_2;
        by rewrite Hp. }
    split; [by rewrite Hp|]. split; [by rewrite Hp|]. split; [by rewrite Hp|].
    split.
    + intros order pageSize pageNumber. eexists. split; [reflexivity|].
      cbn [items page]. apply elem_of_Query. split; [eauto|]. split.
      * unfold DynamoDb.in_gsi, DynamoDb.gsi_sort. by rewrite !Hp.
      * apply eval_live. by rewrite Hp.
    + intros k Hk. by apply GetItem_insert_ne.
Qed.

Lemma forEach_ok {A} (body : A → M unit) (l : list A) :
  Forall (λ x, ∀ w, ∃ w', body x w = (inr (), w')) l →
  ∀ w, ∃ w', forEach body l w = (inr (), w').
Proof.
  induction l as [|x l IH]; intros Hall w; [by eexists|].
  apply Forall_cons in Hall as [Hx Hall].
  destruct (Hx w) as [w1 Hw1]. destruct (IH Hall w1) as [w' Hw'].
  exists w'. cbn [forEach]. unfold mbind, M_bind. by rewrite Hw1.
Qed.

(** A loop of updates that flip [deleted] on the records it is handed
    leaves every record that is not among them as it was, whether the
    loop completes or stops at a failing update. *)
Section updates_frame.
Context (flt : DynamoDb.Cond) (body : Item → M unit).

Hypothesis body_flips : ∀ p k w w',
  DynamoDb.key_of p = Some k → DynamoDb.eval flt p = true →
  body p w = (inr (), w') → flips k w w'.
Hypothesis body_fails : ∀ p e w w', body p w = (inl e, w') → w' = w.

Lemma loop_frame (records : list Item) :
  ∀ w r w',
    Forall (λ p, is_Some (DynamoDb.key_of p) ∧ DynamoDb.eval flt p = true)
           records →
    forEach body records w = (r, w') →
    ∀ k, (∀ p, p ∈ records → DynamoDb.key_of p ≠ Some k) →
         DynamoDb.GetItem k (table w') = DynamoDb.GetItem k (table w).
Proof.
  induction records as [|p rest IH]; intros w r w' Hall Hrun k Hk.
  - by injection Hrun as _ <-.
  - apply Forall_cons in Hall as [[[kp Hkp] Hflt] Hall].
    cbn [forEach] in Hrun. unfold mbind, M_bind in Hrun.
    destruct (body p w) as [[e|[]] w1] eqn:Hbody.
    + injection Hrun as _ <-. by rewrite (body_fails _ _ _ _ Hbody).
    + pose proof (body_flips _ _ _ _ Hkp Hflt Hbody) as Hflip.
      rewrite (IH _ _ _ Hall Hrun k).
      * apply (flips_other _ _ _ _ Hflip). intros ->.
        apply (Hk p); [left|done].
      * intros q Hq. apply Hk. by right.
Qed.
End updates_frame.

Lemma scanned_keys flt tbl :
  Forall (λ p, is_Some (DynamoDb.key_of p) ∧ DynamoDb.eval flt p = true)
         (DynamoDb.Scan flt tbl).
Proof.
  apply Forall_forall. intros p Hin.
  apply elem_of_Scan in Hin as [[k Hk] Hf].
  split; [|done]. exists k. by eapply GetItem_key.
Qed.

Lemma send_fails f e w w' : send f w = (inl e, w') → w' = w.
Proof. unfold send. destruct (f (table w)); [|done]. by intros [= _ <-]. Qed.

Lemma deleted_hidden k tbl :
  deletedAt k tbl → Store.liveItem (DynamoDb.GetItem k tbl) = None.
Proof.
  intros (p & -> & Hdel). unfold Store.liveItem. by rewrite Hdel.
Qed.

(** The scan filter of [deleteProject]. *)
Lemma deleteProject_run id w :
  let flt := DynamoDb.CAnd (DynamoDb.CEq "id" (VStr id)) Store.live in
  ∃ w',
    Store.deleteProject id w = (inr (), w')
    ∧ w' = set_table (table w') w
    ∧ (∀ k, deletedAt k (table w) → deletedAt k (table w'))
    ∧ (∀ p k, p ∈ DynamoDb.Scan flt (table w) → DynamoDb.key_of p = Some k →
              deletedAt k (table w'))
    ∧ (∀ k, (∀ p, p ∈ DynamoDb.Scan flt (table w) →
                  DynamoDb.key_of p ≠ Some k) →
            DynamoDb.GetItem k (table w') = DynamoDb.GetItem k (table w)).
Proof.
  intros flt.
  set (body := λ project : Item,
         match project !! "type" with
         | Some (VStr type) =>
             send (DynamoDb.UpdateItem (id, type) None [("deleted", VBool true)])
         | _ => throw ValidationException
         end).
  assert (∀ w0, Store.deleteProject id w0
                = forEach body (DynamoDb.Scan flt (table w0)) w0) as Hdef
    by done.
  assert (∀ p, DynamoDb.eval flt p = true → p !! "deleted" = Some (VBool false))
    as Hlive.
  { intros p Hp. cbn [DynamoDb.eval] in Hp.
    apply andb_true_iff in Hp as [_ Hp]. by apply eval_live. }
  assert (∀ p k w0 w0', DynamoDb.key_of p = Some k →
            DynamoDb.eval flt p = true → body p w0 = (inr (), w0') →
            flips k w0 w0') as Hflips
    by (intros p k w0 w0'; apply deleteProject_body_flips).
  assert (∀ p e w0 w0', body p w0 = (inl e, w0') → w0' = w0) as Hfails.
  { intros p e w0 w0'. unfold body.
    destruct (p !! "type") as [[]|];
      first [apply send_fails | by intros [= _ <-]]. }
  destruct (forEach_ok body (DynamoDb.Scan flt (table w))) with (w := w)
    as [w' Hrun].
  { eapply Forall_impl; [apply (scanned_keys flt)|].
    intros p [[k Hk] _] w0. destruct (key_of_Some _ _ Hk) as [_ Hty].
    unfold body. rewrite Hty. unfold send, DynamoDb.UpdateItem. cbn. eauto. }
  exists w'. rewrite Hdef. split; [done|].
  destruct (soft_delete_loop flt body Hlive Hflips _ _ _ (scanned_keys flt _) Hrun)
    as (Hw & _ & Hkeep & Hdone).
  pose proof (loop_frame flt body Hflips Hfails _ _ _ _ (scanned_keys flt _) Hrun)
    as Hframe.
  done.
Qed.

(** After [deleteProject], a record under the project id that carried a
    boolean [deleted] flag is hidden, and a key that was free is free. *)
Lemma deleteProject_hides id w w' t :
  (∀ k, deletedAt k (table w) → deletedAt k (table w')) →
  (∀ p k, p ∈ DynamoDb.Scan
                (DynamoDb.CAnd (DynamoDb.CEq "id" (VStr id)) Store.live)
                (table w) →
          DynamoDb.key_of p = Some k → deletedAt k (table w')) →
  (∀ k, (∀ p, p ∈ DynamoDb.Scan
                    (DynamoDb.CAnd (DynamoDb.CEq "id" (VStr id)) Store.live)
                    (table w) →
              DynamoDb.key_of p ≠ Some k) →
        DynamoDb.GetItem k (table w') = DynamoDb.GetItem k (table w)) →
  flagged (DynamoDb.GetItem (id, t) (table w)) →
  Store.liveItem (DynamoDb.GetItem (id, t) (table w')) = None.
Proof.
  intros Hkeep Hdone Hframe Hflag.
  destruct (DynamoDb.GetItem (id, t) (table w)) as [p|] eqn:Hget.
  - apply deleted_hidden. destruct (Hflag p eq_refl) as [[] Hb].
    + apply Hkeep. by exists p.
    + apply (Hdone p); [|by eapply GetItem_key].
      apply elem_of_Scan. split; [eauto|].
      cbn [DynamoDb.eval]. apply andb_true_iff. split.
      * apply eval_CEq_str. by destruct (GetItem_id_type _ _ _ Hget).
      * by apply eval_live.
  - rewrite Hframe, Hget; [done|]. intros q Hq Hkq.
    apply elem_of_Scan in Hq as [[k' Hk'] _].
    apply GetItem_key in Hk' as Hk''. congruence.
Qed.

(** X2. [deleteProject] always completes, and it cascades: every record
    stored under the project id -- the project, its applications, the
    records of its pipelines -- that carries a boolean [deleted] flag
    carries [true] afterwards, so none of them is found by a point
    lookup.  Records under other ids are left as they were. *)
Theorem deleteProject_cascades (id : string) (w : World) :
  ∃ w',
    Store.deleteProject id w = (inr (), w')
    ∧ (flagged (DynamoDb.GetItem (id, "METADATA#" +:+ id) (table w)) →
       Store.getProject id w' = (inr None, w'))
    ∧ (∀ appId,
         flagged (DynamoDb.GetItem (id, "APP#" +:+ appId) (table w)) →
         Store.getApplication id appId w' = (inr None, w'))
    ∧ (∀ pipelineId version,
         flagged (DynamoDb.GetItem
                    (id, "PIPELINE#" +:+ pipelineId +:+ "#"
                           +:+ default "latest" version) (table w)) →
         Store.getPipeline id pipelineId version w' = (inr None, w'))
    ∧ ∀ k, k.1 ≠ id →
           DynamoDb.GetItem k (table w') = DynamoDb.GetItem k (table w).
Proof.
  destruct (deleteProject_run id w) as (w' & Hrun & _ & Hkeep & Hdone & Hframe).
  pose proof (deleteProject_hides id w w') as Hhid.
  exists w'. split; [done|]. split; [|split; [|split]].
  - intros Hflag. unfold Store.getProject, mbind, M_bind, gets, mret, M_ret.
    by rewrite Hhid.
  - intros appId Hflag.
    unfold Store.getApplication, mbind, M_bind, gets, mret, M_ret.
    by rewrite Hhid.
  - intros pipelineId version Hflag.
    unfold Store.getPipeline, mbind, M_bind, gets, mret, M_ret.
    by rewrite Hhid.
  - intros k Hk. apply Hframe. intros q Hq Hkq.
    apply elem_of_Scan in Hq as [_ Hf]. cbn [DynamoDb.eval] in Hf.
    apply andb_true_iff in Hf as [Hf _]. apply eval_CEq_str in Hf.
    destruct (key_of_Some _ _ Hkq) as [Hid _]. congruence.
Qed.

(** ** Existence checks *)

Lemma existed_liveItem o :
  Records.existed o = true ↔ is_Some (Store.liveItem o).
Proof.
  unfold Records.existed, Store.liveItem. destruct o as [p|].
  - destruct (Js.truthy (p !! "deleted")); simpl; split;
      eauto; try done; by intros [? ?].
  - split; [done|by intros [? ?]].
Qed.

(** X3. The existence checks agree with the point lookups: each of
    [isProjectExisted], [isApplicationExisted], [isPipelineExisted] and
    [isPluginExisted] answers [true] exactly when the lookup of the same
    key returns a record -- for a plugin, as long as its id is not looked
    up in the catalog of built-in plugins. *)
Theorem existence_agrees (w : World) :
  (∀ id, ∃ b, Records.isProjectExisted id w = (inr b, w)
              ∧ (b = true ↔ ∃ p, Store.getProject id w = (inr (Some p), w)))
  ∧ (∀ projectId appId,
       ∃ b, Records.isApplicationExisted projectId appId w = (inr b, w)
            ∧ (b = true ↔ ∃ p, Store.getApplication projectId appId w
                               = (inr (Some p), w)))
  ∧ (∀ projectId pipelineId,
       ∃ b, Records.isPipelineExisted projectId pipelineId w = (inr b, w)
            ∧ (b = true ↔ ∃ p, Store.getPipeline projectId pipelineId None w
                               = (inr (Some p), w)))
  ∧ (∀ pluginId,
       String.prefix "BUILDIN" pluginId = false
       ∨ dictionary w !! "BuildInPlugins" = None →
       ∃ b, Records.isPluginExisted pluginId w = (inr b, w)
            ∧ (b = true ↔ ∃ p, Store.getPlugin pluginId w = (inr (Some p), w))).
Proof.
  assert (∀ o : option Item,
            Records.existed o = true
            ↔ ∃ p, (inr (Store.liveItem o), w)
                   = (inr (Some p) : Error + option Item, w)) as Hagree.
  { intros o. rewrite existed_liveItem. split.
    - intros [p ->]. eauto.
    - intros [p [= ->]]. eauto. }
  split; [|split; [|split]].
  - intros id. eexists. split; [reflexivity|]. apply Hagree.
  - intros projectId appId. eexists. split; [reflexivity|]. apply Hagree.
  - intros projectId pipelineId. eexists. split; [reflexivity|].
    rewrite getPipeline_latest. apply Hagree.
  - intros pluginId Hplain. eexists. split; [reflexivity|].
    assert (Store.getPlugin pluginId w = Store.getPluginItem pluginId w) as ->.
    { unfold Store.getPlugin. destruct Hplain as [->|Hnone]; [done|].
      destruct (String.prefix "BUILDIN" pluginId); [|done].
      unfold mbind, M_bind, Store.getDictionary, gets. by rewrite Hnone. }
    apply Hagree.
Qed.

(** ** Field-wise updates *)

Lemma assoc_last_app {V} a (l1 l2 : list (string * V)) :
  assoc_last a (l1 ++ l2)
  = match assoc_last a l2 with
    | Some x => Some x
    | None => assoc_last a l1
    end.
Proof.
  induction l1 as [|[b v] l1 IH]; cbn [app assoc_last].
  - by destruct (assoc_last a l2).
  - rewrite IH. by destruct (assoc_last a l2).
Qed.

Lemma assoc_last_setIfPresent arg f a :
  assoc_last a (Store.setIfPresent arg f)
  = if decide (f = a)
    then (if Js.truthy (arg !! a) then arg !! a else None)
    else None.
Proof.
  unfold Store.setIfPresent. case_decide as Hfa.
  - subst f. destruct (arg !! a) as [v|]; [|done].
    destruct (Js.truthy (Some v)); [|done]. cbn.
    by rewrite String.eqb_refl.
  - destruct (arg !! f) as [v|]; [|done].
    destruct (Js.truthy (Some v)); [|done]. cbn.
    by destruct (String.eqb_spec f a).
Qed.

Lemma assoc_last_present arg names a :
  assoc_last a (flat_map (Store.setIfPresent arg) names)
  = if decide (a ∈ names)
    then (if Js.truthy (arg !! a) then arg !! a else None)
    else None.
Proof.
  induction names as [|f names IH]; [done|].
  cbn [flat_map]. rewrite assoc_last_app, IH, assoc_last_setIfPresent.
  destruct (decide (a ∈ f :: names)) as [Hin|Hnin].
  - destruct (decide (a ∈ names)) as [Hn|Hn], (decide (f = a)) as [Hf|Hf];
      try (by destruct (Js.truthy (arg !! a)), (arg !! a)).
    exfalso. apply elem_of_cons in Hin as [Heq|Hin']; [by apply Hf|by apply Hn].
  - apply not_elem_of_cons in Hnin as [Hne Hnin].
    rewrite decide_False by done. by rewrite decide_False.
Qed.

(** The item an update with [SET updateAt = :u] and the present fields
    of [arg] among [names] leaves under [key]. *)
Lemma fieldsUpdated_sets names now arg key tbl :
  "updateAt" ∉ names → "id" ∉ names → "type" ∉ names →
  fieldsUpdated names now arg (DynamoDb.current key tbl)
    (DynamoDb.with_key key
       (DynamoDb.apply_sets
          (("updateAt", VNum now) :: flat_map (Store.setIfPresent arg) names)
          (DynamoDb.current key tbl))).
Proof.
  intros Hu Hid Hty. set (stored := DynamoDb.current key tbl).
  assert (∀ a, a ≠ "id" → a ≠ "type" →
            DynamoDb.with_key key
              (DynamoDb.apply_sets
                 (("updateAt", VNum now)
                    :: flat_map (Store.setIfPresent arg) names) stored) !! a
            = match assoc_last a (flat_map (Store.setIfPresent arg) names) with
              | Some x => Some x
              | None => if String.eqb "updateAt" a then Some (VNum now)
                        else stored !! a
              end) as Hlook.
  { intros a H1 H2. rewrite with_key_lookup by done.
    rewrite apply_sets_assoc_last. cbn [assoc_last].
    destruct (assoc_last a _); [done|]. by destruct (String.eqb "updateAt" a). }
  split; [|split].
  - rewrite Hlook by done. by rewrite assoc_last_present, decide_False.
  - apply Forall_forall. intros f Hf.
    assert (f ≠ "id") by (by intros ->). assert (f ≠ "type") by (by intros ->).
    assert (f ≠ "updateAt") by (by intros ->).
    rewrite Hlook by done. rewrite assoc_last_present, decide_True by done.
    destruct (Js.truthy (arg !! f)) eqn:Ht.
    + destruct (arg !! f) as [v|] eqn:Hv; done.
    + by destruct (String.eqb_spec "updateAt" f).
  - intros a Ha. rewrite !not_elem_of_cons in Ha.
    destruct Ha as (H1 & H2 & H3 & Hnin).
    rewrite Hlook by done. rewrite assoc_last_present, decide_False by done.
    by destruct (String.eqb_spec "updateAt" a).
Qed.

Ltac not_in_names :=
  apply (bool_decide_unpack _); vm_compute; exact I.

(** X4. [updateProject] and [updateApplication] never fail on a string
    key and have no condition: they set [updateAt] and each field the
    argument carries with a truthy value, and keep every other attribute
    of the stored record -- its [deleted] flag among them, and a field
    whose new value is empty.  On a free key the record is created with
    these attributes only. *)
Theorem update_sets_present_fields (now : Z) (arg : Item) (id : string)
    (w : World) :
  (arg !! "id" = Some (VStr id) →
   let key := (id, "METADATA#" +:+ id) in
   ∃ w' p,
     Records.updateProject now arg w = (inr (), w')
     ∧ DynamoDb.GetItem key (table w') = Some p
     ∧ fieldsUpdated projectUpdatable now arg
         (DynamoDb.current key (table w)) p
     ∧ ∀ k, k ≠ key →
            DynamoDb.GetItem k (table w') = DynamoDb.GetItem k (table w))
  ∧ (arg !! "projectId" = Some (VStr id) →
     let key := (id, "APP#" +:+ Js.template (arg !! "appId")) in
     ∃ w' p,
       Records.updateApplication now arg w = (inr (), w')
       ∧ DynamoDb.GetItem key (table w') = Some p
       ∧ fieldsUpdated applicationUpdatable now arg
           (DynamoDb.current key (table w)) p
       ∧ ∀ k, k ≠ key →
              DynamoDb.GetItem k (table w') = DynamoDb.GetItem k (table w)).
Proof.
  split.
  - intros Hid key. unfold Records.updateProject. rewrite Hid.
    unfold send, DynamoDb.UpdateItem. cbn [from_option]. fold key.
    eexists _, _. split; [reflexivity|]. cbn [table set_table].
    split; [apply GetItem_insert_eq|]. split.
    + replace (Records.projectSets now arg)
        with (("updateAt", VNum now)
                :: flat_map (Store.setIfPresent arg) projectUpdatable)
        by (unfold Records.projectSets; cbn; by rewrite app_nil_r).
      apply fieldsUpdated_sets; not_in_names.
    + intros k Hk. by apply GetItem_insert_ne.
  - intros Hid key. unfold Records.updateApplication. rewrite Hid.
    unfold send, DynamoDb.UpdateItem. cbn [from_option]. fold key.
    eexists _, _. split; [reflexivity|]. cbn [table set_table].
    split; [apply GetItem_insert_eq|]. split.
    + replace (Records.applicationSets now arg)
        with (("updateAt", VNum now)
                :: flat_map (Store.setIfPresent arg) applicationUpdatable)
        by (unfold Records.applicationSets; cbn; by rewrite app_nil_r).
      apply fieldsUpdated_sets; not_in_names.
    + intros k Hk. by apply GetItem_insert_ne.
Qed.

Lemma GetItem_unique k k' tbl p :
  DynamoDb.GetItem k tbl = Some p → DynamoDb.key_of p = Some k' → k = k'.
Proof. intros Hget Hk. apply GetItem_key in Hget. congruence. Qed.

(** X5. [updateProject] on an id under which no project is stored creates
    a record without [deleted] and without [prefix]: [getProject] returns
    it as a live project, no listing of projects contains it, and
    [deleteProject] leaves it in place. *)
Theorem updateProject_creates_unlisted_record (now : Z) (project : Item)
    (id : string) (w : World) :
  let key := (id, "METADATA#" +:+ id) in
  project !! "id" = Some (VStr id) →
  DynamoDb.GetItem key (table w) = None →
  ∃ w' p,
    Records.updateProject now project w = (inr (), w')
    ∧ Store.getProject id w' = (inr (Some p), w')
    ∧ p !! "deleted" = None
    ∧ (∀ order pagination pageSize pageNumber l w'' q,
         Store.listProjects order pagination pageSize pageNumber w'
           = (inr l, w'') →
         q ∈ items l → DynamoDb.key_of q ≠ Some key)
    ∧ (∀ w'', Store.deleteProject id w' = (inr (), w'') →
              Store.getProject id w'' = (inr (Some p), w'')).
Proof.
  intros key Hid Hfree. unfold Records.updateProject. rewrite Hid.
  unfold send, DynamoDb.UpdateItem. cbn [from_option]. fold key.
  assert (fieldsUpdated projectUpdatable now project
            (DynamoDb.current key (table w))
            (DynamoDb.with_key key
               (DynamoDb.apply_sets (Records.projectSets now project)
                  (DynamoDb.current key (table w))))) as (_ & _ & Hrest).
  { replace (Records.projectSets now project)
      with (("updateAt", VNum now)
              :: flat_map (Store.setIfPresent project) projectUpdatable)
      by (unfold Records.projectSets; cbn; by rewrite app_nil_r).
    apply fieldsUpdated_sets; not_in_names. }
  assert (DynamoDb.current key (table w) = ∅) as Hcur
    by (unfold DynamoDb.current; by rewrite Hfree).
  remember (DynamoDb.apply_sets (Records.projectSets now project)
              (DynamoDb.current key (table w))) as raw eqn:Hraw.
  clear Hraw. set (p := DynamoDb.with_key key raw) in *.
  assert (p !! "deleted" = None) as Hdel.
  { rewrite Hrest, Hcur; [done|]. not_in_names. }
  assert (p !! "prefix" = None) as Hprefix.
  { rewrite Hrest, Hcur; [done|]. not_in_names. }
  assert (DynamoDb.GetItem key (<[key := raw]> (table w)) = Some p) as Hget
    by apply GetItem_insert_eq.
  eexists _, p. split; [reflexivity|].
  split.
  { unfold Store.getProject, mbind, M_bind, gets, mret, M_ret. fold key.
    cbn [table set_table]. rewrite Hget. unfold Store.liveItem.
    by rewrite Hdel. }
  split; [done|]. split.
  - intros order pagination pageSize pageNumber l w'' q [= <- _] Hq Hkq.
    cbn [items] in Hq.
    apply elem_of_page in Hq as [Hq|Hq]; [by apply elem_of_nil in Hq|].
    apply elem_of_Query in Hq as ([k Hk] & Hgsi & _). cbn [table set_table] in Hk.
    assert (k = key) as -> by (by eapply GetItem_unique).
    assert (q = p) as -> by congruence.
    unfold DynamoDb.in_gsi in Hgsi. by rewrite Hprefix in Hgsi.
  - intros w'' Hdelete.
    destruct (deleteProject_run id (set_table (<[key := raw]> (table w)) w))
      as (w2 & Hrun & Hw2 & _ & _ & Hframe).
    rewrite Hrun in Hdelete. injection Hdelete as <-.
    unfold Store.getProject, mbind, M_bind, gets, mret, M_ret. fold key.
    rewrite Hframe.
    + cbn [table set_table]. rewrite Hget. unfold Store.liveItem.
      by rewrite Hdel.
    + intros q Hq Hkq. apply elem_of_Scan in Hq as [[k Hk] Hf].
      cbn [table set_table] in Hk.
      assert (k = key) as -> by (by eapply GetItem_unique).
      assert (q = p) as -> by congruence.
      cbn [DynamoDb.eval] in Hf. apply andb_true_iff in Hf as [_ Hf].
      apply eval_live in Hf. congruence.
Qed.

(** ** Applications *)

Lemma eval_CAnd c1 c2 p :
  DynamoDb.eval (DynamoDb.CAnd c1 c2) p = true
  ↔ DynamoDb.eval c1 p = true ∧ DynamoDb.eval c2 p = true.
Proof. apply andb_true_iff. Qed.

(** Two writes of [a = v] on one item leave what one leaves. *)
Lemma GetItem_insert_twice k a v (it : Item) tbl k' :
  DynamoDb.GetItem k'
    (<[k := <[a := v]> (DynamoDb.current k (<[k := <[a := v]> it]> tbl))]>
       (<[k := <[a := v]> it]> tbl))
  = DynamoDb.GetItem k' (<[k := <[a := v]> it]> tbl).
Proof.
  destruct (decide (k = k')) as [<-|Hne].
  - rewrite !GetItem_insert_eq. f_equal. unfold DynamoDb.current.
    rewrite GetItem_insert_eq. cbn [default]. unfold DynamoDb.with_key, id.
    apply map_eq. intros b.
    destruct (decide (b = "id")) as [->|Hid]; [by rewrite !lookup_insert_eq|].
    rewrite !(lookup_insert_ne _ "id" b) by done.
    destruct (decide (b = "type")) as [->|Hty];
      [by rewrite !lookup_insert_eq|].
    rewrite !(lookup_insert_ne _ "type" b) by done.
    destruct (decide (b = a)) as [->|Hb]; [by rewrite !lookup_insert_eq|].
    rewrite !(lookup_insert_ne _ a b) by done.
    rewrite !(lookup_insert_ne _ "id" b) by done.
    rewrite !(lookup_insert_ne _ "type" b) by done.
    by rewrite lookup_insert_ne.
  - by rewrite !GetItem_insert_ne.
Qed.

(** X6. An application that is added can be read back under the [id] it
    is stored with: [addApplication] returns the [appId], [getApplication]
    finds a live record with the fields given, an absent or null platform
    identifier is stored as the empty string, and no other record is
    touched.  The listing of a project contains the record exactly when
    its [projectId] attribute is that project. *)
Theorem addApplication_getApplication (rUV : bool) (now : Z) (app : Item)
    (id appId : string) (w : World) :
  app !! "id" = Some (VStr id) →
  app !! "appId" = Some (VStr appId) →
  putAccepts rUV app applicationFields →
  ∃ w' p,
    Records.addApplication rUV now app w = (inr (Some (VStr appId)), w')
    ∧ Store.getApplication id appId w' = (inr (Some p), w')
    ∧ Forall (λ f, p !! f = app !! f) applicationFields
    ∧ Forall (λ f, p !! f = Some (Js.nullish (app !! f) (VStr "")))
             ["androidPackage"; "iosBundleId"; "iosAppStoreId"]
    ∧ p !! "createAt" = Some (VNum now)
    ∧ p !! "deleted" = Some (VBool false)
    ∧ (∀ projectId order pageSize pageNumber,
         ∃ l, Store.listApplication projectId order false pageSize pageNumber w'
              = (inr l, w')
              ∧ (p ∈ items l ↔ app !! "projectId" = Some (VStr projectId)))
    ∧ ∀ k, k ≠ (id, "APP#" +:+ appId) →
           DynamoDb.GetItem k (table w') = DynamoDb.GetItem k (table w).
Proof.
  intros Hid HappId Hacc. unfold Records.addApplication.
  put_at id ("APP#" +:+ appId) w p Hput Hget Hp.
  - nodup_names.
  - all_fields Hacc.
  - cbn. by rewrite Hid.
  - cbn. rewrite HappId. reflexivity.
  - eexists _, p. split; [by rewrite HappId|]. cbn [table set_table].
    split.
    { unfold Store.getApplication, mbind, M_bind, gets, mret, M_ret.
      cbn [table set_table]. rewrite Hget. unfold Store.liveItem.
      by rewrite Hp. }
    split.
    { unfold applicationFields.
      repeat apply Forall_cons_2; try apply Forall_nil_2; by rewrite Hp. }
    split.
    { repeat apply Forall_cons_2; try apply Forall_nil_2; by rewrite Hp. }
    split; [by rewrite Hp|]. split; [by rewrite Hp|].
    split.
    + intros projectId order pageSize pageNumber. eexists.
      split; [reflexivity|]. cbn [items page]. rewrite elem_of_Query.
      rewrite eval_CAnd, eval_CEq_str, eval_live.
      assert (p !! "projectId" = app !! "projectId") as -> by (by rewrite Hp).
      split; [tauto|]. intros Hpj. split; [eauto|]. split.
      * unfold DynamoDb.in_gsi, DynamoDb.gsi_sort. by rewrite !Hp.
      * split; [done|]. by rewrite Hp.
    + intros k Hk. by apply GetItem_insert_ne.
Qed.

(** X7. [deleteApplication] has no condition and always succeeds.
    Afterwards the application is found by no lookup, existence check or
    listing; calling it again changes nothing; no other record is touched.
    On a key where nothing was stored it leaves a record that carries
    only [deleted = true]. *)
Theorem deleteApplication_hides (projectId appId : string) (w : World) :
  let key := (projectId, "APP#" +:+ appId) in
  ∃ w',
    Records.deleteApplication projectId appId w = (inr (), w')
    ∧ Store.getApplication projectId appId w' = (inr None, w')
    ∧ Records.isApplicationExisted projectId appId w' = (inr false, w')
    ∧ (∀ pj order pagination pageSize pageNumber l w'' q,
         Store.listApplication pj order pagination pageSize pageNumber w'
           = (inr l, w'') →
         q ∈ items l → DynamoDb.key_of q ≠ Some key)
    ∧ (∃ w'', Records.deleteApplication projectId appId w' = (inr (), w'')
              ∧ ∀ k, DynamoDb.GetItem k (table w'')
                     = DynamoDb.GetItem k (table w'))
    ∧ (∀ k, k ≠ key →
            DynamoDb.GetItem k (table w') = DynamoDb.GetItem k (table w))
    ∧ (DynamoDb.GetItem key (table w) = None →
       DynamoDb.GetItem key (table w')
       = Some (DynamoDb.with_key key {["deleted" := VBool true]})).
Proof.
  intros key. unfold Records.deleteApplication, send, DynamoDb.UpdateItem.
  cbn [from_option]. fold key.
  set (raw := DynamoDb.apply_sets [("deleted", VBool true)]
                (DynamoDb.current key (table w))).
  assert (raw !! "deleted" = Some (VBool true)) as Hraw
    by apply lookup_insert_eq.
  set (p := DynamoDb.with_key key raw).
  assert (p !! "deleted" = Some (VBool true)) as Hdel
    by (unfold p; by rewrite with_key_lookup).
  assert (DynamoDb.GetItem key (<[key := raw]> (table w)) = Some p) as Hget
    by apply GetItem_insert_eq.
  eexists. split; [reflexivity|]. cbn [table set_table].
  split.
  { unfold Store.getApplication, mbind, M_bind, gets, mret, M_ret. fold key.
    cbn [table set_table]. rewrite Hget. unfold Store.liveItem.
    by rewrite Hdel. }
  split.
  { unfold Records.isApplicationExisted, mbind, M_bind, gets, mret, M_ret.
    fold key. cbn [table set_table]. rewrite Hget. unfold Records.existed.
    by rewrite Hdel. }
  split.
  { intros pj order pagination pageSize pageNumber l w'' q [= <- _] Hq Hkq.
    cbn [items] in Hq.
    apply elem_of_page in Hq as [Hq|Hq]; [by apply elem_of_nil in Hq|].
    apply elem_of_Query in Hq as ([k Hk] & _ & Hf).
    cbn [table set_table] in Hk.
    assert (k = key) as -> by (by eapply GetItem_unique).
    assert (q = p) as -> by congruence.
    cbn [DynamoDb.eval] in Hf. apply andb_true_iff in Hf as [_ Hf].
    apply eval_live in Hf. congruence. }
  split.
  { eexists. split; [reflexivity|]. intros k. cbn [table set_table].
    apply GetItem_insert_twice. }
  split; [intros k Hk; by apply GetItem_insert_ne|].
  intros Hfree. rewrite Hget. unfold p, raw, DynamoDb.current.
  by rewrite Hfree.
Qed.

(** ** Pipelines that are added *)

Lemma truthy_nullish_false v :
  Js.truthy (Some (Js.nullish v (VBool false))) = Js.truthy v.
Proof. by destruct v as [[]|]. Qed.

(** X8. [addPipeline] stores the latest record of the pipeline under its
    [id] and returns the [pipelineId]: the record has the fields given,
    version tag [latest], and for each optional field that is absent or
    null its default -- the version token is then the time of the call.
    [getPipeline] returns the record unless the pipeline was handed in
    with a truthy [deleted]; no other record is touched. *)
Theorem addPipeline_getPipeline (rUV : bool) (now : Z) (pipeline : Item)
    (id pipelineId : string) (w : World) :
  pipeline !! "id" = Some (VStr id) →
  pipeline !! "pipelineId" = Some (VStr pipelineId) →
  putAccepts rUV pipeline pipelineFields →
  let key := (id, "PIPELINE#" +:+ pipelineId +:+ "#latest") in
  ∃ w' p,
    Records.addPipeline rUV now pipeline w = (inr (Some (VStr pipelineId)), w')
    ∧ DynamoDb.GetItem key (table w') = Some p
    ∧ Forall (λ f, p !! f = pipeline !! f) pipelineFields
    ∧ Forall (λ fd, p !! fd.1 = Some (Js.nullish (pipeline !! fd.1) fd.2))
             (pipelineDefaults now)
    ∧ p !! "versionTag" = Some (VStr "latest")
    ∧ p !! "prefix" = Some (VStr "PIPELINE")
    ∧ Store.getPipeline id pipelineId None w'
      = (inr (if Js.truthy (pipeline !! "deleted") then None else Some p), w')
    ∧ ∀ k, k ≠ key →
           DynamoDb.GetItem k (table w') = DynamoDb.GetItem k (table w).
Proof.
  intros Hid HpId Hacc key. unfold Records.addPipeline.
  put_at id ("PIPELINE#" +:+ pipelineId +:+ "#latest") w p Hput Hget Hp.
  - nodup_names.
  - all_fields Hacc.
  - cbn. by rewrite Hid.
  - cbn. rewrite HpId. reflexivity.
  - eexists _, p. split; [by rewrite HpId|]. cbn [table set_table].
    split; [exact Hget|]. split.
    { unfold pipelineFields.
      repeat apply Forall_cons_2; try apply Forall_nil_2; by rewrite Hp. }
    split.
    { unfold pipelineDefaults.
      repeat apply Forall_cons_2; try apply Forall_nil_2; by rewrite Hp. }
    split; [by rewrite Hp|]. split; [by rewrite Hp|]. split.
    + rewrite getPipeline_latest.
      unfold mbind, M_bind, gets, mret, M_ret. cbn [table set_table].
      fold key. unfold key. rewrite Hget. unfold Store.liveItem.
      assert (p !! "deleted"
              = Some (Js.nullish (pipeline !! "deleted") (VBool false))) as ->
        by (by rewrite Hp).
      rewrite truthy_nullish_false. by destruct (Js.truthy _).
    + intros k Hk. by apply GetItem_insert_ne.
Qed.

(** ** When the versioned update goes through *)

Lemma not_exists_type k tbl :
  DynamoDb.eval (DynamoDb.CAttrNotExists "type") (DynamoDb.current k tbl) = true
  ↔ DynamoDb.GetItem k tbl = None.
Proof.
  unfold DynamoDb.current. destruct (DynamoDb.GetItem k tbl) as [p|] eqn:Hget.
  - destruct (GetItem_id_type _ _ _ Hget) as [_ Hty]. cbn. by rewrite Hty.
  - done.
Qed.

(** X9. A versioned update that can be sent succeeds exactly when no
    record is stored yet under the key of the snapshot and the version
    stored in the latest record is the one the [pipeline] argument
    carries; in every other state the transaction is cancelled. *)
Theorem updatePipeline_succeeds_iff (now : Z) (pipeline curPipeline : Item)
    (w : World) :
  sendable now pipeline curPipeline →
  ∃ skey,
    snapshotKey curPipeline = Some skey
    ∧ ((∃ w', Store.updatePipeline now pipeline curPipeline w = (inr (), w'))
       ↔ DynamoDb.GetItem skey (table w) = None
         ∧ storedLatestVersion pipeline w = pipeline !! "version")
    ∧ ((∀ w', Store.updatePipeline now pipeline curPipeline w ≠ (inr (), w'))
       → Store.updatePipeline now pipeline curPipeline w
         = (inl TransactionCanceledException, w)).
Proof.
  intros Hs.
  destruct (updatePipeline_cases now pipeline curPipeline w)
    as [[Hns _]|(snap & skey & key & v & sets & Hsnap & Hskey & Hkey
                     & Hv & Hsets & Hne & _ & Hrun)]; [done|].
  exists skey. split; [done|].
  assert (storedLatestVersion pipeline w = pipeline !! "version"
          ↔ DynamoDb.eval (DynamoDb.CEq "version" (VStr v))
              (DynamoDb.current key (table w)) = true) as Hver.
  { rewrite eval_CEq_str, current_version. unfold storedLatestVersion.
    by rewrite Hkey, Hv. }
  rewrite <- not_exists_type, Hver, <- andb_true_iff, Hrun.
  destruct (_ && _).
  - split; [split; [done|eauto]|]. intros Hno. exfalso. by eapply Hno.
  - split; [|done]. split; [by intros [? ?]|done].
Qed.

(** X10. A version is snapshotted once.  After a successful update, every
    later update whose [curPipeline] names the same project, pipeline and
    version -- a replay of the same call among them -- fails and leaves
    the state as it is. *)
Theorem updatePipeline_snapshots_once (now : Z) (pipeline curPipeline : Item)
    (w w' : World) :
  Store.updatePipeline now pipeline curPipeline w = (inr (), w') →
  ∀ now' pipeline' curPipeline',
    snapshotKey curPipeline' = snapshotKey curPipeline →
    ∃ e, Store.updatePipeline now' pipeline' curPipeline' w' = (inl e, w').
Proof.
  intros Hrun now' pipeline' curPipeline' Hsame.
  destruct (updatePipeline_success _ _ _ _ _ Hrun)
    as (snap & skey & key & sets & _ & Hskey & _ & _ & Hne & ->).
  destruct (updatePipeline_cases now' pipeline' curPipeline'
              (set_table
                 (<[key := DynamoDb.apply_sets sets
                             (DynamoDb.current key (table w))]>
                    (<[skey := list_to_map snap]> (table w))) w))
    as [[_ Hfail]|(snap' & skey' & key' & v' & sets' & _ & Hskey' & _
                     & _ & _ & _ & _ & Hrun')]; [eauto|].
  rewrite Hrun'. cbn [table set_table].
  assert (skey' = skey) as -> by congruence.
  assert (DynamoDb.eval (DynamoDb.CAttrNotExists "type")
            (DynamoDb.current skey
               (<[key := DynamoDb.apply_sets sets
                           (DynamoDb.current key (table w))]>
                  (<[skey := list_to_map snap]> (table w)))) = false) as ->.
  { apply not_true_is_false. rewrite not_exists_type.
    rewrite GetItem_insert_ne, GetItem_insert_eq by done. done. }
  eauto.
Qed.

(** ** The update in place of the current version *)

Lemma assoc_last_None {V} a (l : list (string * V)) :
  a ∉ l.*1 → assoc_last a l = None.
Proof.
  induction l as [|[b v] l IH]; [done|]. cbn [assoc_last fmap list_fmap].
  rewrite not_elem_of_cons. intros [Hne Hnin]. rewrite (IH Hnin).
  by destruct (String.eqb_spec b a) as [->|_].
Qed.

Lemma sets_lookup fs sets key cur a :
  fields fs = Some sets → a ≠ "id" → a ≠ "type" →
  DynamoDb.with_key key (DynamoDb.apply_sets sets cur) !! a
  = match mjoin (assoc_last a fs) with
    | Some v => Some v
    | None => cur !! a
    end.
Proof.
  intros Hsets Hid Hty. rewrite with_key_lookup by done.
  by rewrite apply_sets_assoc_last, (fields_assoc_last _ _ _ Hsets).
Qed.

Lemma currentVersionSets_any_time now now' pipeline :
  is_Some (Records.currentVersionSets now pipeline) →
  is_Some (Records.currentVersionSets now' pipeline).
Proof.
  unfold Records.currentVersionSets, fields. rewrite !mapM_is_Some.
  intros Hall. repeat (apply Forall_cons in Hall as [? Hall]).
  repeat (apply Forall_cons_2; [first [assumption|by cbn; eauto]|]).
  apply Forall_nil_2.
Qed.

Lemma storedVersion_eval k v w :
  DynamoDb.eval (DynamoDb.CEq "version" (VStr v))
    (DynamoDb.current k (table w)) = true
  ↔ storedVersion k w = Some (VStr v).
Proof. by rewrite eval_CEq_str, current_version. Qed.

Lemma updatePipelineAtCurrentVersion_run now pipeline projectId type v sets w :
  pipeline !! "projectId" = Some (VStr projectId) →
  pipeline !! "type" = Some (VStr type) →
  pipeline !! "version" = Some (VStr v) →
  Records.currentVersionSets now pipeline = Some sets →
  Records.updatePipelineAtCurrentVersion now pipeline w
  = if DynamoDb.eval (DynamoDb.CEq "version" (VStr v))
         (DynamoDb.current (projectId, type) (table w))
    then (inr (),
          set_table
            (<[(projectId, type) :=
                 DynamoDb.apply_sets sets
                   (DynamoDb.current (projectId, type) (table w))]> (table w))
            w)
    else (inl ConditionalCheckFailedException, w).
Proof.
  intros Hpj Hty Hv Hsets. unfold Records.updatePipelineAtCurrentVersion.
  rewrite Hpj, Hty, Hv, Hsets. unfold send, DynamoDb.UpdateItem.
  cbn [from_option]. by destruct (DynamoDb.eval _ _).
Qed.

(** X11. [updatePipelineAtCurrentVersion] is guarded by the version and
    keeps it.  When the record under the pipeline's [projectId] and [type]
    does not carry the pipeline's [version] -- or there is no such record
    -- the call fails with a failed condition and writes nothing.
    Otherwise it writes the pipeline's fields, [updateAt] as the decimal
    string of the time, and leaves every other attribute, the version
    among them: the same call succeeds again. *)
Theorem updatePipelineAtCurrentVersion_guard (now : Z) (pipeline : Item)
    (projectId type v : string) (w : World) :
  pipeline !! "projectId" = Some (VStr projectId) →
  pipeline !! "type" = Some (VStr type) →
  pipeline !! "version" = Some (VStr v) →
  is_Some (Records.currentVersionSets now pipeline) →
  let key := (projectId, type) in
  (storedVersion key w ≠ Some (VStr v) →
   Records.updatePipelineAtCurrentVersion now pipeline w
   = (inl ConditionalCheckFailedException, w))
  ∧ (storedVersion key w = Some (VStr v) →
     ∃ w' old p,
       Records.updatePipelineAtCurrentVersion now pipeline w = (inr (), w')
       ∧ DynamoDb.GetItem key (table w) = Some old
       ∧ DynamoDb.GetItem key (table w') = Some p
       ∧ Forall (λ f, p !! f = pipeline !! f) currentVersionFields
       ∧ Forall (λ fd, p !! fd.1 = Some (Js.nullish (pipeline !! fd.1) fd.2))
                currentVersionDefaults
       ∧ p !! "updateAt" = Some (VStr (Js.toString now))
       ∧ (∀ a, a ∉ "updateAt" :: currentVersionFields
                     ++ currentVersionDefaults.*1 →
               p !! a = old !! a)
       ∧ (∀ now', ∃ w'',
            Records.updatePipelineAtCurrentVersion now' pipeline w'
            = (inr (), w''))
       ∧ ∀ k, k ≠ key →
              DynamoDb.GetItem k (table w') = DynamoDb.GetItem k (table w)).
Proof.
  intros Hpj Hty Hv [sets Hsets] key.
  rewrite (updatePipelineAtCurrentVersion_run _ _ _ _ _ _ _ Hpj Hty Hv Hsets).
  fold key. split.
  { intros Hne. rewrite <- storedVersion_eval in Hne.
    apply not_true_is_false in Hne. by rewrite Hne. }
  intros Hstored. rewrite (proj2 (storedVersion_eval _ _ _) Hstored).
  destruct (DynamoDb.GetItem key (table w)) as [old|] eqn:Hold;
    [|by unfold storedVersion in Hstored; rewrite Hold in Hstored].
  assert (old !! "version" = Some (VStr v)) as Hversion
    by (by unfold storedVersion in Hstored; rewrite Hold in Hstored).
  rewrite (current_stored _ _ _ Hold).
  pose proof (λ a, sets_lookup _ _ key old a Hsets) as Hlook.
  pose proof (fields_is_Some _ _ Hsets) as Hall.
  remember (DynamoDb.apply_sets sets old) as raw eqn:Hraw. clear Hraw.
  set (p := DynamoDb.with_key key raw) in *.
  assert (∀ a, a ∉ "updateAt" :: currentVersionFields
                     ++ currentVersionDefaults.*1 →
               p !! a = old !! a) as Hrest.
  { intros a Ha. destruct (decide (a = "id")) as [->|Hid].
    { destruct (GetItem_id_type _ _ _ Hold) as [-> _].
      unfold p, DynamoDb.with_key. by rewrite lookup_insert_eq. }
    destruct (decide (a = "type")) as [->|Hty'].
    { destruct (GetItem_id_type _ _ _ Hold) as [_ ->].
      unfold p, DynamoDb.with_key.
      by rewrite lookup_insert_ne, lookup_insert_eq. }
    rewrite Hlook by done. rewrite assoc_last_None; [done|].
    intros Hin. apply Ha. revert Hin. cbn.
    rewrite !elem_of_cons, elem_of_nil. tauto. }
  exists (set_table (<[key := raw]> (table w)) w), old, p.
  split; [done|]. split; [done|]. cbn [table set_table].
  split; [apply GetItem_insert_eq|].
  repeat (apply Forall_cons in Hall as [[? ?] Hall]). simpl in *.
  split.
  { unfold currentVersionFields.
    repeat apply Forall_cons_2; try apply Forall_nil_2;
      rewrite Hlook by done; cbn;
      match goal with
      | H : pipeline !! ?f = Some _ |- context [pipeline !! ?f] =>
          by rewrite H
      end. }
  split.
  { unfold currentVersionDefaults.
    repeat apply Forall_cons_2; try apply Forall_nil_2;
      by rewrite Hlook by done. }
  split; [by rewrite Hlook by done|]. split; [exact Hrest|]. split.
  - intros now'.
    destruct (currentVersionSets_any_time now now' pipeline) as [sets' Hsets'];
      [eauto|].
    rewrite (updatePipelineAtCurrentVersion_run _ _ _ _ _ _ _
               Hpj Hty Hv Hsets').
    rewrite (proj2 (storedVersion_eval _ _ _)); [eauto|].
    unfold storedVersion. cbn [table set_table]. fold key.
    rewrite GetItem_insert_eq. cbn. fold p. rewrite Hrest; [done|].
    not_in_names.
  - intros k Hk. by apply GetItem_insert_ne.
Qed.

(** ** Binding plugins *)

Lemma occurrences_cons x y l :
  occurrences x (y :: l) = (if decide (y = x) then 1 else 0) + occurrences x l.
Proof.
  unfold occurrences. rewrite filter_cons.
  destruct (decide (y = x)); cbn [length]; lia.
Qed.

Lemma occurrences_app x l1 l2 :
  occurrences x (l1 ++ l2) = occurrences x l1 + occurrences x l2.
Proof.
  unfold occurrences. rewrite filter_app, length_app. lia.
Qed.

Lemma occurrences_elem x l : x ∈ l → 0 < occurrences x l.
Proof.
  induction l as [|y l IH]; [by intros ?%elem_of_nil|].
  rewrite occurrences_cons. intros [->|Hin]%elem_of_cons.
  - rewrite decide_True by done. unfold occurrences. lia.
  - specialize (IH Hin). destruct (decide (y = x)); lia.
Qed.

Lemma forEach_app {A} (body : A → M unit) (l1 l2 : list A) w :
  forEach body (l1 ++ l2) w
  = (forEach body l1 ≫= λ _, forEach body l2) w.
Proof.
  revert w. induction l1 as [|x l1 IH]; intros w; [done|].
  cbn [app forEach]. unfold mbind, M_bind.
  destruct (body x w) as [[e|[]] w1]; [done|]. apply IH.
Qed.

(** One increment. *)
Lemma bind_step now count pluginId w :
  send (Records.UpdateItemPlus (pluginKey pluginId) "bindCount" count
          [("updateAt", VNum now)]) w
  = match bindCountOf pluginId (table w) with
    | Some n =>
        (inr (),
         set_table
           (<[pluginKey pluginId :=
                <["updateAt" := VNum now]>
                  (<["bindCount" := VNum (n + count)]>
                     (DynamoDb.current (pluginKey pluginId) (table w)))]>
              (table w)) w)
    | None => (inl ValidationException, w)
    end.
Proof.
  unfold send, Records.UpdateItemPlus, bindCountOf.
  by destruct (DynamoDb.current _ _ !! "bindCount") as [[]|].
Qed.

Lemma pluginKey_inj id id' : pluginKey id = pluginKey id' → id = id'.
Proof. by intros [= ->]. Qed.

Lemma bindCountOf_step now n id id' tbl :
  bindCountOf id'
    (<[pluginKey id :=
         <["updateAt" := VNum now]>
           (<["bindCount" := VNum n]>
              (DynamoDb.current (pluginKey id) tbl))]> tbl)
  = if decide (id = id') then Some n else bindCountOf id' tbl.
Proof.
  unfold bindCountOf, DynamoDb.current. case_decide as Heq.
  - subst id'. rewrite GetItem_insert_eq. cbn [default from_option Datatypes.id].
    rewrite with_key_lookup by done.
    by rewrite lookup_insert_ne, lookup_insert_eq.
  - rewrite GetItem_insert_ne; [done|]. by intros ?%pluginKey_inj.
Qed.

Lemma attribute_step now n id k a tbl :
  a ≠ "bindCount" → a ≠ "updateAt" →
  is_Some (DynamoDb.GetItem (pluginKey id) tbl) →
  attribute k a
    (<[pluginKey id :=
         <["updateAt" := VNum now]>
           (<["bindCount" := VNum n]>
              (DynamoDb.current (pluginKey id) tbl))]> tbl)
  = attribute k a tbl.
Proof.
  intros Hb Hu [p Hp]. unfold attribute.
  destruct (decide (pluginKey id = k)) as [<-|Hne].
  - rewrite GetItem_insert_eq, Hp. cbn.
    rewrite (current_stored _ _ _ Hp).
    destruct (GetItem_id_type _ _ _ Hp) as [Hid Hty].
    unfold DynamoDb.with_key.
    destruct (decide (a = "id")) as [->|Ha1];
      [by rewrite lookup_insert_eq, Hid|].
    rewrite lookup_insert_ne by done.
    destruct (decide (a = "type")) as [->|Ha2];
      [by rewrite lookup_insert_eq, Hty|].
    by rewrite !lookup_insert_ne.
  - by rewrite GetItem_insert_ne.
Qed.

Lemma bindCountOf_stored id n tbl :
  bindCountOf id tbl = Some n → is_Some (DynamoDb.GetItem (pluginKey id) tbl).
Proof.
  unfold bindCountOf, DynamoDb.current.
  destruct (DynamoDb.GetItem _ _); [eauto|done].
Qed.

(** A run of [bindPlugins] over plugins that all carry a count. *)
Lemma bindPlugins_run now count (pluginIds : list string) :
  ∀ w,
    Forall (λ id, is_Some (bindCountOf id (table w))) pluginIds →
    ∃ w',
      Records.bindPlugins now pluginIds count w = (inr (), w')
      ∧ w' = set_table (table w') w
      ∧ (∀ id, bindCountOf id (table w')
               = (λ n, n + count * occurrences id pluginIds)
                   <$> bindCountOf id (table w))
      ∧ (∀ k a, a ≠ "bindCount" → a ≠ "updateAt" →
                attribute k a (table w') = attribute k a (table w))
      ∧ (∀ k, (∀ id, id ∈ pluginIds → k ≠ pluginKey id) →
              DynamoDb.GetItem k (table w') = DynamoDb.GetItem k (table w)).
Proof.
  unfold Records.bindPlugins.
  induction pluginIds as [|id ids IH]; intros w Hall.
  - exists w. split; [done|]. split; [by destruct w|]. split; [|done].
    intros id. unfold occurrences. cbn.
    destruct (bindCountOf id (table w)); cbn; [f_equal; lia|done].
  - apply Forall_cons in Hall as [[n Hn] Hall].
    cbn [forEach]. unfold mbind, M_bind.
    change ("PLUGIN#" +:+ id) with (pluginKey id).2.
    change (id, (pluginKey id).2) with (pluginKey id).
    rewrite bind_step, Hn.
    set (tbl1 := <[pluginKey id := _]> (table w)).
    destruct (IH (set_table tbl1 w)) as (w' & Hrun & Hw' & Hcount & Hattr & Hframe).
    { eapply Forall_impl; [exact Hall|]. intros id' [n' Hn'].
      cbn [table set_table]. unfold tbl1. rewrite bindCountOf_step.
      case_decide; eauto. }
    exists w'. split; [exact Hrun|]. split; [by rewrite Hw'|].
    cbn [table set_table] in *. split; [|split].
    + intros id'. rewrite Hcount. unfold tbl1.
      rewrite bindCountOf_step, occurrences_cons.
      case_decide as Heq.
      * subst id'. rewrite Hn. cbn. f_equal. lia.
      * destruct (bindCountOf id' (table w)); cbn; [f_equal; lia|done].
    + intros k a Hb Hu. rewrite Hattr by done. unfold tbl1.
      apply attribute_step; [done..|]. by eapply bindCountOf_stored.
    + intros k Hk. rewrite Hframe.
      * unfold tbl1. apply GetItem_insert_ne. intros <-.
        by apply (Hk id); [left|].
      * intros id' Hin. apply Hk. by right.
Qed.

(** X12. [bindPlugins] adds [count] to the bind count of a plugin once
    for each time its id occurs in the list.  When every plugin named
    carries a numeric count the call succeeds; it changes no attribute
    other than [bindCount] and [updateAt], and no record of a plugin that
    is not named. *)
Theorem bindPlugins_counts (now count : Z) (pluginIds : list string)
    (w : World) :
  Forall (λ id, is_Some (bindCountOf id (table w))) pluginIds →
  ∃ w',
    Records.bindPlugins now pluginIds count w = (inr (), w')
    ∧ (∀ id n, bindCountOf id (table w) = Some n →
               bindCountOf id (table w')
               = Some (n + count * occurrences id pluginIds))
    ∧ (∀ k a, a ≠ "bindCount" → a ≠ "updateAt" →
              attribute k a (table w') = attribute k a (table w))
    ∧ (∀ k, (∀ id, id ∈ pluginIds → k ≠ pluginKey id) →
            DynamoDb.GetItem k (table w') = DynamoDb.GetItem k (table w)).
Proof.
  intros Hall.
  destruct (bindPlugins_run now count pluginIds w Hall)
    as (w' & Hrun & _ & Hcount & Hattr & Hframe).
  exists w'. split; [done|]. split; [|done].
  intros id n Hn. by rewrite Hcount, Hn.
Qed.

Lemma unbound_eval id tbl :
  DynamoDb.eval Store.unbound (DynamoDb.current (pluginKey id) tbl) = true
  ↔ bindCountOf id tbl = Some 0.
Proof.
  unfold Store.unbound, bindCountOf. rewrite eval_CEq_num.
  destruct (DynamoDb.current _ _ !! "bindCount") as [[]|]; naive_solver.
Qed.

Lemma deletePlugin_gate id w :
  Store.deletePlugin id w
  = if DynamoDb.eval Store.unbound (DynamoDb.current (pluginKey id) (table w))
    then (inr (),
          set_table
            (<[pluginKey id :=
                 <["deleted" := VBool true]>
                   (DynamoDb.current (pluginKey id) (table w))]> (table w)) w)
    else (inl ConditionalCheckFailedException, w).
Proof.
  unfold Store.deletePlugin, send, DynamoDb.UpdateItem. cbn [from_option].
  change (id, "PLUGIN#" +:+ id) with (pluginKey id).
  by destruct (DynamoDb.eval _ _).
Qed.

Lemma updatePlugin_gate now plugin id w :
  plugin !! "id" = Some (VStr id) →
  DynamoDb.eval Store.unbound (DynamoDb.current (pluginKey id) (table w))
    = false →
  Store.updatePlugin now plugin w = (inl ConditionalCheckFailedException, w).
Proof.
  intros Hid Hbound. unfold Store.updatePlugin. rewrite Hid.
  unfold send, DynamoDb.UpdateItem. cbn [from_option].
  change (id, "PLUGIN#" +:+ id) with (pluginKey id). by rewrite Hbound.
Qed.

(** X13. Binding protects a plugin and unbinding releases it.  After
    [bindPlugins] with a count other than zero, a plugin named in the list
    that was unbound can be neither deleted nor updated; [bindPlugins]
    with the opposite count on the same list restores every bind count,
    and the plugin can be deleted again. *)
Theorem bound_plugins_protected (now now' count : Z)
    (pluginIds : list string) (w : World) :
  Forall (λ id, is_Some (bindCountOf id (table w))) pluginIds →
  ∃ w1 w2,
    Records.bindPlugins now pluginIds count w = (inr (), w1)
    ∧ Records.bindPlugins now' pluginIds (- count) w1 = (inr (), w2)
    ∧ (∀ id, bindCountOf id (table w2) = bindCountOf id (table w))
    ∧ ∀ id, id ∈ pluginIds → bindCountOf id (table w) = Some 0 →
            count ≠ 0 →
            Store.deletePlugin id w1
              = (inl ConditionalCheckFailedException, w1)
            ∧ (∀ plugin, plugin !! "id" = Some (VStr id) →
                         Store.updatePlugin now' plugin w1
                         = (inl ConditionalCheckFailedException, w1))
            ∧ ∃ w3, Store.deletePlugin id w2 = (inr (), w3).
Proof.
  intros Hall.
  destruct (bindPlugins_run now count pluginIds w Hall)
    as (w1 & Hrun1 & _ & Hcount1 & _).
  destruct (bindPlugins_run now' (- count) pluginIds w1)
    as (w2 & Hrun2 & _ & Hcount2 & _).
  { eapply Forall_impl; [exact Hall|]. intros id [n Hn].
    rewrite Hcount1, Hn. by eexists. }
  assert (∀ id, bindCountOf id (table w2) = bindCountOf id (table w))
    as Hback.
  { intros id. rewrite Hcount2, Hcount1.
    destruct (bindCountOf id (table w)); cbn; [f_equal; lia|done]. }
  exists w1, w2. split; [done|]. split; [done|]. split; [done|].
  intros id Hin Hzero Hcount.
  assert (DynamoDb.eval Store.unbound
            (DynamoDb.current (pluginKey id) (table w1)) = false) as Hbound.
  { apply not_true_is_false. rewrite unbound_eval, Hcount1, Hzero. cbn.
    intros [= Heq]. pose proof (occurrences_elem _ _ Hin). nia. }
  split; [by rewrite deletePlugin_gate, Hbound|].
  split; [intros plugin Hid; by apply (updatePlugin_gate _ _ id)|].
  rewrite deletePlugin_gate.
  rewrite (proj2 (unbound_eval id (table w2))); [eauto|].
  by rewrite Hback.
Qed.

(** X14. [bindPlugins] stops at the first plugin that has no record or
    no numeric bind count: the call fails there, the counts of the
    plugins before it stay incremented, and the plugins after it are not
    reached. *)
Theorem bindPlugins_stops_at_missing (now count : Z)
    (bound : list string) (pluginId : string) (rest : list string)
    (w : World) :
  Forall (λ id, is_Some (bindCountOf id (table w))) bound →
  bindCountOf pluginId (table w) = None →
  ∃ w',
    Records.bindPlugins now (bound ++ pluginId :: rest) count w
    = (inl ValidationException, w')
    ∧ ∀ id, bindCountOf id (table w')
            = (λ n, n + count * occurrences id bound)
                <$> bindCountOf id (table w).
Proof.
  intros Hall Hnone.
  destruct (bindPlugins_run now count bound w Hall)
    as (w1 & Hrun & _ & Hcount & _).
  exists w1. split; [|done].
  unfold Records.bindPlugins in *. rewrite forEach_app.
  unfold mbind, M_bind at 1. rewrite Hrun.
  cbn [forEach]. unfold mbind, M_bind.
  change ("PLUGIN#" +:+ pluginId) with (pluginKey pluginId).2.
  change (pluginId, (pluginKey pluginId).2) with (pluginKey pluginId).
  by rewrite bind_step, Hcount, Hnone.
Qed.

(** ** Plugins that are added *)

(** X15. A plugin that is added can be read back: [addPlugin] returns the
    id and stores a live record with the fields given, status Disabled,
    not built in and bound to nothing, so that it can be deleted at once.
    [getPlugin] returns it when the id does not start with BUILDIN or
    there is no catalog of built-in plugins.  No other record is
    touched. *)
Theorem addPlugin_getPlugin (rUV : bool) (now : Z) (plugin : Item)
    (id : string) (w : World) :
  plugin !! "id" = Some (VStr id) →
  putAccepts rUV plugin pluginFields →
  ∃ w' p,
    Records.addPlugin rUV now plugin w = (inr (Some (VStr id)), w')
    ∧ DynamoDb.GetItem (pluginKey id) (table w') = Some p
    ∧ Forall (λ f, p !! f = plugin !! f) pluginFields
    ∧ p !! "status" = Some (VStr "Disabled")
    ∧ p !! "builtIn" = Some (VBool false)
    ∧ p !! "deleted" = Some (VBool false)
    ∧ bindCountOf id (table w') = Some 0
    ∧ (String.prefix "BUILDIN" id = false
       ∨ dictionary w !! "BuildInPlugins" = None →
       Store.getPlugin id w' = (inr (Some p), w'))
    ∧ (∃ w'', Store.deletePlugin id w' = (inr (), w''))
    ∧ ∀ k, k ≠ pluginKey id →
           DynamoDb.GetItem k (table w') = DynamoDb.GetItem k (table w).
Proof.
  intros Hid Hacc. unfold Records.addPlugin.
  put_at id ("PLUGIN#" +:+ id) w p Hput Hget Hp.
  - nodup_names.
  - all_fields Hacc.
  - cbn. by rewrite Hid.
  - cbn. rewrite Hid. reflexivity.
  - change (id, "PLUGIN#" +:+ id) with (pluginKey id) in *.
    assert (bindCountOf id (<[pluginKey id := p]> (table w)) = Some 0)
      as Hcount.
    { unfold bindCountOf, DynamoDb.current. rewrite Hget.
      cbn [default from_option Datatypes.id]. by rewrite Hp. }
    eexists _, p. split; [by rewrite Hid|]. cbn [table set_table].
    split; [exact Hget|]. split.
    { unfold pluginFields.
      repeat apply Forall_cons_2; try apply Forall_nil_2; by rewrite Hp. }
    split; [by rewrite Hp|]. split; [by rewrite Hp|]. split; [by rewrite Hp|].
    split; [exact Hcount|]. split; [|split].
    + intros Hplain.
      assert (∀ w0, dictionary (set_table (<[pluginKey id := p]> (table w)) w0)
                    = dictionary w0) as Hdic by done.
      assert (Store.getPlugin id (set_table (<[pluginKey id := p]> (table w)) w)
              = Store.getPluginItem id
                  (set_table (<[pluginKey id := p]> (table w)) w)) as ->.
      { unfold Store.getPlugin. destruct Hplain as [->|Hnone]; [done|].
        destruct (String.prefix "BUILDIN" id); [|done].
        unfold mbind, M_bind, Store.getDictionary, gets.
        by rewrite Hdic, Hnone. }
      unfold Store.getPluginItem, mbind, M_bind, gets, mret, M_ret.
      cbn [table set_table].
      change (id, "PLUGIN#" +:+ id) with (pluginKey id).
      rewrite Hget. unfold Store.liveItem. by rewrite Hp.
    + rewrite deletePlugin_gate. cbn [table set_table].
      rewrite (proj2 (unbound_eval _ _) Hcount). eauto.
    + intros k Hk. by apply GetItem_insert_ne.
Qed.

(** X16. The id prefix BUILDIN sends [getPlugin] to the catalog only.
    When there is a catalog that can be read and has no entry with the id,
    [getPlugin] returns nothing for a plugin stored under an id that
    starts with BUILDIN, although [isPluginExisted] answers [true] for it
    and [listPlugin] lists it. *)
Theorem buildIn_prefix_shadows_stored_plugin (id : string) (dic p : Item)
    (catalog : list Item) (w : World) :
  String.prefix "BUILDIN" id = true →
  dictionary w !! "BuildInPlugins" = Some dic →
  Store.buildInPlugins dic = inr catalog →
  Forall (λ q, Js.strict_eq_str (q !! "id") id = false) catalog →
  DynamoDb.GetItem (pluginKey id) (table w) = Some p →
  p !! "deleted" = Some (VBool false) →
  DynamoDb.in_gsi "PLUGIN" p = true →
  Store.getPlugin id w = (inr None, w)
  ∧ Records.isPluginExisted id w = (inr true, w)
  ∧ ∀ order pageSize pageNumber,
      ∃ l, Store.listPlugin None order false pageSize pageNumber w
           = (inr l, w)
           ∧ p ∈ items l.
Proof.
  intros Hprefix Hdic Hcat Hnone Hget Hlive Hgsi. split; [|split].
  - unfold Store.getPlugin. rewrite Hprefix.
    unfold mbind, M_bind, Store.getDictionary, gets. rewrite Hdic, Hcat.
    cbn [Store.raise mret M_ret].
    assert (filter (λ q : Item, Is_true (Js.strict_eq_str (q !! "id") id))
              catalog = []) as ->; [|done].
    clear -Hnone. induction Hnone as [|q l Hq _ IH]; [done|].
    rewrite filter_cons, IH. rewrite decide_False; [done|].
    rewrite Hq. intros [].
  - unfold Records.isPluginExisted, mbind, M_bind, gets, mret, M_ret.
    change (id, "PLUGIN#" +:+ id) with (pluginKey id).
    rewrite Hget. unfold Records.existed. by rewrite Hlive.
  - intros order pageSize pageNumber. eexists. split.
    + unfold Store.listPlugin, Store.listBuildIn.
      unfold mbind, M_bind, Store.getDictionary, gets. rewrite Hdic, Hcat.
      reflexivity.
    + cbn [items page isEmpty fmap option_fmap option_map negb].
      apply elem_of_app. right. apply elem_of_Query.
      split; [eauto|]. split; [done|]. by apply eval_live.
Qed.

(** ** Deleting a pipeline *)

Lemma append_cons a s t : String a s +:+ t = String a (s +:+ t).
Proof. done. Qed.

Lemma prefix_append_l a b c :
  String.prefix (a +:+ b) (a +:+ c) = String.prefix b c.
Proof.
  induction a as [|x a IH]; [done|]. rewrite !append_cons. cbn [String.prefix].
  by destruct (Ascii.ascii_dec x x).
Qed.

Lemma prefix_append_r b c d :
  String.prefix b c = true → String.prefix b (c +:+ d) = true.
Proof.
  revert c. induction b as [|x b IH]; intros c;
    [by destruct (c +:+ d)|].
  destruct c as [|y c]; [by cbn|]. rewrite append_cons. cbn [String.prefix].
  destruct (Ascii.ascii_dec x y); [apply IH|done].
Qed.

Lemma prefix_refl s : String.prefix s s = true.
Proof.
  induction s as [|x s IH]; [done|]. cbn [String.prefix].
  by destruct (Ascii.ascii_dec x x).
Qed.

(** What a completed [deletePipeline] leaves. *)
Lemma deletePipeline_done projectId pipelineId w w' :
  Store.deletePipeline projectId pipelineId w = (inr (), w') →
  w' = set_table (table w') w
  ∧ (∀ k, deletedAt k (table w) → deletedAt k (table w'))
  ∧ (∀ p k, p ∈ DynamoDb.Scan (pipelineRecords projectId pipelineId) (table w) →
            DynamoDb.key_of p = Some k → deletedAt k (table w'))
  ∧ (∀ k, (∀ p, p ∈ DynamoDb.Scan (pipelineRecords projectId pipelineId)
                      (table w) →
                DynamoDb.key_of p ≠ Some k) →
          DynamoDb.GetItem k (table w') = DynamoDb.GetItem k (table w)).
Proof.
  set (flt := pipelineRecords projectId pipelineId).
  set (body := λ pipeline : Item,
         match Store.deletingStatus (pipeline !! "status"),
               pipeline !! "type" with
         | inl e, _ => throw e
         | inr status, Some (VStr type) =>
             send (DynamoDb.UpdateItem (projectId, type) None
                     [("deleted", VBool true); ("status", status)])
         | inr _, _ => throw ValidationException
         end).
  change (Store.deletePipeline projectId pipelineId w)
    with (forEach body (DynamoDb.Scan flt (table w)) w).
  intros Hrun.
  assert (∀ p, DynamoDb.eval flt p = true → p !! "deleted" = Some (VBool false))
    as Hlive.
  { intros p Hp. apply eval_CAnd in Hp as [_ Hp]. by apply eval_live. }
  assert (∀ p k w0 w0', DynamoDb.key_of p = Some k →
            DynamoDb.eval flt p = true → body p w0 = (inr (), w0') →
            flips k w0 w0') as Hflips
    by (intros p k w0 w0'; apply deletePipeline_body_flips).
  assert (∀ p e w0 w0', body p w0 = (inl e, w0') → w0' = w0) as Hfails.
  { intros p e w0 w0'. unfold body.
    destruct (Store.deletingStatus (p !! "status")) as [e'|status];
      [by intros [= _ <-]|].
    destruct (p !! "type") as [[]|];
      first [apply send_fails | by intros [= _ <-]]. }
  destruct (soft_delete_loop flt body Hlive Hflips _ _ _ (scanned_keys flt _) Hrun)
    as (Hw & _ & Hkeep & Hdone).
  pose proof (loop_frame flt body Hflips Hfails _ _ _ _ (scanned_keys flt _) Hrun)
    as Hframe.
  done.
Qed.

(** A record under the project whose sort key starts with the scanned
    prefix and that carries a boolean [deleted] flag is hidden after a
    completed [deletePipeline]. *)
Lemma deletePipeline_hides projectId pipelineId w w' t :
  Store.deletePipeline projectId pipelineId w = (inr (), w') →
  String.prefix ("PIPELINE#" +:+ pipelineId) t = true →
  flagged (DynamoDb.GetItem (projectId, t) (table w)) →
  Store.liveItem (DynamoDb.GetItem (projectId, t) (table w')) = None.
Proof.
  intros Hrun Hprefix Hflag.
  destruct (deletePipeline_done _ _ _ _ Hrun) as (_ & Hkeep & Hdone & Hframe).
  destruct (DynamoDb.GetItem (projectId, t) (table w)) as [p|] eqn:Hget.
  - apply deleted_hidden. destruct (Hflag p eq_refl) as [[] Hb].
    + apply Hkeep. by exists p.
    + apply (Hdone p); [|by eapply GetItem_key].
      apply elem_of_Scan. split; [eauto|].
      destruct (GetItem_id_type _ _ _ Hget) as [Hid Hty].
      unfold pipelineRecords. rewrite !eval_CAnd, eval_CEq_str, eval_live.
      split; [split; [done|]|done]. cbn. by rewrite Hty.
  - rewrite Hframe, Hget; [done|]. intros q Hq Hkq.
    apply elem_of_Scan in Hq as [[k' Hk'] _].
    apply GetItem_key in Hk' as Hk''. congruence.
Qed.

(** X17. After the service has deleted a pipeline, the pipeline is gone
    for its readers: [details] answers 404 without asking the engine,
    every stored version of it is hidden from [getPipeline], and no
    listing returns a record of it.  Records of other projects are left
    as they were.  (The point lookups are hidden for records that carried
    a boolean [deleted] flag.) *)
Theorem delete_then_details_not_found (id pid : string) (w w' : World) :
  PipelineServ.delete id pid w
    = (ApiSuccess 200 PNull (Some "Pipeline deleted."), w') →
  (flagged (DynamoDb.GetItem (pid, "PIPELINE#" +:+ id +:+ "#latest") (table w)) →
   PipelineServ.details id pid w' = (ApiFail 404 "Pipeline not found", w'))
  ∧ (∀ version,
       flagged (DynamoDb.GetItem
                  (pid, "PIPELINE#" +:+ id +:+ "#" +:+ version) (table w)) →
       Store.getPipeline pid id (Some version) w' = (inr None, w'))
  ∧ (∀ projectId version order pagination pageSize pageNumber l w'' q t,
       Store.listPipeline projectId version order pagination pageSize
         pageNumber w' = (inr l, w'') →
       q ∈ items l → DynamoDb.key_of q = Some (pid, t) →
       String.prefix ("PIPELINE#" +:+ id) t = false)
  ∧ calls w' = calls w
  ∧ ∀ k, k.1 ≠ pid →
         DynamoDb.GetItem k (table w') = DynamoDb.GetItem k (table w).
Proof.
  unfold PipelineServ.delete, handler, mbind, M_bind.
  destruct (Store.deletePipeline pid id w) as [[e|[]] w1] eqn:Hrun; [done|].
  intros [= <-].
  pose proof (λ t, deletePipeline_hides _ _ _ _ t Hrun) as Hhid.
  destruct (deletePipeline_done _ _ _ _ Hrun) as (Hw & Hkeep & Hdone & Hframe).
  split; [|split; [|split; [|split]]].
  - intros Hflag. unfold PipelineServ.details, handler, mbind, M_bind.
    rewrite getPipeline_latest, Hhid; [done| |done].
    rewrite prefix_append_l. apply prefix_append_r, prefix_refl.
  - intros version Hflag.
    unfold Store.getPipeline, mbind, M_bind, gets, mret, M_ret.
    cbn [default from_option Datatypes.id]. rewrite Hhid; [done| |done].
    rewrite prefix_append_l. apply prefix_append_r, prefix_refl.
  - intros projectId version order pagination pageSize pageNumber l w'' q t
      [= <- _] Hq Hkq.
    cbn [items] in Hq.
    apply elem_of_page in Hq as [Hq|Hq]; [by apply elem_of_nil in Hq|].
    apply elem_of_Query in Hq as ([k Hk] & _ & Hf).
    apply pipelineFilter_live in Hf.
    assert (k = (pid, t)) as -> by (by eapply GetItem_unique).
    apply not_true_is_false. intros Hprefix.
    destruct (DynamoDb.GetItem (pid, t) (table w)) as [p|] eqn:Hget.
    + destruct (DynamoDb.eval Store.live p) eqn:Hp.
      * apply eval_live in Hp.
        assert (deletedAt (pid, t) (table w1)) as (q' & Hq' & Hdel).
        { apply (Hdone p); [|by eapply GetItem_key].
          apply elem_of_Scan. split; [eauto|].
          destruct (GetItem_id_type _ _ _ Hget) as [Hid Hty].
          unfold pipelineRecords. rewrite !eval_CAnd, eval_CEq_str, eval_live.
          split; [split; [done|]|done]. cbn. by rewrite Hty. }
        congruence.
      * rewrite Hframe in Hk.
        { apply eval_live in Hf. congruence. }
        intros q' Hq' Hkq'. apply elem_of_Scan in Hq' as [[k' Hk'] Hf'].
        assert (k' = (pid, t)) as -> by (by eapply GetItem_unique).
        apply eval_CAnd in Hf' as [_ Hf']. congruence.
    + rewrite Hframe in Hk; [congruence|].
      intros q' Hq' Hkq'. apply elem_of_Scan in Hq' as [[k' Hk'] _].
      assert (k' = (pid, t)) as -> by (by eapply GetItem_unique). congruence.
  - by rewrite Hw.
  - intros k Hk. apply Hframe. intros q Hq Hkq.
    apply elem_of_Scan in Hq as [_ Hf]. unfold pipelineRecords in Hf.
    rewrite !eval_CAnd, eval_CEq_str in Hf. destruct Hf as [[Hf _] _].
    destruct (key_of_Some _ _ Hkq) as [Hid _]. congruence.
Qed.

(** X18. [deletePipeline] selects the records by a prefix of the sort key
    that does not end with the separator: deleting pipeline [pipelineId]
    also hides every pipeline of the project whose id starts with
    [pipelineId]. *)
Theorem deletePipeline_reaches_longer_ids (projectId pipelineId other : string)
    (version : option string) (w w' : World) :
  Store.deletePipeline projectId pipelineId w = (inr (), w') →
  String.prefix pipelineId other = true →
  flagged (DynamoDb.GetItem
             (projectId, "PIPELINE#" +:+ other +:+ "#"
                           +:+ default "latest" version) (table w)) →
  Store.getPipeline projectId other version w' = (inr None, w').
Proof.
  intros Hrun Hprefix Hflag.
  unfold Store.getPipeline, mbind, M_bind, gets, mret, M_ret.
  rewrite (deletePipeline_hides _ _ _ _ _ Hrun); [done| |done].
  rewrite prefix_append_l. by apply prefix_append_r.
Qed.

(** ** Walking through the pages *)

Lemma flat_map_seq_ext {A} (f g : nat → list A) :
  ∀ k j, (∀ i, (j ≤ i < j + k)%nat → f i = g i) →
         flat_map f (seq j k) = flat_map g (seq j k).
Proof.
  induction k as [|k IH]; intros j Hfg; [done|].
  cbn [seq flat_map]. rewrite (Hfg j) by lia. f_equal.
  apply IH. intros i Hi. apply Hfg. lia.
Qed.

Lemma flat_map_seq_shift {A} (f : nat → list A) :
  ∀ k j, flat_map f (seq (S j) k) = flat_map (λ i, f (S i)) (seq j k).
Proof.
  induction k as [|k IH]; intros j; [done|].
  cbn [seq flat_map]. f_equal. apply IH.
Qed.

Lemma chunks_concat {A} (m : nat) :
  ∀ k (l : list A), (length l ≤ m * k)%nat →
    flat_map (λ i, take m (drop (m * i) l)) (seq 0 k) = l.
Proof.
  induction k as [|k IH]; intros l Hlen.
  - destruct l; [done|]. simpl in Hlen. lia.
  - cbn [seq flat_map]. rewrite Nat.mul_0_r, drop_0.
    rewrite flat_map_seq_shift.
    rewrite (flat_map_seq_ext _ (λ i, take m (drop (m * i) (drop m l)))).
    + rewrite IH; [apply take_drop|]. rewrite length_drop. lia.
    + intros i _. cbn. rewrite drop_drop. do 2 f_equal. lia.
Qed.

Lemma page_items (all items0 : list Item) (pageSize pageNumber : Z) :
  1 ≤ pageSize →
  1 ≤ pageNumber ≤ lastPage (Z.of_nat (length all)) pageSize →
  page true pageSize pageNumber (Z.of_nat (length all)) items0 all
  = take (Z.to_nat pageSize)
         (drop (Z.to_nat pageSize * Z.to_nat (pageNumber - 1)) all).
Proof.
  intros Hs Hn. unfold lastPage in Hn.
  destruct (decide (all = [])) as [->|Hne].
  { cbn in Hn. rewrite Z.div_0_l in Hn by lia. lia. }
  destruct (page_clamped all items0 pageSize pageNumber Hs (proj1 Hn) Hne)
    as (_ & _ & Hitems & _).
  cbn [items] in Hitems. rewrite Hitems, Z.min_r by lia.
  by rewrite Z2Nat.inj_mul by lia.
Qed.

Lemma pages_concat (all items0 : list Item) (pageSize : Z) :
  1 ≤ pageSize →
  flat_map
    (λ i, page true pageSize (Z.of_nat (S i)) (Z.of_nat (length all))
            items0 all)
    (seq 0 (Z.to_nat (lastPage (Z.of_nat (length all)) pageSize)))
  = all.
Proof.
  intros Hs.
  pose proof (ceil_bounds (Z.of_nat (length all)) pageSize Hs) as Hc.
  fold (lastPage (Z.of_nat (length all)) pageSize) in Hc.
  rewrite (flat_map_seq_ext _
             (λ i, take (Z.to_nat pageSize)
                     (drop (Z.to_nat pageSize * i) all))).
  - apply chunks_concat. nia.
  - intros i Hi. rewrite page_items by lia. do 3 f_equal. lia.
Qed.

Lemma listBuildIn_reads pluginType w :
  (Store.listBuildIn pluginType w).2 = w.
Proof.
  unfold Store.listBuildIn, mbind, M_bind, Store.getDictionary, gets.
  destruct (dictionary w !! "BuildInPlugins") as [dic|]; [|done].
  by destruct (Store.buildInPlugins dic).
Qed.

Lemma listPlugin_run pluginType order pagination pageSize pageNumber w :
  (∃ e, Store.listBuildIn pluginType w = (inl e, w)
        ∧ Store.listPlugin pluginType order pagination pageSize pageNumber w
          = (inl e, w))
  ∨ (∃ buildIn,
       Store.listBuildIn pluginType w = (inr buildIn, w)
       ∧ let all :=
           buildIn ++ DynamoDb.Query "PLUGIN" (Store.pluginFilter pluginType)
                        (bool_decide (order = Some "asc")) (table w) in
         Store.listPlugin pluginType order pagination pageSize pageNumber w
         = (inr (mkListing (Z.of_nat (length all))
                   (page pagination pageSize pageNumber
                      (Z.of_nat (length all)) buildIn all)), w)).
Proof.
  pose proof (listBuildIn_reads pluginType w) as Hw.
  unfold Store.listPlugin, mbind, M_bind.
  destruct (Store.listBuildIn pluginType w) as [[e|buildIn] w'];
    simpl in Hw; subst w'.
  - left. eauto.
  - right. exists buildIn. split; [done|]. cbv zeta. cbn [totalCount items].
    by rewrite length_app, Nat2Z.inj_add.
Qed.

(** X19. Walking through a listing page by page, from page 1 to the last
    page, returns every record of the listing once and in the order of
    the listing without pagination -- for each of the four listings and
    every page size of at least 1. *)
Theorem pages_cover_listing (w : World) (projectId version order : option string)
    (appProject : string) (pluginType : option string) (pageSize : Z) :
  1 ≤ pageSize →
  let covers (listing : bool → Z → M Listing) :=
    let whole := itemsOf (listing false 1 w) in
    pages (listing true)
      (Z.to_nat (lastPage (Z.of_nat (length whole)) pageSize)) w = whole in
  covers (λ pagination,
            Store.listPipeline projectId version order pagination pageSize)
  ∧ covers (λ pagination, Store.listProjects order pagination pageSize)
  ∧ covers (λ pagination,
              Store.listApplication appProject order pagination pageSize)
  ∧ covers (λ pagination,
              Store.listPlugin pluginType order pagination pageSize).
Proof.
  intros Hs covers. unfold covers, pages, itemsOf.
  split; [by apply pages_concat|]. split; [by apply pages_concat|].
  split; [by apply pages_concat|].
  destruct (listPlugin_run pluginType order false pageSize 1 w)
    as [(e & _ & ->)|(buildIn & Hb & ->)]; [done|].
  cbn [fst items page].
  rewrite (flat_map_seq_ext _
             (λ i, page true pageSize (Z.of_nat (S i))
                     (Z.of_nat (length (buildIn ++ DynamoDb.Query "PLUGIN"
                          (Store.pluginFilter pluginType)
                          (bool_decide (order = Some "asc")) (table w))))
                     buildIn
                     (buildIn ++ DynamoDb.Query "PLUGIN"
                          (Store.pluginFilter pluginType)
                          (bool_decide (order = Some "asc")) (table w)))).
  - by apply pages_concat.
  - intros i _.
    destruct (listPlugin_run pluginType order true pageSize (Z.of_nat (S i)) w)
      as [(e & He & _)|(buildIn' & Hb' & ->)]; [congruence|].
    assert (buildIn' = buildIn) as -> by congruence. done.
Qed.

Lemma page_out_of_range (all items0 : list Item) (pageSize pageNumber : Z) :
  0 ≤ pageSize → pageNumber ≤ 0 ∨ pageSize = 0 →
  (all = [] → items0 = []) →
  outOfRange all pageSize pageNumber
    (mkListing (Z.of_nat (length all))
       (page true pageSize pageNumber (Z.of_nat (length all)) items0 all)).
Proof.
  intros Hs Hout Hnil. unfold outOfRange. cbn [totalCount items].
  set (total := Z.of_nat (length all)).
  split; [done|].
  destruct (decide (all = [])) as [Hall|Hne].
  { rewrite (Hnil Hall). subst all. subst total. cbn.
    split; [done|]. intros _. by rewrite drop_nil, take_nil. }
  assert (1 ≤ total) as Ht.
  { subst total. destruct all; [done|]. rewrite length_cons. lia. }
  unfold page. replace (total =? 0) with false by (symmetry; apply Z.eqb_neq; lia).
  cbn [negb]. unfold Js.ceil_div, Js.min_inf, Js.slice, Js.slice_index.
  fold total.
  destruct (decide (pageSize = 0)) as [->|Hps].
  - cbn [Z.eqb]. rewrite !Z.mul_0_l, Z.min_l by lia. cbn [Z.ltb Z.compare].
    rewrite Z.min_l by lia.
    split; [intros _; reflexivity|]. intros _.
    rewrite !Z.add_0_r, Z.max_r by lia.
    rewrite !Z.sub_diag. reflexivity.
  - replace (pageSize =? 0) with false by (symmetry; apply Z.eqb_neq; lia).
    pose proof (ceil_bounds total pageSize ltac:(lia)) as Hc.
    rewrite (Z.min_r _ pageNumber) by nia.
    split.
    + intros [?| ->]; [done|]. rewrite Z.mul_0_r, Z.min_l by lia.
      cbn [Z.ltb Z.compare]. rewrite (Z.min_l 0) by lia.
      replace (pageSize * (0 - 1) <? 0) with true
        by (symmetry; apply Z.ltb_lt; lia).
      replace (Z.to_nat (0 - _)) with 0%nat by lia. done.
    + intros Hneg.
      replace (pageSize * (pageNumber - 1) <? 0) with true
        by (symmetry; apply Z.ltb_lt; nia).
      rewrite (Z.min_l (pageSize * pageNumber)) by nia.
      replace (pageSize * pageNumber <? 0) with true
        by (symmetry; apply Z.ltb_lt; nia).
      by rewrite !(Z.max_comm _ 0).
Qed.

(** X20. Outside the pages 1, 2, ... a listing with pagination still
    answers, with the full [totalCount]: a page size of 0 or a page
    number of 0 gives no items, and a negative page number gives the
    records between two positions counted back from the end of the
    list. *)
Theorem listing_page_out_of_range (w : World)
    (projectId version order : option string) (appProject : string)
    (pluginType : option string) (buildIn : list Item)
    (pageSize pageNumber : Z) :
  let asc := bool_decide (order = Some "asc") in
  let pipelines :=
    DynamoDb.Query "PIPELINE" (Store.pipelineFilter projectId version) asc
      (table w) in
  let projects := DynamoDb.Query "METADATA" Store.live asc (table w) in
  let apps :=
    DynamoDb.Query "APP"
      (DynamoDb.CAnd (DynamoDb.CEq "projectId" (VStr appProject)) Store.live)
      asc (table w) in
  let plugins :=
    buildIn ++ DynamoDb.Query "PLUGIN" (Store.pluginFilter pluginType) asc
                 (table w) in
  0 ≤ pageSize → pageNumber ≤ 0 ∨ pageSize = 0 →
  (∃ l, Store.listPipeline projectId version order true pageSize pageNumber w
        = (inr l, w) ∧ outOfRange pipelines pageSize pageNumber l)
  ∧ (∃ l, Store.listProjects order true pageSize pageNumber w = (inr l, w)
          ∧ outOfRange projects pageSize pageNumber l)
  ∧ (∃ l, Store.listApplication appProject order true pageSize pageNumber w
          = (inr l, w) ∧ outOfRange apps pageSize pageNumber l)
  ∧ (Store.listBuildIn pluginType w = (inr buildIn, w) →
     ∃ l, Store.listPlugin pluginType order true pageSize pageNumber w
          = (inr l, w) ∧ outOfRange plugins pageSize pageNumber l).
Proof.
  intros asc pipelines projects apps plugins Hs Hout.
  repeat split.
  - eexists. split; [reflexivity|]. by apply page_out_of_range.
  - eexists. split; [reflexivity|]. by apply page_out_of_range.
  - eexists. split; [reflexivity|]. by apply page_out_of_range.
  - intros Hb.
    destruct (listPlugin_run pluginType order true pageSize pageNumber w)
      as [(e & He & _)|(buildIn' & Hb' & ->)]; [congruence|].
    assert (buildIn' = buildIn) as -> by congruence.
    eexists. split; [reflexivity|]. apply page_out_of_range; [done..|].
    by intros [-> _]%app_eq_nil.
Qed.

(** ** The order of a listing *)

Lemma gsi_le_trans : Transitive DynamoDb.gsi_le.
Proof. intros a b c. unfold DynamoDb.gsi_le. lia. Qed.

Lemma gsi_le_total : Total DynamoDb.gsi_le.
Proof. intros a b. unfold DynamoDb.gsi_le. lia. Qed.

Lemma StronglySorted_filter {A} (R : relation A) (P : A → Prop)
    `{∀ x, Decision (P x)} l :
  StronglySorted R l → StronglySorted R (filter P l).
Proof.
  induction 1 as [|x l Hl IH Hx]; [constructor|].
  rewrite filter_cons. destruct (decide (P x)); [|done].
  constructor; [done|]. apply Forall_forall. intros y Hy.
  apply list_elem_of_filter in Hy as [_ Hy].
  by apply (proj1 (Forall_forall _ _) Hx).
Qed.

Lemma Query_order prefix flt order tbl :
  StronglySorted DynamoDb.gsi_le (DynamoDb.Query prefix flt true tbl)
  ∧ (order ≠ Some "asc" →
     DynamoDb.Query prefix flt (bool_decide (order = Some "asc")) tbl
     = reverse (DynamoDb.Query prefix flt true tbl)).
Proof.
  unfold DynamoDb.Query. split.
  - apply StronglySorted_filter.
    apply (@StronglySorted_merge_sort _ DynamoDb.gsi_le _
             gsi_le_trans gsi_le_total).
  - intros Hdesc. rewrite bool_decide_eq_false_2 by done.
    apply filter_reverse.
Qed.

(** X21. A listing is in ascending order of the index for the order
    ['asc'] and in the opposite order for every other value of [order],
    a missing one included: the records are sorted by their place in the
    index, and the listing for any other order is the ascending listing
    reversed.  Built-in plugins come first in either order. *)
Theorem listing_order (w : World) (projectId version : option string)
    (appProject : string) (pluginType order : option string)
    (pageSize pageNumber : Z) :
  let ordered (listing : option string → M Listing) :=
    StronglySorted DynamoDb.gsi_le (itemsOf (listing (Some "asc") w))
    ∧ (order ≠ Some "asc" →
       itemsOf (listing order w)
       = reverse (itemsOf (listing (Some "asc") w))) in
  ordered (λ o, Store.listPipeline projectId version o false pageSize
                  pageNumber)
  ∧ ordered (λ o, Store.listProjects o false pageSize pageNumber)
  ∧ ordered (λ o, Store.listApplication appProject o false pageSize
                    pageNumber)
  ∧ ∀ buildIn,
      Store.listBuildIn pluginType w = (inr buildIn, w) →
      ∃ stored,
        StronglySorted DynamoDb.gsi_le stored
        ∧ itemsOf (Store.listPlugin pluginType (Some "asc") false pageSize
                     pageNumber w) = buildIn ++ stored
        ∧ (order ≠ Some "asc" →
           itemsOf (Store.listPlugin pluginType order false pageSize
                      pageNumber w) = buildIn ++ reverse stored).
Proof.
  intros ordered. unfold ordered, itemsOf.
  split; [apply Query_order|]. split; [apply Query_order|].
  split; [apply Query_order|].
  intros buildIn Hb.
  exists (DynamoDb.Query "PLUGIN" (Store.pluginFilter pluginType) true (table w)).
  split; [apply (Query_order _ _ order)|].
  destruct (listPlugin_run pluginType (Some "asc") false pageSize pageNumber w)
    as [(e & He & _)|(buildIn' & Hb' & ->)]; [congruence|].
  assert (buildIn' = buildIn) as -> by congruence.
  split; [done|]. intros Hdesc.
  destruct (listPlugin_run pluginType order false pageSize pageNumber w)
    as [(e & He & _)|(buildIn' & Hb'' & ->)]; [congruence|].
  assert (buildIn' = buildIn) as -> by congruence.
  cbn [fst items page]. f_equal. by apply Query_order.
Qed.

(** ** Reading a snapshot *)

(** X22. After a successful versioned update the replaced version can be
    read by its version: [getPipeline] with the version of [curPipeline]
    returns the snapshot -- unless the [pipeline] argument was handed in
    with [deleted = true], which the snapshot takes over and which hides
    it.  The latest record keeps the [deleted] flag it had. *)
Theorem snapshot_read_by_version (now : Z) (pipeline curPipeline : Item)
    (w w' : World) :
  Store.updatePipeline now pipeline curPipeline w = (inr (), w') →
  ∃ id pipelineId version key snapshot deleted,
    curPipeline !! "id" = Some (VStr id)
    ∧ curPipeline !! "pipelineId" = Some (VStr pipelineId)
    ∧ curPipeline !! "version" = Some (VStr version)
    ∧ pipeline !! "deleted" = Some (VBool deleted)
    ∧ Store.latestKey pipeline = Some key
    ∧ DynamoDb.GetItem
        (id, "PIPELINE#" +:+ pipelineId +:+ "#" +:+ version) (table w')
      = Some snapshot
    ∧ snapshot !! "deleted" = Some (VBool deleted)
    ∧ Store.getPipeline id pipelineId (Some version) w'
      = (inr (if deleted then None else Some snapshot), w')
    ∧ attribute key "deleted" (table w') = attribute key "deleted" (table w).
Proof.
  intros Hrun.
  destruct (updatePipeline_success _ _ _ _ _ Hrun)
    as (snap & skey & key & sets & Hsnap & Hskey & Hkey & Hsets & Hne & Hw).
  clear Hrun. destruct (snapshotKey_Some _ _ Hskey) as (id & Hid & ->).
  clear Hskey.
  destruct (fields_lookup_first _ _ "pipelineId" _ Hsnap eq_refl)
    as (vp & Hp & _). apply attrS_Some in Hp as [Hp [pipelineId ->]].
  destruct (fields_lookup_first _ _ "version" _ Hsnap eq_refl)
    as (vv & Hv & _). apply attrS_Some in Hv as [Hv [version ->]].
  destruct (fields_lookup_first _ _ "deleted" _ Hsnap eq_refl)
    as (vd & Hd & Hdel).
  assert (∃ deleted, vd = VBool deleted) as [deleted ->].
  { destruct (pipeline !! "deleted") as [[]|]; try done.
    injection Hd as <-. eauto. }
  apply attrBOOL_Some in Hd.
  rewrite Hp, Hv in Hne, Hw. cbn [Js.template Js.toStr] in Hne, Hw.
  set (skey := (id, "PIPELINE#" +:+ pipelineId +:+ "#" +:+ version)) in *.
  subst w'.
  exists id, pipelineId, version, key,
    (DynamoDb.with_key skey (list_to_map snap)), deleted.
  cbn [table set_table].
  assert (DynamoDb.GetItem skey
            (<[key := DynamoDb.apply_sets sets
                        (DynamoDb.current key (table w))]>
               (<[skey := list_to_map snap]> (table w)))
          = Some (DynamoDb.with_key skey (list_to_map snap))) as Hget
    by (by rewrite GetItem_insert_ne, GetItem_insert_eq).
  assert (DynamoDb.with_key skey (list_to_map snap) !! "deleted"
          = Some (VBool deleted)) as Hflag
    by (by rewrite with_key_lookup).
  split; [done|]. split; [done|]. split; [done|]. split; [done|].
  split; [done|]. split; [done|]. split; [done|]. split.
  - unfold Store.getPipeline, mbind, M_bind, gets, mret, M_ret.
    cbn [table set_table default from_option Datatypes.id]. fold skey.
    rewrite Hget. unfold Store.liveItem. rewrite Hflag.
    by destruct deleted.
  - unfold attribute. rewrite GetItem_insert_eq. cbn.
    unfold DynamoDb.current.
    assert (∀ it : Item,
              DynamoDb.with_key key (DynamoDb.apply_sets sets it) !! "deleted"
              = it !! "deleted") as Hkeep.
    { intros it. rewrite with_key_lookup by done.
      rewrite apply_sets_assoc_last, (fields_assoc_last _ _ _ Hsets).
      reflexivity. }
    rewrite Hkeep. by destruct (DynamoDb.GetItem key (table w)).
Qed.

(** ** Writes to a plugin that is not stored *)

(** X23. The writes to a plugin need its record and never create one: on
    an id under which nothing is stored [deletePlugin] and [updatePlugin]
    fail with a failed condition and [bindPlugins] is refused, and the
    table is left as it is. *)
Theorem plugin_writes_need_record (id : string) (w : World) :
  DynamoDb.GetItem (pluginKey id) (table w) = None →
  Store.deletePlugin id w = (inl ConditionalCheckFailedException, w)
  ∧ (∀ now plugin, plugin !! "id" = Some (VStr id) →
                   Store.updatePlugin now plugin w
                   = (inl ConditionalCheckFailedException, w))
  ∧ (∀ now rest count,
       Records.bindPlugins now (id :: rest) count w
       = (inl ValidationException, w)).
Proof.
  intros Hfree.
  assert (bindCountOf id (table w) = None) as Hnone.
  { unfold bindCountOf, DynamoDb.current. by rewrite Hfree. }
  assert (DynamoDb.eval Store.unbound
            (DynamoDb.current (pluginKey id) (table w)) = false) as Hbound.
  { apply not_true_is_false. by rewrite unbound_eval, Hnone. }
  split; [by rewrite deletePlugin_gate, Hbound|].
  split; [intros now plugin Hid; by apply (updatePlugin_gate _ _ id)|].
  intros now rest count. unfold Records.bindPlugins. cbn [forEach].
  unfold mbind, M_bind.
  change ("PLUGIN#" +:+ id) with (pluginKey id).2.
  change (id, (pluginKey id).2) with (pluginKey id).
  by rewrite bind_step, Hnone.
Qed.

(** ** The status of a deleted pipeline *)

Lemma NoDup_fmap_filter {A B} (f : A → B) (P : A → Prop)
    `{∀ x, Decision (P x)} (l : list A) :
  NoDup (f <$> l) → NoDup (f <$> filter P l).
Proof.
  induction l as [|x l IH]; [done|]. cbn [fmap list_fmap].
  rewrite NoDup_cons. intros [Hnin Hnd]. rewrite filter_cons.
  destruct (decide (P x)); [|by apply IH].
  cbn [fmap list_fmap]. apply NoDup_cons. split; [|by apply IH].
  intros Hin. apply Hnin. apply list_elem_of_fmap in Hin as (y & -> & Hy).
  apply list_elem_of_filter in Hy as [_ Hy]. by apply list_elem_of_fmap_2.
Qed.

Lemma Scan_NoDup flt tbl : NoDup (DynamoDb.key_of <$> DynamoDb.Scan flt tbl).
Proof.
  unfold DynamoDb.Scan. apply NoDup_fmap_filter.
  unfold DynamoDb.all_items. rewrite <- list_fmap_compose.
  rewrite (list_fmap_ext _ (Some ∘ fst) (map_to_list tbl)).
  - rewrite list_fmap_compose. apply (NoDup_fmap_2 _).
    apply NoDup_fst_map_to_list.
  - intros i [k it] _. cbn. apply key_of_with_key.
Qed.

Lemma deletePipeline_loop projectId (records : list Item) :
  ∀ w w',
    NoDup (DynamoDb.key_of <$> records) →
    Forall (λ p, ∃ t, DynamoDb.GetItem (projectId, t) (table w) = Some p)
           records →
    forEach (λ pipeline : Item,
       match Store.deletingStatus (pipeline !! "status"),
             pipeline !! "type" with
       | inl e, _ => throw e
       | inr status, Some (VStr type) =>
           send (DynamoDb.UpdateItem (projectId, type) None
                   [("deleted", VBool true); ("status", status)])
       | inr _, _ => throw ValidationException
       end) records w = (inr (), w') →
    (∀ p, p ∈ records →
          ∃ k status,
            DynamoDb.key_of p = Some k
            ∧ Store.deletingStatus (p !! "status") = inr status
            ∧ DynamoDb.GetItem k (table w')
              = Some (<["status" := status]> (<["deleted" := VBool true]> p)))
    ∧ (∀ k, Some k ∉ DynamoDb.key_of <$> records →
            DynamoDb.GetItem k (table w') = DynamoDb.GetItem k (table w)).
Proof.
  induction records as [|p rest IH]; intros w w' Hnd Hall Hrun.
  - injection Hrun as <-. split; [|done].
    intros p Hin. by apply elem_of_nil in Hin.
  - cbn [fmap list_fmap] in Hnd. apply NoDup_cons in Hnd as [Hnin Hnd].
    apply Forall_cons in Hall as [[t Hget] Hall].
    pose proof (GetItem_key _ _ _ Hget) as Hk.
    destruct (GetItem_id_type _ _ _ Hget) as [Hid Hty]. cbn [fst snd] in *.
    cbn [forEach] in Hrun. unfold mbind, M_bind in Hrun. rewrite Hty in Hrun.
    destruct (Store.deletingStatus (p !! "status")) as [e|status] eqn:Hst;
      [done|].
    unfold send, DynamoDb.UpdateItem in Hrun. cbn [from_option] in Hrun.
    rewrite (current_stored _ _ _ Hget) in Hrun.
    change (DynamoDb.apply_sets _ p)
      with (<["status" := status]> (<["deleted" := VBool true]> p)) in Hrun.
    set (p' := <["status" := status]> (<["deleted" := VBool true]> p)) in *.
    destruct (IH (set_table (<[(projectId, t) := p']> (table w)) w) w' Hnd)
      as [Hdone Hframe]; [|exact Hrun|].
    { rewrite Forall_forall in Hall |- *. intros q Hq.
      destruct (Hall q Hq) as [t' Hq']. exists t'. cbn [table set_table].
      rewrite GetItem_insert_ne; [done|]. intros Heq. apply Hnin.
      rewrite Hk, Heq, <- (GetItem_key _ _ _ Hq').
      by apply list_elem_of_fmap_2. }
    cbn [table set_table] in *. split.
    + intros q [->|Hq]%elem_of_cons; [|by apply Hdone].
      exists (projectId, t), status. split; [done|]. split; [done|].
      rewrite Hframe by (by rewrite <- Hk). rewrite GetItem_insert_eq.
      f_equal. apply with_key_id; unfold p'; by rewrite !lookup_insert_ne.
    + intros k Hnk. cbn [fmap list_fmap] in Hnk.
      apply not_elem_of_cons in Hnk as [Hne Hnk].
      rewrite Hframe by done. apply GetItem_insert_ne. congruence.
Qed.

(** X24. [deletePipeline] marks what it deletes: a completed call leaves
    each live record of the pipeline with [deleted = true] and with the
    status it had, in which the field [status] is set to DELETING when
    the status is a document; every other attribute of the record is
    kept. *)
Theorem deletePipeline_marks_deleting (projectId pipelineId : string)
    (w w' : World) :
  Store.deletePipeline projectId pipelineId w = (inr (), w') →
  ∀ k p,
    DynamoDb.GetItem k (table w) = Some p →
    DynamoDb.eval (pipelineRecords projectId pipelineId) p = true →
    ∃ status,
      Store.deletingStatus (p !! "status") = inr status
      ∧ DynamoDb.GetItem k (table w')
        = Some (<["status" := status]> (<["deleted" := VBool true]> p))
      ∧ ∀ m, p !! "status" = Some (VMap m) →
             status = VMap (<["status" := DELETING]> m).
Proof.
  intros Hrun k p Hget Hflt.
  destruct (deletePipeline_loop projectId
              (DynamoDb.Scan (pipelineRecords projectId pipelineId) (table w))
              w w' (Scan_NoDup _ _)) as [Hdone _]; [|exact Hrun|].
  { apply Forall_forall. intros q Hq.
    apply elem_of_Scan in Hq as [[[i t] Hq] Hf]. exists t.
    unfold pipelineRecords in Hf. rewrite !eval_CAnd, eval_CEq_str in Hf.
    destruct Hf as [[Hf _] _].
    destruct (GetItem_id_type _ _ _ Hq) as [Hid _]. cbn in Hid.
    by replace projectId with i by congruence. }
  destruct (Hdone p) as (k' & status & Hk' & Hst & Hget').
  { apply elem_of_Scan. eauto. }
  assert (k' = k) as -> by (apply GetItem_key in Hget; congruence).
  exists status. split; [done|]. split; [done|].
  intros m Hm. rewrite Hm in Hst. cbn in Hst. by injection Hst as <-.
Qed.

(** ** The further properties on the example states *)

Lemma pair_ok {A B} (r : A * B) x : r.1 = x → r = (x, r.2).
Proof. destruct r as [a b]; simpl; congruence. Qed.

Lemma flagged_intro (o : option Item) b :
  o ≫= (.!! "deleted") = Some (VBool b) → flagged o.
Proof. intros Ho p ->. eauto. Qed.

Lemma inr_default {E A} (r : E + A) (d : A) :
  is_Some (match r with inr x => Some x | inl _ => None end) →
  r = inr (match r with inr x => x | inl _ => d end).
Proof. destruct r; [by intros [? ?]|done]. Qed.

(** Creating the example project. *)
Lemma createProject_getProject_witness :
  ∃ w' p,
    Records.createProject false 50 exampleProject exampleWorld
    = (inr (Some (VStr "p2")), w')
    ∧ Store.getProject "p2" w' = (inr (Some p), w')
    ∧ p !! "status" = Some (VStr "ACTIVED").
Proof.
  destruct (createProject_getProject false 50 exampleProject "p2" exampleWorld
              ltac:(vm_compute; reflexivity)
              ltac:(right; apply (bool_decide_unpack _); vm_compute; exact I))
    as (w' & p & Hrun & Hget & _ & Hst & _).
  exists w', p. split; [exact Hrun|]. split; [exact Hget|exact Hst].
Defined.

(** Deleting the example project hides its application. *)
Lemma deleteProject_cascades_witness :
  ∃ w', Store.deleteProject "p1" exampleWorld = (inr (), w')
        ∧ Store.getApplication "p1" "app1" w' = (inr None, w').
Proof.
  destruct (deleteProject_cascades "p1" exampleWorld)
    as (w' & Hrun & _ & Happ & _).
  exists w'. split; [exact Hrun|]. apply Happ.
  apply (flagged_intro _ false). vm_compute. reflexivity.
Defined.

(** The example project exists. *)
Lemma existence_agrees_witness :
  ∃ b, Records.isProjectExisted "p1" exampleWorld = (inr b, exampleWorld)
       ∧ (b = true ↔ ∃ p, Store.getProject "p1" exampleWorld
                          = (inr (Some p), exampleWorld)).
Proof. exact (proj1 (existence_agrees exampleWorld) "p1"). Defined.

(** Renaming the example project. *)
Lemma update_sets_present_fields_witness :
  ∃ w' p,
    Records.updateProject 80 exampleRename exampleWorld = (inr (), w')
    ∧ DynamoDb.GetItem ("p1", "METADATA#p1") (table w') = Some p
    ∧ p !! "updateAt" = Some (VNum 80).
Proof.
  destruct (proj1 (update_sets_present_fields 80 exampleRename "p1"
                     exampleWorld) ltac:(vm_compute; reflexivity))
    as (w' & p & Hrun & Hget & (Hu & _) & _).
  exists w', p. split; [exact Hrun|]. split; [exact Hget|exact Hu].
Defined.

(** An update of a project that is not stored. *)
Lemma updateProject_creates_unlisted_record_witness :
  ∃ w' p,
    Records.updateProject 80 exampleGhost exampleWorld = (inr (), w')
    ∧ Store.getProject "p9" w' = (inr (Some p), w')
    ∧ p !! "deleted" = None.
Proof.
  destruct (updateProject_creates_unlisted_record 80 exampleGhost "p9"
              exampleWorld ltac:(vm_compute; reflexivity)
              ltac:(vm_compute; reflexivity))
    as (w' & p & Hrun & Hget & Hdel & _).
  exists w', p. split; [exact Hrun|]. split; [exact Hget|exact Hdel].
Defined.

(** Adding the example application. *)
Lemma addApplication_getApplication_witness :
  ∃ w' p,
    Records.addApplication false 50 exampleApp exampleWorld
    = (inr (Some (VStr "app2")), w')
    ∧ Store.getApplication "p1" "app2" w' = (inr (Some p), w')
    ∧ p !! "deleted" = Some (VBool false).
Proof.
  destruct (addApplication_getApplication false 50 exampleApp "p1" "app2"
              exampleWorld ltac:(vm_compute; reflexivity)
              ltac:(vm_compute; reflexivity)
              ltac:(right; apply (bool_decide_unpack _); vm_compute; exact I))
    as (w' & p & Hrun & Hget & _ & _ & _ & Hdel & _).
  exists w', p. split; [exact Hrun|]. split; [exact Hget|exact Hdel].
Defined.

(** Deleting the example application. *)
Lemma deleteApplication_hides_witness :
  ∃ w', Records.deleteApplication "p1" "app1" exampleWorld = (inr (), w')
        ∧ Store.getApplication "p1" "app1" w' = (inr None, w').
Proof.
  destruct (deleteApplication_hides "p1" "app1" exampleWorld)
    as (w' & Hrun & Hget & _).
  exists w'. split; [exact Hrun|exact Hget].
Defined.

(** Adding the example pipeline under another pipeline id. *)
Lemma addPipeline_getPipeline_witness :
  ∃ w' p,
    Records.addPipeline false 50 exampleSecond exampleWorld
    = (inr (Some (VStr "b")), w')
    ∧ DynamoDb.GetItem ("p1", "PIPELINE#b#latest") (table w') = Some p
    ∧ p !! "versionTag" = Some (VStr "latest").
Proof.
  destruct (addPipeline_getPipeline false 50 exampleSecond "p1" "b"
              exampleWorld ltac:(vm_compute; reflexivity)
              ltac:(vm_compute; reflexivity)
              ltac:(right; apply (bool_decide_unpack _); vm_compute; exact I))
    as (w' & p & Hrun & Hget & _ & _ & Htag & _).
  exists w', p. split; [exact Hrun|]. split; [exact Hget|exact Htag].
Defined.

(** The update of the example pipeline goes through. *)
Lemma updatePipeline_succeeds_iff_witness :
  ∃ w', Store.updatePipeline 200 exampleUpdate exampleLatest exampleWorld
        = (inr (), w').
Proof.
  assert (Hs : sendable 200 exampleUpdate exampleLatest).
  { apply sendable_intro.
    - apply (bool_decide_unpack _). vm_compute. exact I.
    - vm_compute. discriminate. }
  destruct (updatePipeline_succeeds_iff 200 exampleUpdate exampleLatest
              exampleWorld Hs) as (skey & Hskey & Hiff & _).
  apply (proj2 Hiff).
  assert (skey = ("p1", "PIPELINE#a#100")) as ->.
  { vm_compute in Hskey. injection Hskey as <-. reflexivity. }
  split; vm_compute; reflexivity.
Defined.

(** The same update, sent again, is turned down. *)
Lemma updatePipeline_snapshots_once_witness :
  let r := Store.updatePipeline 200 exampleUpdate exampleLatest exampleWorld in
  r.1 = inr ()
  ∧ ∃ e, Store.updatePipeline 300 exampleUpdate exampleLatest r.2
         = (inl e, r.2).
Proof.
  cbv zeta.
  assert (H1 : (Store.updatePipeline 200 exampleUpdate exampleLatest
                  exampleWorld).1 = inr ()) by (vm_compute; reflexivity).
  split; [exact H1|].
  exact (updatePipeline_snapshots_once 200 exampleUpdate exampleLatest
           exampleWorld _ (run_ok _ _ H1) 300 exampleUpdate exampleLatest
           eq_refl).
Defined.

(** An update in place of the example pipeline at its stored version. *)
Lemma updatePipelineAtCurrentVersion_guard_witness :
  ∃ w' p,
    Records.updatePipelineAtCurrentVersion 200 exampleUpdate exampleWorld
    = (inr (), w')
    ∧ DynamoDb.GetItem ("p1", "PIPELINE#a#latest") (table w') = Some p
    ∧ p !! "updateAt" = Some (VStr (Js.toString 200)).
Proof.
  destruct (proj2 (updatePipelineAtCurrentVersion_guard 200 exampleUpdate
                     "p1" "PIPELINE#a#latest" "100" exampleWorld
                     ltac:(vm_compute; reflexivity)
                     ltac:(vm_compute; reflexivity)
                     ltac:(vm_compute; reflexivity)
                     ltac:(apply (bool_decide_unpack _); vm_compute; exact I))
              ltac:(vm_compute; reflexivity))
    as (w' & old & p & Hrun & _ & Hget & _ & _ & Hu & _).
  exists w', p. split; [exact Hrun|]. split; [exact Hget|exact Hu].
Defined.

(** Binding the stored plugin twice in one call. *)
Lemma bindPlugins_counts_witness :
  ∃ w', Records.bindPlugins 60 ["plug1"; "plug1"] 1 exampleWorld = (inr (), w')
        ∧ bindCountOf "plug1" (table w') = Some 2.
Proof.
  destruct (bindPlugins_counts 60 1 ["plug1"; "plug1"] exampleWorld
              ltac:(apply (bool_decide_unpack _); vm_compute; exact I))
    as (w' & Hrun & Hcount & _).
  exists w'. split; [exact Hrun|].
  exact (Hcount "plug1" 0 ltac:(vm_compute; reflexivity)).
Defined.

(** The stored plugin cannot be deleted while it is bound. *)
Lemma bound_plugins_protected_witness :
  ∃ w1, Records.bindPlugins 60 ["plug1"] 1 exampleWorld = (inr (), w1)
        ∧ Store.deletePlugin "plug1" w1
          = (inl ConditionalCheckFailedException, w1).
Proof.
  destruct (bound_plugins_protected 60 61 1 ["plug1"] exampleWorld
              ltac:(apply (bool_decide_unpack _); vm_compute; exact I))
    as (w1 & w2 & Hrun & _ & _ & Hgate).
  exists w1. split; [exact Hrun|].
  exact (proj1 (Hgate "plug1" ltac:(left) ltac:(vm_compute; reflexivity)
                  ltac:(lia))).
Defined.

(** Binding the stored plugin and one that does not exist. *)
Lemma bindPlugins_stops_at_missing_witness :
  ∃ w', Records.bindPlugins 60 ["plug1"; "nope"; "plug1"] 1 exampleWorld
        = (inl ValidationException, w')
        ∧ bindCountOf "plug1" (table w') = Some 1.
Proof.
  destruct (bindPlugins_stops_at_missing 60 1 ["plug1"] "nope" ["plug1"]
              exampleWorld
              ltac:(apply (bool_decide_unpack _); vm_compute; exact I)
              ltac:(vm_compute; reflexivity))
    as (w' & Hrun & Hcount).
  exists w'. split; [exact Hrun|]. rewrite Hcount. vm_compute. reflexivity.
Defined.

(** Adding the example plugin. *)
Lemma addPlugin_getPlugin_witness :
  ∃ w' p,
    Records.addPlugin false 70 examplePlugin exampleWorld
    = (inr (Some (VStr "plug2")), w')
    ∧ Store.getPlugin "plug2" w' = (inr (Some p), w')
    ∧ p !! "status" = Some (VStr "Disabled").
Proof.
  destruct (addPlugin_getPlugin false 70 examplePlugin "plug2" exampleWorld
              ltac:(vm_compute; reflexivity)
              ltac:(right; apply (bool_decide_unpack _); vm_compute; exact I))
    as (w' & p & Hrun & _ & _ & Hst & _ & _ & _ & Hget & _).
  exists w', p. split; [exact Hrun|]. split; [|exact Hst].
  apply Hget. left. reflexivity.
Defined.

(** The plugin stored under BUILDIN-9 is not found by [getPlugin]. *)
Lemma buildIn_prefix_shadows_stored_plugin_witness :
  Store.getPlugin "BUILDIN-9" exampleShadowed = (inr None, exampleShadowed)
  ∧ Records.isPluginExisted "BUILDIN-9" exampleShadowed
    = (inr true, exampleShadowed).
Proof.
  assert (Hdic : is_Some (dictionary exampleShadowed !! "BuildInPlugins")).
  { apply (bool_decide_unpack _). vm_compute. exact I. }
  assert (Hget : is_Some (DynamoDb.GetItem (pluginKey "BUILDIN-9")
                            (table exampleShadowed))).
  { apply (bool_decide_unpack _). vm_compute. exact I. }
  set (dic := default ∅ (dictionary exampleShadowed !! "BuildInPlugins")).
  set (p := default ∅ (DynamoDb.GetItem (pluginKey "BUILDIN-9")
                         (table exampleShadowed))).
  set (catalog := match Store.buildInPlugins dic with
                  | inr c => c
                  | inl _ => []
                  end).
  assert (Hcat : Store.buildInPlugins dic = inr catalog).
  { apply inr_default. apply (bool_decide_unpack _). vm_compute. exact I. }
  assert (Hother : Forall (λ q : Item,
                     Js.strict_eq_str (q !! "id") "BUILDIN-9" = false)
                     catalog).
  { apply (bool_decide_unpack _). vm_compute. exact I. }
  assert (Hlive : p !! "deleted" = Some (VBool false))
    by (vm_compute; reflexivity).
  assert (Hgsi : DynamoDb.in_gsi "PLUGIN" p = true)
    by (vm_compute; reflexivity).
  destruct (buildIn_prefix_shadows_stored_plugin "BUILDIN-9" dic p catalog
              exampleShadowed eq_refl (Some_default _ Hdic) Hcat Hother
              (Some_default _ Hget) Hlive Hgsi)
    as (Hnone & Hexists & _).
  split; [exact Hnone|exact Hexists].
Defined.

(** Deleting pipeline [a] of the example project, then asking for it. *)
Lemma delete_then_details_not_found_witness :
  let r := PipelineServ.delete "a" "p1" examplePrefixed in
  r.1 = ApiSuccess 200 PNull (Some "Pipeline deleted.")
  ∧ PipelineServ.details "a" "p1" r.2
    = (ApiFail 404 "Pipeline not found", r.2).
Proof.
  cbv zeta.
  assert (H1 : (PipelineServ.delete "a" "p1" examplePrefixed).1
               = ApiSuccess 200 PNull (Some "Pipeline deleted."))
    by (vm_compute; reflexivity).
  split; [exact H1|].
  apply (proj1 (delete_then_details_not_found "a" "p1" examplePrefixed _
                  (pair_ok _ _ H1))).
  apply (flagged_intro _ false). vm_compute. reflexivity.
Defined.

(** Deleting pipeline [a] hides pipeline [ab]. *)
Lemma deletePipeline_reaches_longer_ids_witness :
  let r := Store.deletePipeline "p1" "a" examplePrefixed in
  r.1 = inr ()
  ∧ Store.getPipeline "p1" "ab" None r.2 = (inr None, r.2).
Proof.
  cbv zeta.
  assert (H1 : (Store.deletePipeline "p1" "a" examplePrefixed).1 = inr ())
    by (vm_compute; reflexivity).
  split; [exact H1|].
  apply (deletePipeline_reaches_longer_ids "p1" "a" "ab" None examplePrefixed
           _ (run_ok _ _ H1) eq_refl).
  apply (flagged_intro _ false). vm_compute. reflexivity.
Defined.

(** The pipelines of the example state, one per page. *)
Lemma pages_cover_listing_witness :
  pages (Store.listPipeline None None None true 1)
    (Z.to_nat
       (lastPage
          (Z.of_nat
             (length (itemsOf (Store.listPipeline None None None false 1 1
                                 examplePrefixed)))) 1))
    examplePrefixed
  = itemsOf (Store.listPipeline None None None false 1 1 examplePrefixed).
Proof.
  exact (proj1 (pages_cover_listing examplePrefixed None None None "p1" None 1
                  ltac:(lia))).
Defined.

(** A page size of 0. *)
Lemma listing_page_out_of_range_witness :
  ∃ l, Store.listProjects None true 0 1 exampleWorld = (inr l, exampleWorld)
       ∧ totalCount l = 1 ∧ items l = [].
Proof.
  destruct (proj1 (proj2 (listing_page_out_of_range exampleWorld None None
                            None "p1" None [] 0 1 ltac:(lia)
                            ltac:(right; reflexivity))))
    as (l & Hrun & Htotal & Hzero & _).
  exists l. split; [exact Hrun|]. split.
  - rewrite Htotal. vm_compute. reflexivity.
  - apply Hzero. left. reflexivity.
Defined.

(** The projects of the example state, in descending order. *)
Lemma listing_order_witness :
  itemsOf (Store.listProjects (Some "desc") false 10 1 exampleWorld)
  = reverse (itemsOf (Store.listProjects (Some "asc") false 10 1 exampleWorld)).
Proof.
  exact (proj2 (proj1 (proj2 (listing_order exampleWorld None None "p1" None
                                (Some "desc") 10 1)))
           ltac:(discriminate)).
Defined.

(** The version replaced by the update of the example pipeline. *)
Lemma snapshot_read_by_version_witness :
  let r := Store.updatePipeline 200 exampleUpdate exampleLatest exampleWorld in
  r.1 = inr ()
  ∧ ∃ snapshot, Store.getPipeline "p1" "a" (Some "100") r.2
                = (inr (Some snapshot), r.2).
Proof.
  cbv zeta.
  assert (H1 : (Store.updatePipeline 200 exampleUpdate exampleLatest
                  exampleWorld).1 = inr ()) by (vm_compute; reflexivity).
  split; [exact H1|].
  destruct (snapshot_read_by_version 200 exampleUpdate exampleLatest
              exampleWorld _ (run_ok _ _ H1))
    as (id & pipelineId & version & key & snapshot & deleted
        & Hid & Hpid & Hver & Hdel & _ & _ & _ & Hget & _).
  vm_compute in Hid, Hpid, Hver, Hdel.
  injection Hid as <-. injection Hpid as <-. injection Hver as <-.
  injection Hdel as <-.
  exists snapshot. exact Hget.
Defined.

(** Deleting a plugin that is not stored. *)
Lemma plugin_writes_need_record_witness :
  Store.deletePlugin "nope" exampleWorld
  = (inl ConditionalCheckFailedException, exampleWorld).
Proof.
  exact (proj1 (plugin_writes_need_record "nope" exampleWorld
                  ltac:(vm_compute; reflexivity))).
Defined.

(** The status of pipeline [a] after its deletion. *)
Lemma deletePipeline_marks_deleting_witness :
  let r := Store.deletePipeline "p1" "a" examplePrefixed in
  r.1 = inr ()
  ∧ (attribute ("p1", "PIPELINE#a#latest") "status" (table r.2)
       ≫= fieldOf "status") = Some DELETING.
Proof.
  cbv zeta.
  assert (H1 : (Store.deletePipeline "p1" "a" examplePrefixed).1 = inr ())
    by (vm_compute; reflexivity).
  split; [exact H1|].
  assert (Hget : is_Some (DynamoDb.GetItem ("p1", "PIPELINE#a#latest")
                            (table examplePrefixed))).
  { apply (bool_decide_unpack _). vm_compute. exact I. }
  destruct (deletePipeline_marks_deleting "p1" "a" examplePrefixed _
              (run_ok _ _ H1) _ _ (Some_default _ Hget)
              ltac:(vm_compute; reflexivity))
    as (status & _ & Hget' & Hdoc).
  unfold attribute. rewrite Hget'. cbn [mbind option_bind].
  rewrite lookup_insert_eq. cbn [mbind option_bind].
  rewrite (Hdoc exampleActive ltac:(vm_compute; reflexivity)).
  cbn [fieldOf]. apply lookup_insert_eq.
Defined.
